(** * A shallow embedding of the LLM proxy worker (src/index.ts)

    The worker is one exported object with the methods [fetch],
    [handleClaudeGeminiTranslation], [fetchWithProxy], [maskClientInfo],
    [getApiConfig] and [getAllowedKeysForProvider], the free function
    [mapClaudeModelToGemini], and two module-level caches.  Each of them is
    translated below under its own name.

    Conventions of the embedding.
    - A JavaScript string is a [string] of code units below 256 (Latin-1).
      HTTP header values are byte strings, so this is exact for everything
      that comes out of a [Headers] object.
    - A value that may be [undefined] or [null] is an [option]; JavaScript
      truthiness is written out where the source relies on it.
    - A thrown exception is the [Throw] case of [Result]; the module-level
      caches are threaded through as an explicit [Caches] state.
    - What the runtime supplies (JSON parsing, URL parsing of configuration
      text, the network, the random source) is gathered in a [Host] record
      over which every theorem quantifies. *)

From Stdlib Require Import ZArith String Ascii List Bool Lia.
From stdpp Require Import gmap strings list pretty.

Open Scope string_scope.

(** ** JavaScript strings *)

Module JsString.

Definition code (c : ascii) : N := N_of_ascii c.

(** [\s] of a regular expression and the characters [trim] strips:
    TAB, LF, VT, FF, CR, SPACE and NBSP are the ones below 256. *)
Definition is_space (c : ascii) : bool :=
  let n := code c in
  ((9 <=? n) && (n <=? 13) || (n =? 32) || (n =? 160))%N.

(** [String.prototype.toLowerCase] on one Latin-1 code unit. *)
Definition lower_char (c : ascii) : ascii :=
  let n := code c in
  if ((65 <=? n) && (n <=? 90)
      || (192 <=? n) && (n <=? 214)
      || (216 <=? n) && (n <=? 222))%N
  then ascii_of_N (n + 32) else c.

Fixpoint toLowerCase (s : string) : string :=
  match s with
  | "" => ""
  | String c s' => String (lower_char c) (toLowerCase s')
  end.

(** Byte-lowercasing of header names touches A-Z only. *)
Definition lower_byte (c : ascii) : ascii :=
  let n := code c in
  if ((65 <=? n) && (n <=? 90))%N then ascii_of_N (n + 32) else c.

Fixpoint byte_lowercase (s : string) : string :=
  match s with
  | "" => ""
  | String c s' => String (lower_byte c) (byte_lowercase s')
  end.

(** [s.startsWith(p)] *)
Definition startsWith (s p : string) : bool := String.prefix p s.

(** [s.includes(p)] *)
Fixpoint includes (s p : string) : bool :=
  String.prefix p s ||
  match s with
  | "" => false
  | String _ s' => includes s' p
  end.

Definition is_empty (s : string) : bool :=
  match s with "" => true | _ => false end.

(** Truthiness of a string: [Boolean(s)]. *)
Definition truthy (s : string) : bool := negb (is_empty s).

Fixpoint trimStart (s : string) : string :=
  match s with
  | "" => ""
  | String c s' => if is_space c then trimStart s' else s
  end.

Fixpoint trimEnd (s : string) : string :=
  match s with
  | "" => ""
  | String c s' =>
      let r := trimEnd s' in
      if is_space c && is_empty r then "" else String c r
  end.

Definition trim (s : string) : string := trimEnd (trimStart s).

(** [s.split(sep)] for a one-character separator: never the empty list. *)
Fixpoint split (sep : ascii) (s : string) : list string :=
  match s with
  | "" => [""]
  | String c s' =>
      if Ascii.eqb c sep then "" :: split sep s'
      else match split sep s' with
           | h :: t => String c h :: t
           | [] => [String c ""]
           end
  end.

(** [parts.join(sep)] on an array of strings. *)
Definition join (sep : string) (parts : list string) : string :=
  String.concat sep parts.

(** [arr.includes(x)] on an array of strings (strict equality). *)
Definition array_includes (arr : list string) (x : string) : bool :=
  existsb (String.eqb x) arr.

(** [s.replace(/^Bearer\s+/, '')]: the prefix goes only when at least one
    space character follows the word; otherwise [s] is returned as it is. *)
Definition replace_BEARER_PREFIX (s : string) : string :=
  if startsWith s "Bearer" then
    let rest := String.substring 6 (String.length s - 6) s in
    match rest with
    | String c _ => if is_space c then trimStart rest else s
    | "" => s
    end
  else s.

(** The regular expression [/^Bearer\s+/] matches [s]. *)
Definition matches_BEARER_PREFIX (s : string) : bool :=
  startsWith s "Bearer" &&
  match String.substring 6 (String.length s - 6) s with
  | String c _ => is_space c
  | "" => false
  end.

End JsString.

Import JsString.

(** ** The Fetch API's [Headers] class

    Names compare without regard to ASCII case and [get] joins the values
    of a repeated name with a comma and a space.  Values held by a
    [Headers] object are already normalised, and every value the worker
    writes is a constant or such a value with a prefix removed, so [set]
    has nothing to strip.  Iteration is sorted by name in the API, so the
    position of a pair in the list is not observable. *)

Module Headers.

Definition t := list (string * string).

Definition same_name (n m : string) : bool :=
  String.eqb (byte_lowercase n) (byte_lowercase m).

Definition named (name : string) (p : string * string) : bool :=
  same_name (fst p) name.

Definition get (h : t) (name : string) : option string :=
  match List.filter (named name) h with
  | [] => None
  | vs => Some (join ", " (map snd vs))
  end.

Definition has (h : t) (name : string) : bool := existsb (named name) h.

Definition delete (h : t) (name : string) : t :=
  List.filter (fun p => negb (named name p)) h.

Definition set (h : t) (name value : string) : t :=
  (delete h name ++ [(byte_lowercase name, value)])%list.

(** [new Headers(init)] from an object literal. *)
Definition of_literal (init : list (string * string)) : t :=
  fold_left (fun h p => set h (fst p) (snd p)) init [].

End Headers.

(** ** The WHATWG [URL] class, by components

    [request.url] is always the serialisation of a parsed URL, so the model
    keeps the components.  [protocol] ends with its colon, [port] is empty
    for the scheme's default port, [search] and [hash] are empty or start
    with their delimiter. *)

Record URL := mkURL {
  protocol : string;
  hostname : string;
  port : string;
  pathname : string;
  search : string;
  hash : string
}.

Module Url.

Definition default_port (proto : string) : option string :=
  if String.eqb proto "http:" then Some "80"
  else if String.eqb proto "https:" then Some "443"
  else if String.eqb proto "ws:" then Some "80"
  else if String.eqb proto "wss:" then Some "443"
  else if String.eqb proto "ftp:" then Some "21"
  else None.

Definition is_special (proto : string) : bool :=
  match default_port proto with
  | Some _ => true
  | None => String.eqb proto "file:"
  end.

Definition toString (u : URL) : string :=
  protocol u ++ "//" ++ hostname u
    ++ (if is_empty (port u) then "" else ":" ++ port u)
    ++ pathname u ++ search u ++ hash u.

(** [u.hostname = h], for a valid host name [h]. *)
Definition set_hostname (u : URL) (h : string) : URL :=
  mkURL (protocol u) h (port u) (pathname u) (search u) (hash u).

(** [u.protocol = p]: refused between special and non-special schemes;
    a port that is the new scheme's default is dropped, any other port
    stays. *)
Definition set_protocol (u : URL) (p : string) : URL :=
  if Bool.eqb (is_special (protocol u)) (is_special p) then
    let port' :=
      match default_port p with
      | Some d => if String.eqb (port u) d then "" else port u
      | None => port u
      end in
    mkURL p (hostname u) port' (pathname u) (search u) (hash u)
  else u.

(** [u.pathname = p] for a path that starts with a slash and is made of
    segments of an already parsed path, on which the setter's re-parse is
    the identity. *)
Definition set_pathname (u : URL) (p : string) : URL :=
  mkURL (protocol u) (hostname u) (port u) p (search u) (hash u).

(** [u.search = s] for the search component of a parsed URL. *)
Definition set_search (u : URL) (s : string) : URL :=
  mkURL (protocol u) (hostname u) (port u) (pathname u) s (hash u).

Definition no_delimiter (s : string) : bool :=
  negb (includes s "/" || includes s "?" || includes s "#"
        || includes s ":" || includes s "@").

(** [new URL(text)] for a bare origin [scheme://host], the form of every
    [baseUrl] of the configuration table.  Other text is refused. *)
Definition parse_origin (text : string) : option URL :=
  match split ":" text with
  | [scheme; rest] =>
      if startsWith rest "//" then
        let host := String.substring 2 (String.length rest - 2) rest in
        if truthy scheme && truthy host && no_delimiter host
        then Some (mkURL (scheme ++ ":") host "" "/" "" "")
        else None
      else None
  | _ => None
  end.

End Url.

(** ** JSON values and the JavaScript operations the worker applies to them

    [JSON.parse] yields a [Json]; [undefined] is [None] in an
    [option Json].  A number is an integer here. *)

#[warnings="-register-all"] Inductive Json :=
| JNull
| JBool (b : bool)
| JNum (n : Z)
| JStr (s : string)
| JArr (items : list Json)
| JObj (fields : list (string * Json)).

Module Js.

Definition lookup (fields : list (string * Json)) (k : string) : option Json :=
  match List.find (fun p => String.eqb (fst p) k) fields with
  | Some p => Some (snd p)
  | None => None
  end.

(** Truthiness of a value that may be [undefined]. *)
Definition truthy (v : option Json) : bool :=
  match v with
  | None | Some JNull => false
  | Some (JBool b) => b
  | Some (JNum n) => negb (n =? 0)%Z
  | Some (JStr s) => JsString.truthy s
  | Some (JArr _) | Some (JObj _) => true
  end.

(** [ToString] of a JSON value, as [Array.prototype.join] applies it. *)
Fixpoint toString (v : Json) : string :=
  match v with
  | JNull => "null"
  | JBool true => "true"
  | JBool false => "false"
  | JNum n => pretty n
  | JStr s => s
  | JArr items =>
      join "," (map (fun x => match x with JNull => "" | _ => toString x end) items)
  | JObj _ => "[object Object]"
  end.

(** [items.join('')]: [undefined] and [null] count as the empty string. *)
Definition join_empty (items : list (option Json)) : string :=
  join "" (map (fun x => match x with
                         | None | Some JNull => ""
                         | Some v => toString v
                         end) items).

(** An object literal handed to [JSON.stringify]: a property whose value
    is [undefined] is left out.  The serialised text is represented by the
    JSON tree it denotes. *)
Definition object_literal (fields : list (string * option Json)) : Json :=
  JObj (omap (fun p => match snd p with
                       | Some v => Some (fst p, v)
                       | None => None
                       end) fields).

End Js.

(** ** Exceptions *)

Record ErrorInfo := mkError { message : string; stack : option string }.

Inductive Thrown :=
| ErrorObject (e : ErrorInfo)   (* [instanceof Error] *)
| NotAnError.

Inductive Result (A : Type) :=
| Ok (a : A)
| Throw (e : Thrown).
Arguments Ok {A} a.
Arguments Throw {A} e.

Definition bind {A B} (r : Result A) (k : A -> Result B) : Result B :=
  match r with
  | Ok a => k a
  | Throw e => Throw e
  end.

Notation "'let*' x ':=' r 'in' k" := (bind r (fun x => k))
  (at level 10, x name, r at level 100, k at level 200).

Fixpoint mapM {A B} (f : A -> Result B) (l : list A) : Result (list B) :=
  match l with
  | [] => Ok []
  | x :: l' =>
      let* y := f x in
      let* ys := mapM f l' in
      Ok (y :: ys)
  end.

(** The faults the engine itself raises, all of them [TypeError] or
    [RangeError] objects whose text the engine chooses. *)
Inductive Fault :=
| InvalidURL
| PropertyOfNull
| NotAFunction
| BadResponseInit.

(** ** Requests and responses

    A body is the text it carries.  Text that the worker or a caller
    produced with [JSON.stringify] is kept as the tree it denotes, and
    reading it back with [json()] gives that tree. *)

Inductive Content :=
| Text (s : string)
| Stringified (j : Json).

Record Request := mkRequest {
  method : string;
  url : URL;
  headers : Headers.t;
  body : option Content         (* [None] is a null body *)
}.

Record Response := mkResponse {
  status : Z;
  statusText : string;
  resp_headers : Headers.t;
  resp_body : option Content
}.

(** What comes back from the network. *)
Record Upstream := mkUpstream {
  up_status : Z;
  up_statusText : string;
  up_headers : Headers.t;
  up_body : option Content
}.

Record Host := mkHost {
  JSON_parse : string -> ErrorInfo + Json;
  URL_parse : string -> option URL;
  global_fetch : Request -> Result Upstream;
  (** the digits of [Math.random().toString(36)] after the leading "0." *)
  Math_random_digits : list (fin 36);
  engine_error : Fault -> ErrorInfo
}.

Definition raise {A} (host : Host) (f : Fault) : Result A :=
  Throw (ErrorObject (engine_error host f)).

Record Env := mkEnv {
  ALLOWED_ANTHROPIC_KEYS : option string;
  ALLOWED_OPENAI_KEYS : option string;
  ALLOWED_GOOGLE_KEYS : option string;
  ALLOWED_GROQ_KEYS : option string;
  ALLOWED_OPENROUTER_KEYS : option string;
  PROXY_URL : option string
}.


(** [await x.json()] on a request or response body. *)
Definition json (host : Host) (b : option Content) : Result Json :=
  match b with
  | Some (Stringified j) => Ok j
  | Some (Text s) =>
      match JSON_parse host s with
      | inr j => Ok j
      | inl e => Throw (ErrorObject e)
      end
  | None =>
      match JSON_parse host "" with
      | inr j => Ok j
      | inl e => Throw (ErrorObject e)
      end
  end.

(** [v.k] for one of the property names the worker reads (none of them is
    defined on a prototype): reading from [null] throws, an object gives its
    own property, every other value gives [undefined]. *)
Definition get_prop (host : Host) (v : Json) (k : string) : Result (option Json) :=
  match v with
  | JNull => raise host PropertyOfNull
  | JObj fields => Ok (Js.lookup fields k)
  | _ => Ok None
  end.

(** [v?.k] *)
Definition opt_prop (host : Host) (v : option Json) (k : string) : Result (option Json) :=
  match v with
  | None | Some JNull => Ok None
  | Some v => get_prop host v k
  end.

(** [v?.[0]] *)
Definition opt_index0 (v : option Json) : option Json :=
  match v with
  | Some (JArr items) => head items
  | Some (JStr (String c _)) => Some (JStr (String c ""))
  | Some (JObj fields) => Js.lookup fields "0"
  | _ => None
  end.

(** ** Constants of the module *)

Definition RELEVANT_HEADERS : list string :=
  [ "content-type"; "anthropic-version"; "anthropic-beta"; "openai-version";
    "openai-organization"; "openai-beta"; "user-agent"; "x-goog-user-project" ].

Definition DEFAULT_MASK_HEADERS : list string :=
  [ "x-forwarded-for"; "x-real-ip"; "x-forwarded-proto"; "x-forwarded-host";
    "cf-connecting-ip"; "cf-ipcountry"; "cf-ray"; "cf-visitor";
    "x-forwarded-server"; "x-forwarded-by"; "via"; "x-cluster-client-ip";
    "x-host"; "x-original-forwarded-for"; "x-original-remote-addr";
    "x-original-remote-host"; "x-original-uri"; "x-remote-addr";
    "x-remote-host"; "x-remote-ip"; "x-remote-port"; "x-request-uri";
    "x-scheme"; "x-server-name"; "x-server-port"; "x-server-protocol";
    "x-server-software"; "x-ssl-client-cert"; "x-ssl-client-dn";
    "x-ssl-client-verify"; "x-ssl-cipher"; "x-ssl-protocol";
    "x-ssl-session-id"; "x-ssl-session-reused"; "x-ssl-trusted-ca";
    "x-ssl-verify"; "x-ssl-verify-result" ].

Definition CORS_ORIGIN := "Access-Control-Allow-Origin".
Definition CORS_METHODS := "Access-Control-Allow-Methods".
Definition CORS_HEADERS := "Access-Control-Allow-Headers".
Definition CORS_MAX_AGE := "Access-Control-Max-Age".
Definition ALLOW_METHODS := "GET, POST, PUT, DELETE, OPTIONS".
Definition ALLOW_HEADERS :=
  "Content-Type, Authorization, X-API-Key, anthropic-version, openai-version, x-goog-api-key".

(** ** The provider table *)

Record ApiConfig := mkApiConfig {
  baseUrl : string;
  apiKeyHeader : string;
  defaultVersion : option string;
  transformRequest : option (Request -> URL);
  transformResponse : option (Response -> Response);
  maskHeaders : option (list string)
}.

(** [a[i] || d] on an array of strings *)
Definition nth_or (a : list string) (i : nat) (d : string) : string :=
  match nth_error a i with
  | Some s => if truthy s then s else d
  | None => d
  end.

(** [transformRequest] of the [vertexai] entry; it returns the rewritten
    URL of the request it is given. *)
Definition vertexai_transformRequest (req : Request) : URL :=
  let url := url req in
  let pathParts := split "/" (pathname url) in
  let projectId := nth_or pathParts 3 "123456789" in
  let location := nth_or pathParts 4 "us-central1" in
  if includes (pathname url) "/predict" then
    Url.set_pathname url
      ("/v1/projects/" ++ projectId ++ "/locations/" ++ location
         ++ "/publishers/google/models/gemini-pro:predict")
  else if includes (pathname url) "/models" then
    Url.set_pathname url
      ("/v1/projects/" ++ projectId ++ "/locations/" ++ location ++ "/models")
  else if includes (pathname url) "/chat/completions" then
    Url.set_pathname url
      ("/v1/projects/" ++ projectId ++ "/locations/" ++ location
         ++ "/publishers/google/models/gemini-pro:predict")
  else url.

Definition vertexai_transformResponse (res : Response) : Response := res.

Definition COMMON_MASK : list string :=
  [ "x-forwarded-for"; "x-real-ip"; "cf-connecting-ip"; "cf-ipcountry" ].

(** What [configs[provider]] evaluates to.  [configs] is an ordinary object
    literal, so a name defined on [Object.prototype] yields that inherited
    member: a truthy value with none of the fields of an [ApiConfig]. *)
Inductive ConfigValue :=
| OwnConfig (c : ApiConfig)
| Inherited.

Definition OBJECT_PROTOTYPE_NAMES : list string :=
  [ "constructor"; "__proto__"; "hasOwnProperty"; "isPrototypeOf";
    "propertyIsEnumerable"; "toLocaleString"; "toString"; "valueOf";
    "__defineGetter__"; "__defineSetter__"; "__lookupGetter__";
    "__lookupSetter__" ].

Definition configs (provider : string) : option ConfigValue :=
  if String.eqb provider "anthropic" then
    Some (OwnConfig (mkApiConfig "https://api.anthropic.com" "x-api-key"
                       (Some "2023-06-01") None None (Some COMMON_MASK)))
  else if String.eqb provider "openai" then
    Some (OwnConfig (mkApiConfig "https://api.openai.com" "Authorization"
                       (Some "2024-01-01") None None (Some COMMON_MASK)))
  else if String.eqb provider "gemini" then
    Some (OwnConfig (mkApiConfig "https://generativelanguage.googleapis.com"
                       "x-goog-api-key" (Some "2024-01-01") None None
                       (Some COMMON_MASK)))
  else if String.eqb provider "groq" then
    Some (OwnConfig (mkApiConfig "https://api.groq.com" "Authorization"
                       (Some "2024-01-01") None None (Some COMMON_MASK)))
  else if String.eqb provider "vertexai" then
    Some (OwnConfig (mkApiConfig "https://us-central1-aiplatform.googleapis.com"
                       "Authorization" (Some "2024-01-01")
                       (Some vertexai_transformRequest)
                       (Some vertexai_transformResponse) (Some COMMON_MASK)))
  else if String.eqb provider "openrouter" then
    Some (OwnConfig (mkApiConfig "https://openrouter.ai" "Authorization"
                       None None None (Some COMMON_MASK)))
  else if array_includes OBJECT_PROTOTYPE_NAMES provider then Some Inherited
  else None.

(** ** The two module-level caches *)

Record Caches := mkCaches {
  API_CONFIG_CACHE : gmap string ConfigValue;
  ALLOWED_KEYS_CACHE : gmap string (list string)
}.

Definition getApiConfig (provider : string) (env : Env) (c : Caches)
  : option ConfigValue * Caches :=
  match API_CONFIG_CACHE c !! provider with
  | Some cached => (Some cached, c)
  | None =>
      match configs provider with
      | Some config =>
          (Some config,
           mkCaches (<[provider := config]> (API_CONFIG_CACHE c)) (ALLOWED_KEYS_CACHE c))
      | None => (None, c)
      end
  end.

(** A template literal prints an unset variable as the word undefined. *)
Definition interpolate (v : option string) : string :=
  match v with
  | Some s => s
  | None => "undefined"
  end.

Definition cacheKey (provider : string) (env : Env) : string :=
  provider ++ ":" ++ interpolate (ALLOWED_ANTHROPIC_KEYS env)
    ++ ":" ++ interpolate (ALLOWED_OPENAI_KEYS env)
    ++ ":" ++ interpolate (ALLOWED_GOOGLE_KEYS env)
    ++ ":" ++ interpolate (ALLOWED_GROQ_KEYS env)
    ++ ":" ++ interpolate (ALLOWED_OPENROUTER_KEYS env).

(** [v ? v.split(',').map(key => key.trim()).filter(key => key.length > 0) : []] *)
Definition splitKeys (v : option string) : list string :=
  match v with
  | Some s =>
      if truthy s
      then List.filter (fun key => (0 <? String.length key)%nat) (map trim (split "," s))
      else []
  | None => []
  end.

(** The [switch] of [getAllowedKeysForProvider]. *)
Definition keysOf (provider : string) (env : Env) : list string :=
  if String.eqb provider "anthropic" then splitKeys (ALLOWED_ANTHROPIC_KEYS env)
  else if String.eqb provider "openai" then splitKeys (ALLOWED_OPENAI_KEYS env)
  else if String.eqb provider "gemini" then splitKeys (ALLOWED_GOOGLE_KEYS env)
  else if String.eqb provider "groq" then splitKeys (ALLOWED_GROQ_KEYS env)
  else if String.eqb provider "vertexai" then splitKeys (ALLOWED_GOOGLE_KEYS env)
  else if String.eqb provider "openrouter" then splitKeys (ALLOWED_OPENROUTER_KEYS env)
  else [].

Definition getAllowedKeysForProvider (provider : string) (env : Env) (c : Caches)
  : list string * Caches :=
  let cacheKey := cacheKey provider env in
  match ALLOWED_KEYS_CACHE c !! cacheKey with
  | Some cached => (cached, c)
  | None =>
      let keys := keysOf provider env in
      (keys, mkCaches (API_CONFIG_CACHE c) (<[cacheKey := keys]> (ALLOWED_KEYS_CACHE c)))
  end.

(** ** Truthiness of optional strings *)

(** [a || b] on values that are a string, [null] or [undefined] *)
Definition or_else (a b : option string) : option string :=
  match a with
  | Some s => if truthy s then a else b
  | None => b
  end.

(** [!key] is false: the credential is a non-empty string. *)
Definition present (key : option string) : option string :=
  match key with
  | Some s => if truthy s then Some s else None
  | None => None
  end.

(** ** Model mapping *)

Definition GEMINI_FLASH := "gemini-2.5-flash".
Definition GEMINI_PRO := "gemini-2.5-pro".

(** [mapClaudeModelToGemini(model: string | undefined)] *)
Definition mapClaudeModelToGemini (model : option string) : string :=
  match model with
  | None => GEMINI_FLASH
  | Some model =>
      if negb (truthy model) then GEMINI_FLASH
      else if startsWith model "gemini-" then model
      else
        let m := toLowerCase model in
        if includes m "haiku" then GEMINI_FLASH
        else if includes m "sonnet" || includes m "opus" then GEMINI_PRO
        else GEMINI_FLASH
  end.

(** The call [mapClaudeModelToGemini(body.model)]: the type annotation is
    erased, so any JSON value may arrive.  A falsy one takes the first
    [return]; a truthy one that is not a string has no [startsWith]. *)
Definition mapClaudeModelToGemini_any (host : Host) (model : option Json) : Result string :=
  match model with
  | Some (JStr s) => Ok (mapClaudeModelToGemini (Some s))
  | v => if Js.truthy v then raise host NotAFunction
         else Ok (mapClaudeModelToGemini None)
  end.

(** ** Outbound transport

    The only effect of the worker besides its caches is the call of the
    global [fetch].  A computation that may make that call returns, with its
    outcome, the list of requests it handed to the network. *)

Definition Traced (A : Type) : Type := list Request * Result A.

(** [fetch(request.url, { method, headers, body })] *)
Definition call_global_fetch (host : Host) (request : Request) : Traced Upstream :=
  let sent := mkRequest (method request) (url request) (headers request) (body request) in
  ([sent], global_fetch host sent).

Definition fetchWithProxy (host : Host) (request : Request) (env : Env) : Traced Upstream :=
  match present (PROXY_URL env) with
  | Some proxy =>
      match URL_parse host proxy with
      | Some proxyUrl =>
          let targetUrl := url request in
          let proxyHeaders :=
            Headers.set (headers request) "X-Target-URL" (Url.toString targetUrl) in
          let proxyRequest :=
            mkRequest (method request) proxyUrl proxyHeaders (body request) in
          call_global_fetch host proxyRequest
      | None => ([], raise host InvalidURL)
      end
  | None => call_global_fetch host request
  end.

(** [const x = await call; rest] where only [call] reaches the network *)
Definition and_then {A B} (call : Traced A) (rest : A -> Result B) : Traced B :=
  (fst call, bind (snd call) rest).

Definition maskClientInfo (headers : Headers.t) (maskHeaders : option (list string)) : Headers.t :=
  let headersToMask :=
    match maskHeaders with
    | Some l => l
    | None => DEFAULT_MASK_HEADERS
    end in
  fold_left Headers.delete headersToMask headers.

(** ** Responses the worker builds itself *)

Definition str (s : string) : option Json := Some (JStr s).

Definition JSON_HEADERS : Headers.t :=
  Headers.of_literal [ ("Content-Type", "application/json"); (CORS_ORIGIN, "*") ].

(** [new Response(JSON.stringify({...}), { status, headers: {...} })] *)
Definition json_response (st : Z) (fields : list (string * option Json)) : Response :=
  mkResponse st "" JSON_HEADERS (Some (Stringified (Js.object_literal fields))).

Definition preflight_response : Response :=
  mkResponse 200 ""
    (Headers.of_literal
       [ (CORS_ORIGIN, "*"); (CORS_METHODS, ALLOW_METHODS);
         (CORS_HEADERS, ALLOW_HEADERS); (CORS_MAX_AGE, "86400") ])
    None.

Definition missing_key_response : Response :=
  json_response 401
    [ ("error", str "API key is required");
      ("message", str "Please provide an API key in the X-API-Key header or Authorization header") ].

Definition invalid_endpoint_response : Response :=
  json_response 400
    [ ("error", str "Invalid API endpoint");
      ("message", str "Please specify a valid API endpoint (e.g., /anthropic/v1/messages, /openai/v1/chat/completions)") ].

Definition unsupported_provider_response (apiProvider : string) : Response :=
  json_response 400
    [ ("error", str "Unsupported API provider");
      ("message", str ("API provider '" ++ apiProvider
         ++ "' is not supported. Supported providers: anthropic, openai, gemini, groq, vertexai, openrouter")) ].

Definition unauthorized_response : Response :=
  json_response 403
    [ ("error", str "Unauthorized");
      ("message", str "Invalid API key provided for this provider") ].

(** The [catch] block of [fetch]. *)
Definition internal_error_response (request : Request) (error : Thrown) : Response :=
  json_response 500
    [ ("error", str "Internal server error");
      ("message", match error with
                  | ErrorObject e => str (message e)
                  | NotAnError => str "Unknown error"
                  end);
      ("details", match error with
                  | ErrorObject e => option_map JStr (stack e)
                  | NotAnError => None
                  end);
      ("url", str (Url.toString (url request)));
      ("method", str (method request)) ].

Definition NULL_BODY_STATUS : list Z := [101; 103; 204; 205; 304]%Z.

(** [new Response(body, { status, statusText, headers })]: the constructor
    refuses a status outside 200..599, and a body on a null-body status. *)
Definition new_Response (host : Host) (b : option Content) (st : Z) (text : string)
    (h : Headers.t) : Result Response :=
  if negb ((200 <=? st) && (st <=? 599))%Z then raise host BadResponseInit
  else
    match b with
    | Some _ =>
        if existsb (Z.eqb st) NULL_BODY_STATUS then raise host BadResponseInit
        else Ok (mkResponse st text h b)
    | None => Ok (mkResponse st text h b)
    end.

(** ** Credential extraction *)

(** The expression bound to [clientApiKey] in [fetch]. *)
Definition clientApiKey_of (request : Request) : option string :=
  or_else (Headers.get (headers request) "X-API-Key")
    (or_else (Headers.get (headers request) "x-api-key")
       (option_map replace_BEARER_PREFIX (Headers.get (headers request) "Authorization"))).

(** The expression bound to [geminiApiKey] in the translator. *)
Definition geminiApiKey_of (request : Request) : option string :=
  or_else (Headers.get (headers request) "X-API-Key")
    (option_map replace_BEARER_PREFIX (Headers.get (headers request) "Authorization")).

(** ** The dispatcher, step by step *)

(** "Build the target URL" *)
Definition build_targetUrl (requestUrl baseUrl : URL) (apiProvider : string)
    (urlPathParts : list string) : URL :=
  let targetUrl := requestUrl in
  let targetUrl := Url.set_hostname targetUrl (hostname baseUrl) in
  let targetUrl := Url.set_protocol targetUrl (protocol baseUrl) in
  if String.eqb apiProvider "openrouter" then
    let apiPath := join "/" (skipn 2 urlPathParts) in
    Url.set_pathname targetUrl ("/api/v1/" ++ apiPath)
  else
    let apiPath := join "/" (skipn 1 urlPathParts) in
    Url.set_pathname targetUrl ("/" ++ apiPath).

(** "Set the API key header using the client's key" *)
Definition set_api_key_header (apiConfig : ApiConfig) (clientApiKey : string)
    (headers : Headers.t) : Headers.t :=
  if String.eqb (apiKeyHeader apiConfig) "Authorization"
  then Headers.set headers "Authorization" ("Bearer " ++ clientApiKey)
  else Headers.set headers (apiKeyHeader apiConfig) clientApiKey.

(** "Copy other relevant headers" *)
Definition copy_relevant_header (request : Request) (built : Headers.t)
    (headerName : string) : Headers.t :=
  match Headers.get (headers request) headerName with
  | Some value => if truthy value then Headers.set built headerName value else built
  | None => built
  end.

Definition copy_relevant_headers (request : Request) (built : Headers.t) : Headers.t :=
  fold_left (copy_relevant_header request) RELEVANT_HEADERS built.

(** "Set default version if not provided" *)
Definition set_default_version (apiProvider : string) (apiConfig : ApiConfig)
    (headers : Headers.t) : Headers.t :=
  match present (defaultVersion apiConfig) with
  | Some version =>
      if negb (Headers.has headers "anthropic-version")
         && negb (Headers.has headers "openai-version")
      then
        if String.eqb apiProvider "anthropic"
        then Headers.set headers "anthropic-version" version
        else if String.eqb apiProvider "openai"
        then Headers.set headers "openai-version" version
        else headers
      else headers
  | None => headers
  end.

(** "Add user agent if not present" *)
Definition set_default_user_agent (headers : Headers.t) : Headers.t :=
  if negb (Headers.has headers "user-agent")
  then Headers.set headers "user-agent" "Claude-Proxy/1.0"
  else headers.

Definition build_headers (request : Request) (apiProvider : string)
    (apiConfig : ApiConfig) (clientApiKey : string) : Headers.t :=
  let headers := set_api_key_header apiConfig clientApiKey [] in
  let headers := copy_relevant_headers request headers in
  let headers := set_default_version apiProvider apiConfig headers in
  let headers := set_default_user_agent headers in
  maskClientInfo headers (maskHeaders apiConfig).

(** "Create the request to target API" and "Apply request transformation" *)
Definition build_targetRequest (request : Request) (apiConfig : ApiConfig)
    (targetUrl : URL) (built : Headers.t) : Request :=
  let targetRequest :=
    if negb (String.eqb (method request) "GET")
       && negb (String.eqb (method request) "HEAD")
       && (match body request with Some _ => true | None => false end)
    then mkRequest (method request) targetUrl built (body request)
    else mkRequest (method request) targetUrl built None in
  match transformRequest apiConfig with
  | Some transform =>
      let transformedUrl := transform targetRequest in
      let targetUrl := Url.set_pathname targetUrl (pathname transformedUrl) in
      let targetUrl := Url.set_search targetUrl (search transformedUrl) in
      mkRequest (method targetRequest) targetUrl
        (headers targetRequest) (body targetRequest)
  | None => targetRequest
  end.

(** "Create response headers" up to [return finalResponse] *)
Definition relay_response (host : Host) (apiConfig : ApiConfig) (response : Upstream)
  : Result Response :=
  let responseHeaders := up_headers response in
  let responseHeaders := Headers.set responseHeaders CORS_ORIGIN "*" in
  let responseHeaders := Headers.set responseHeaders CORS_METHODS ALLOW_METHODS in
  let responseHeaders := Headers.set responseHeaders CORS_HEADERS ALLOW_HEADERS in
  let* finalResponse :=
    new_Response host (up_body response) (up_status response)
      (up_statusText response) responseHeaders in
  match transformResponse apiConfig with
  | Some transform => Ok (transform finalResponse)
  | None => Ok finalResponse
  end.

(** The outbound request the dispatcher hands to [fetchWithProxy]. *)
Definition targetRequest_of (request : Request) (apiProvider : string)
    (apiConfig : ApiConfig) (clientApiKey : string) (urlPathParts : list string)
  : option Request :=
  match Url.parse_origin (baseUrl apiConfig) with
  | Some baseUrl =>
      let targetUrl := build_targetUrl (url request) baseUrl apiProvider urlPathParts in
      let headers := build_headers request apiProvider apiConfig clientApiKey in
      Some (build_targetRequest request apiConfig targetUrl headers)
  | None => None
  end.

(** From "Build the target URL" to the end of the [try] block. *)
Definition forward (host : Host) (request : Request) (env : Env) (apiProvider : string)
    (config : ConfigValue) (clientApiKey : string) (urlPathParts : list string)
  : Traced Response :=
  match config with
  | Inherited => ([], raise host InvalidURL)       (* [new URL(undefined)] *)
  | OwnConfig apiConfig =>
      match targetRequest_of request apiProvider apiConfig clientApiKey urlPathParts with
      | Some targetRequest =>
          and_then (fetchWithProxy host targetRequest env)
            (relay_response host apiConfig)
      | None => ([], raise host InvalidURL)
      end
  end.

(** [allowedKeys.length > 0 && !allowedKeys.includes(key)] *)
Definition rejected (allowedKeys : list string) (key : string) : bool :=
  (0 <? length allowedKeys)%nat && negb (array_includes allowedKeys key).

Definition TRANSLATION_PREFIX := "/claude-gemini/v1/messages".

(** ** The translation endpoint *)

Definition gemini_missing_key_response : Response :=
  json_response 401
    [ ("error", str "API key is required");
      ("message", str "Please provide a Gemini API key in the X-API-Key header or Authorization header") ].

Definition gemini_unauthorized_response : Response :=
  json_response 403
    [ ("error", str "Unauthorized");
      ("message", str "Invalid Gemini API key provided") ].

(** The arrow function given to [body.messages.map]. *)
Definition translate_message (host : Host) (msg : Json) : Result Json :=
  let* role := get_prop host msg "role" in
  let* content := get_prop host msg "content" in
  Ok (Js.object_literal
        [ ("role", str (match role with
                        | Some (JStr r) => if String.eqb r "user" then "user" else "model"
                        | _ => "model"
                        end));
          ("parts", Some (JArr [ Js.object_literal [ ("text", content) ] ])) ]).

(** [body.messages.map(f)] *)
Definition map_messages (host : Host) (messages : option Json) : Result (list Json) :=
  match messages with
  | Some (JArr msgs) => mapM (translate_message host) msgs
  | None | Some JNull => raise host PropertyOfNull
  | Some _ => raise host NotAFunction
  end.

(** The object literal bound to [geminiRequest], as [JSON.stringify] prints it. *)
Definition build_geminiRequest (host : Host) (body : Json) : Result (string * Json) :=
  let* model := get_prop host body "model" in
  let* geminiModel := mapClaudeModelToGemini_any host model in
  let* messages := get_prop host body "messages" in
  let* contents := map_messages host messages in
  let* max_tokens := get_prop host body "max_tokens" in
  Ok (geminiModel,
      Js.object_literal
        [ ("model", str geminiModel);
          ("contents", Some (JArr contents));
          ("generationConfig",
            if Js.truthy max_tokens
            then Some (Js.object_literal [ ("maxOutputTokens", max_tokens) ])
            else None) ]).

(** The request bound to [geminiReq].  The path is the template as written;
    what the URL parser would do to a model name that contains URL
    delimiters is not modelled. *)
Definition build_geminiReq (geminiModel geminiApiKey : string) (geminiRequest : Json) : Request :=
  let geminiUrl :=
    mkURL "https:" "generativelanguage.googleapis.com" ""
      ("/v1beta/models/" ++ geminiModel ++ ":generateContent") "" "" in
  let geminiHeaders :=
    Headers.of_literal
      [ ("Content-Type", "application/json"); ("x-goog-api-key", geminiApiKey) ] in
  mkRequest "POST" geminiUrl geminiHeaders (Some (Stringified geminiRequest)).

(** [candidate?.parts?.map((p) => p.text).join('') || ''] *)
Definition candidate_text (host : Host) (candidate : option Json) : Result string :=
  let* parts := opt_prop host candidate "parts" in
  match parts with
  | None | Some JNull => Ok ""
  | Some (JArr ps) =>
      let* texts := mapM (fun p => get_prop host p "text") ps in
      Ok (Js.join_empty texts)
  | Some _ => raise host NotAFunction
  end.

Definition BASE36 : string := "0123456789abcdefghijklmnopqrstuvwxyz".

Definition base36_char (d : fin 36) : ascii :=
  match String.get (fin_to_nat d) BASE36 with
  | Some c => c
  | None => "0"%char
  end.

(** [Math.random().toString(36).slice(2)] *)
Definition random_suffix (host : Host) : string :=
  string_of_list_ascii (map base36_char (Math_random_digits host)).

(** "Translate Gemini response to Anthropic format" *)
Definition build_anthropicResponse (host : Host) (geminiModel : string) (geminiData : Json)
  : Result Json :=
  let* candidates := get_prop host geminiData "candidates" in
  let* candidate := opt_prop host (opt_index0 candidates) "content" in
  let* text := candidate_text host candidate in
  let* usage := get_prop host geminiData "usage" in
  Ok (Js.object_literal
        [ ("id", str ("msg_" ++ random_suffix host));
          ("type", str "message");
          ("role", str "assistant");
          ("content", Some (JArr [ Js.object_literal
                                     [ ("type", str "text"); ("text", str text) ] ]));
          ("model", str geminiModel);
          ("usage", usage) ]).

(** From [await geminiResp.json()] to the end of the handler. *)
Definition translate_response (host : Host) (geminiModel : string) (geminiResp : Upstream)
  : Result Response :=
  let* geminiData := json host (up_body geminiResp) in
  let* anthropicResponse := build_anthropicResponse host geminiModel geminiData in
  Ok (mkResponse 200 "" JSON_HEADERS (Some (Stringified anthropicResponse))).

(** From "Parse Anthropic-style request" to the end of the handler. *)
Definition translate (host : Host) (request : Request) (env : Env) (geminiApiKey : string)
  : Traced Response :=
  match (let* body := json host (body request) in build_geminiRequest host body) with
  | Ok (geminiModel, geminiRequest) =>
      let geminiReq := build_geminiReq geminiModel geminiApiKey geminiRequest in
      and_then (fetchWithProxy host geminiReq env) (translate_response host geminiModel)
  | Throw error => ([], Throw error)
  end.

Definition handleClaudeGeminiTranslation (host : Host) (request : Request) (env : Env)
    (c : Caches) : Traced Response * Caches :=
  match present (geminiApiKey_of request) with
  | None => (([], Ok gemini_missing_key_response), c)
  | Some geminiApiKey =>
      let '(allowedKeys, c) := getAllowedKeysForProvider "gemini" env c in
      if rejected allowedKeys geminiApiKey
      then (([], Ok gemini_unauthorized_response), c)
      else (translate host request env geminiApiKey, c)
  end.

(** ** The entry point *)

(** [url.pathname.split('/').filter(Boolean)] *)
Definition urlPathParts_of (url : URL) : list string :=
  List.filter truthy (split "/" (pathname url)).

(** The [try] block of [fetch]. *)
Definition fetch_try (host : Host) (request : Request) (env : Env) (c : Caches)
  : Traced Response * Caches :=
  let url := url request in
  if startsWith (pathname url) TRANSLATION_PREFIX then
    handleClaudeGeminiTranslation host request env c
  else
    match present (clientApiKey_of request) with
    | None => (([], Ok missing_key_response), c)
    | Some clientApiKey =>
        let urlPathParts := urlPathParts_of url in
        if (length urlPathParts <? 2)%nat then (([], Ok invalid_endpoint_response), c)
        else
          let apiProvider := nth 0 urlPathParts "" in
          let '(apiConfig, c) := getApiConfig apiProvider env c in
          match apiConfig with
          | None => (([], Ok (unsupported_provider_response apiProvider)), c)
          | Some apiConfig =>
              let '(allowedKeys, c) := getAllowedKeysForProvider apiProvider env c in
              if rejected allowedKeys clientApiKey
              then (([], Ok unauthorized_response), c)
              else (forward host request env apiProvider apiConfig clientApiKey urlPathParts, c)
          end
    end.

(** What one invocation of the handler leaves behind: the response it
    returns, the caches, and the requests it sent to the network. *)
Record Handled := mkHandled {
  response : Response;
  caches : Caches;
  sent : list Request
}.

(** The [try]/[catch] of [fetch] around an outcome. *)
Definition or_internal_error (request : Request) (r : Traced Response * Caches) : Handled :=
  match r with
  | ((sent, Ok response), c) => mkHandled response c sent
  | ((sent, Throw error), c) => mkHandled (internal_error_response request error) c sent
  end.

Definition fetch (host : Host) (request : Request) (env : Env) (c : Caches) : Handled :=
  if String.eqb (method request) "OPTIONS" then mkHandled preflight_response c []
  else or_internal_error request (fetch_try host request env c).

(** * Vocabulary of the statements *)

(** A cache state is coherent for an environment when every entry is what
    the uncached computation gives. *)
Definition caches_ok (env : Env) (c : Caches) : Prop :=
  (forall p v, API_CONFIG_CACHE c !! p = Some v -> configs p = Some v) /\
  (forall p ks, ALLOWED_KEYS_CACHE c !! cacheKey p env = Some ks -> ks = keysOf p env).

Definition EMPTY_CACHES : Caches := mkCaches ∅ ∅.

Definition SUPPORTED_PROVIDERS : list string :=
  [ "anthropic"; "openai"; "gemini"; "groq"; "vertexai"; "openrouter" ].

(** The provider a request is addressed to: the first non-empty path
    segment, once the path has the two segments the dispatcher asks for. *)
Definition provider_of (request : Request) : option string :=
  let urlPathParts := urlPathParts_of (url request) in
  if (length urlPathParts <? 2)%nat then None else Some (nth 0 urlPathParts "").

(** A property of the JSON object a response carries. *)
Definition json_field (r : Response) (k : string) : option Json :=
  match resp_body r with
  | Some (Stringified (JObj fields)) => Js.lookup fields k
  | _ => None
  end.

Definition header (r : Response) (name : string) : option string :=
  Headers.get (resp_headers r) name.

(** A string of space characters only. *)
Fixpoint all_space (s : string) : bool :=
  match s with
  | "" => true
  | String c s' => is_space c && all_space s'
  end.

(** ** The whitelist as the specification words it *)

(** The configuration string of a provider; [vertexai] shares the Google one. *)
Definition config_string (provider : string) (env : Env) : option string :=
  if String.eqb provider "anthropic" then ALLOWED_ANTHROPIC_KEYS env
  else if String.eqb provider "openai" then ALLOWED_OPENAI_KEYS env
  else if String.eqb provider "gemini" || String.eqb provider "vertexai"
  then ALLOWED_GOOGLE_KEYS env
  else if String.eqb provider "groq" then ALLOWED_GROQ_KEYS env
  else if String.eqb provider "openrouter" then ALLOWED_OPENROUTER_KEYS env
  else None.

(** Split on commas, trim each entry, discard the empty entries. *)
Definition whitelist (provider : string) (env : Env) : list string :=
  match config_string provider env with
  | Some text => List.filter truthy (map trim (split "," text))
  | None => []
  end.

(** ** The model mapping as the specification words it: rules tried in
    order, the first match wins *)

Definition contains_ci (model word : string) : bool :=
  includes (toLowerCase model) word.

(** One rule: a test on the model and the result when it passes. *)
Definition MODEL_RULES : list ((string -> bool) * (string -> string)) :=
  [ (fun m => startsWith m "gemini-", fun m => m);
    (fun m => contains_ci m "haiku", fun _ => "gemini-2.5-flash");
    (fun m => contains_ci m "sonnet", fun _ => "gemini-2.5-pro");
    (fun m => contains_ci m "opus", fun _ => "gemini-2.5-pro") ].

Fixpoint first_match (rules : list ((string -> bool) * (string -> string)))
    (m fallback : string) : string :=
  match rules with
  | [] => fallback
  | (test, result) :: rules' => if test m then result m else first_match rules' m fallback
  end.

Definition mapped_model (model : option string) : string :=
  match model with
  | None => "gemini-2.5-flash"
  | Some m => first_match MODEL_RULES m "gemini-2.5-flash"
  end.

(** ** Concrete inputs, after the test suite *)

Definition mock_gemini_reply : Json :=
  JObj [ ("candidates",
          JArr [ JObj [ ("content",
                         JObj [ ("parts", JArr [ JObj [ ("text", JStr "Hello from Gemini!") ] ]);
                                ("role", JStr "model") ]) ] ]);
         ("usage", JObj [ ("promptTokens", JNum 10); ("candidatesTokens", JNum 10);
                          ("totalTokens", JNum 20) ]) ].

Definition mock_host : Host :=
  mkHost
    (fun text => if String.eqb text "{}" then inr (JObj [])
                 else inl (mkError "Unexpected token in JSON" None))
    (fun _ => None)
    (fun _ => Ok (mkUpstream 200 "OK" [ ("content-type", "application/json") ]
                    (Some (Stringified mock_gemini_reply))))
    [ 7%fin; 35%fin; 10%fin; 0%fin ]
    (fun _ => mkError "TypeError" None).

Definition mockEnv : Env :=
  let keys := Some "client-key-1,client-key-2,client-key-3" in
  mkEnv keys keys keys keys keys None.

(** An environment with every whitelist unset. *)
Definition openEnv : Env := mkEnv None None None None None None.

Definition example_url (path : string) : URL :=
  mkURL "https:" "example.com" "" path "" "".

Definition messages_body : Json :=
  JObj [ ("model", JStr "claude-3-sonnet-20240229");
         ("max_tokens", JNum 100);
         ("messages", JArr [ JObj [ ("role", JStr "user"); ("content", JStr "Hello") ] ]) ].

Definition post (path : string) (h : Headers.t) : Request :=
  mkRequest "POST" (example_url path) h (Some (Stringified messages_body)).


(** ** Target paths *)

(** Dropping the first segment of a path and keeping the rest verbatim. *)
Fixpoint from_next_slash (s : string) : string :=
  match s with
  | "" => ""
  | String c s' => if Ascii.eqb c "/" then s else from_next_slash s'
  end.

Definition drop_segment (path : string) : string :=
  match path with
  | String "/" rest => from_next_slash rest
  | _ => path
  end.

(** The path the specification's sentence gives: the provider id dropped and
    the rest verbatim; for openrouter two segments dropped and the rest put
    under /api/v1. *)
Definition verbatim_path (provider path : string) : string :=
  if String.eqb provider "openrouter"
  then "/api/v1" ++ drop_segment (drop_segment path)
  else drop_segment path.

(** What the [vertexai] transform makes of a path: the project and the
    location are the third and fourth segments when present, and the rules
    are tried in this order. *)
Definition vertexai_path (path : string) : string :=
  let segments := split "/" path in
  let project := nth_or segments 3 "123456789" in
  let location := nth_or segments 4 "us-central1" in
  let predict :=
    "/v1/projects/" ++ project ++ "/locations/" ++ location
      ++ "/publishers/google/models/gemini-pro:predict" in
  if includes path "/predict" then predict
  else if includes path "/models"
  then "/v1/projects/" ++ project ++ "/locations/" ++ location ++ "/models"
  else if includes path "/chat/completions" then predict
  else path.

(** The path of the outbound URL, from the non-empty segments of the
    inbound path. *)
Definition remapped_path (provider : string) (segments : list string) : string :=
  if String.eqb provider "openrouter"
  then "/api/v1/" ++ join "/" (skipn 2 segments)
  else
    let rest := "/" ++ join "/" (skipn 1 segments) in
    if String.eqb provider "vertexai" then vertexai_path rest else rest.

(** Inbound requests arrive over HTTP or HTTPS. *)
Definition is_http (u : URL) : bool :=
  String.eqb (protocol u) "http:" || String.eqb (protocol u) "https:".

Definition vertex_request : Request :=
  post "/vertexai/v1/predict"
    [ ("content-type", "application/json"); ("authorization", "Bearer client-key-1") ].

(** A request as the local development server builds it. *)
Definition local_request : Request :=
  mkRequest "POST" (mkURL "http:" "localhost" "3000" "/openai/v1/chat/completions" "" "")
    [ ("content-type", "application/json"); ("x-api-key", "client-key-1") ]
    (Some (Stringified messages_body)).



(** ** Requests for the credential and CORS statements *)

(** An empty [X-API-Key] next to a bearer token. *)
Definition empty_key_request : Request :=
  post "/anthropic/v1/messages"
    [ ("x-api-key", ""); ("authorization", "Bearer client-key-1") ].

Definition both_keys_request : Request :=
  post "/anthropic/v1/messages"
    [ ("x-api-key", "client-key-1"); ("authorization", "Bearer another-key") ].

Definition no_key_request : Request :=
  post "/anthropic/v1/messages" [ ("content-type", "application/json") ].

Definition whitelisted_request : Request :=
  post "/anthropic/v1/messages"
    [ ("content-type", "application/json"); ("x-api-key", "client-key-1") ].

(** The headers every reply written by the worker itself carries: errors
    and translator replies alike. *)
Definition own_reply (r : Response) : Prop := resp_headers r = JSON_HEADERS.

(** A reply relayed from upstream for some entry of the provider table. *)
Definition relayed_reply (host : Host) (r : Response) : Prop :=
  exists p apiConfig upstream,
    configs p = Some (OwnConfig apiConfig)
    /\ relay_response host apiConfig upstream = Ok r.



(** ** Version headers *)

(** What the caller supplied under a header name: a non-empty value. *)
Definition supplied (request : Request) (name : string) : option string :=
  present (Headers.get (headers request) name).

(** The value the forwarded request carries under a version header [name]
    owned by [owner], given the caller's value [mine] for it and the caller's
    value [other] for the other version header. *)
Definition forwarded_version (p owner : string) (version : string)
    (mine other : option string) : option string :=
  match mine with
  | Some v => Some v
  | None =>
      match other with
      | Some _ => None
      | None => if String.eqb p owner then Some version else None
      end
  end.

Definition gemini_request : Request :=
  post "/gemini/v1beta/models/gemini-pro:generateContent"
    [ ("content-type", "application/json"); ("x-api-key", "client-key-1") ].

Definition versioned_request : Request :=
  post "/anthropic/v1/messages"
    [ ("anthropic-version", "2022-01-01"); ("x-api-key", "client-key-1") ].

(** ** Requests whose Authorization header is not a bearer token *)

Definition raw_authorization_request : Request :=
  post "/openai/v1/chat/completions"
    [ ("content-type", "application/json"); ("authorization", "client-key-1") ].

Definition empty_authorization_request : Request :=
  post "/openai/v1/chat/completions"
    [ ("content-type", "application/json"); ("authorization", "") ].

(** The value the provider's credential header is given. *)
Definition credential_value (apiConfig : ApiConfig) (key : string) : string :=
  if String.eqb (apiKeyHeader apiConfig) "Authorization" then "Bearer " ++ key else key.

(** ** The two wire formats, as the specification describes them *)

(** [k] of a JSON object; nothing for any other value. *)
Definition field (v : Json) (k : string) : option Json :=
  match v with
  | JObj fields => Js.lookup fields k
  | _ => None
  end.

Definition is_object (v : Json) : bool :=
  match v with JObj _ => true | _ => false end.

(** The string content of a message. *)
Definition message_content (msg : Json) : option string :=
  match field msg "content" with
  | Some (JStr s) => Some s
  | _ => None
  end.

Definition messages_of (body : Json) : list Json :=
  match field body "messages" with
  | Some (JArr msgs) => msgs
  | _ => []
  end.

Definition model_of (body : Json) : option string :=
  match field body "model" with
  | Some (JStr s) => Some s
  | _ => None
  end.

(** A Claude-shaped body [{model?, messages: [{role, content}], max_tokens?}]:
    an object whose model, if any, is a string and whose messages are
    objects with a string content. *)
Definition claude_shaped (body : Json) : bool :=
  is_object body
  && match field body "model" with
     | None | Some (JStr _) => true
     | _ => false
     end
  && match field body "messages" with
     | Some (JArr msgs) =>
         forallb (fun msg => is_object msg
                             && match message_content msg with
                                | Some _ => true
                                | None => false
                                end) msgs
     | _ => false
     end.

(** The Gemini content of one message: role user stays user, any other
    role is model; the content is the single part. *)
Definition gemini_content (msg : Json) : Json :=
  JObj [ ("role", JStr (match field msg "role" with
                        | Some (JStr r) => if String.eqb r "user" then "user" else "model"
                        | _ => "model"
                        end));
         ("parts", JArr [ JObj [ ("text", JStr (match message_content msg with
                                                | Some s => s
                                                | None => ""
                                                end)) ] ]) ].

(** [generationConfig] is there exactly for a truthy [max_tokens]. *)
Definition generationConfig_of (body : Json) : list (string * Json) :=
  match field body "max_tokens" with
  | Some max_tokens =>
      if Js.truthy (Some max_tokens)
      then [ ("generationConfig", JObj [ ("maxOutputTokens", max_tokens) ]) ]
      else []
  | None => []
  end.

Definition gemini_request_of (body : Json) : Json :=
  JObj ([ ("model", JStr (mapped_model (model_of body)));
          ("contents", JArr (map gemini_content (messages_of body))) ]
          ++ generationConfig_of body)%list.

(** A part of a Gemini reply: an object whose text, if any, is a string. *)
Definition part_ok (p : Json) : bool :=
  match p with
  | JObj fields =>
      match Js.lookup fields "text" with
      | None | Some (JStr _) => true
      | _ => false
      end
  | _ => false
  end.

Definition part_text (p : Json) : string :=
  match field p "text" with
  | Some (JStr s) => s
  | _ => ""
  end.

(** A member that is absent or [null], or passes [check]. *)
Definition optional (check : Json -> bool) (v : option Json) : bool :=
  match v with
  | None | Some JNull => true
  | Some x => check x
  end.

(** A Gemini-shaped reply: an object whose [candidates], first candidate,
    [content] and [parts] are each absent, [null], or an array, an object, an
    object and an array of parts. *)
Definition gemini_shaped (geminiData : Json) : bool :=
  is_object geminiData
  && optional
       (fun candidates =>
          match candidates with
          | JArr items =>
              optional
                (fun candidate =>
                   is_object candidate
                   && optional
                        (fun content =>
                           is_object content
                           && optional
                                (fun parts =>
                                   match parts with
                                   | JArr ps => forallb part_ok ps
                                   | _ => false
                                   end)
                                (field content "parts"))
                        (field candidate "content"))
                (head items)
          | _ => false
          end)
       (field geminiData "candidates").

(** [candidates[0].content.parts], empty when a step is missing. *)
Definition first_candidate_parts (geminiData : Json) : list Json :=
  match field geminiData "candidates" with
  | Some (JArr (candidate :: _)) =>
      match field candidate "content" with
      | Some content =>
          match field content "parts" with
          | Some (JArr ps) => ps
          | _ => []
          end
      | None => []
      end
  | _ => []
  end.

Definition concatenated_text (geminiData : Json) : string :=
  String.concat "" (map part_text (first_candidate_parts geminiData)).

(** The Claude-shaped reply for a Gemini reply. *)
Definition claude_reply (host : Host) (model : string) (geminiData : Json) : Json :=
  JObj ([ ("id", JStr ("msg_" ++ random_suffix host));
          ("type", JStr "message");
          ("role", JStr "assistant");
          ("content", JArr [ JObj [ ("type", JStr "text");
                                    ("text", JStr (concatenated_text geminiData)) ] ]);
          ("model", JStr model) ]
          ++ match field geminiData "usage" with
             | Some usage => [ ("usage", usage) ]
             | None => []
             end)%list.

Definition is_base36 (c : ascii) : bool := includes BASE36 (String c "").

Definition translation_request : Request :=
  post "/claude-gemini/v1/messages"
    [ ("content-type", "application/json"); ("x-api-key", "client-key-1") ].

Definition zero_tokens_body : Json :=
  JObj [ ("model", JStr "claude-3-sonnet-20240229");
         ("max_tokens", JNum 0);
         ("messages", JArr [ JObj [ ("role", JStr "user"); ("content", JStr "Hello") ] ]) ].

Definition broken_body_request : Request :=
  mkRequest "POST" (example_url "/claude-gemini/v1/messages")
    [ ("content-type", "application/json"); ("x-api-key", "client-key-1") ]
    (Some (Text "{not json")).



(** An upstream that answers 500 with Gemini's error envelope. *)
Definition gemini_error_reply : Json :=
  JObj [ ("error", JObj [ ("code", JNum 500); ("message", JStr "Internal error");
                          ("status", JStr "INTERNAL") ]) ].

Definition failing_upstream : Upstream :=
  mkUpstream 500 "Internal Server Error" [ ("content-type", "application/json") ]
    (Some (Stringified gemini_error_reply)).

Definition failing_host : Host :=
  mkHost (JSON_parse mock_host) (URL_parse mock_host) (fun _ => Ok failing_upstream)
    (Math_random_digits mock_host) (engine_error mock_host).

(** Two environments whose cache keys for anthropic read the same. *)
Definition colon_env_1 : Env := mkEnv (Some "a:b") (Some "c") None None None None.
Definition colon_env_2 : Env := mkEnv (Some "a") (Some "b:c") None None None None.

Definition key_a_request : Request :=
  post "/anthropic/v1/messages" [ ("x-api-key", "a") ].

(** ** Requests for the path and provider statements *)

Definition bare_provider_request : Request :=
  post "/anthropic" [ ("x-api-key", "client-key-1") ].

Definition unknown_provider_request : Request :=
  post "/unsupported/v1/test" [ ("x-api-key", "client-key-1") ].

Definition constructor_request : Request :=
  post "/constructor/v1/test" [ ("x-api-key", "client-key-1") ].

(** ** Vocabulary for forwarded requests *)

(** A request that is not a preflight and is addressed to the supported
    provider [p]. *)
Definition addressed (request : Request) (p : string) : Prop :=
  method request <> "OPTIONS"
  /\ provider_of request = Some p
  /\ In p SUPPORTED_PROVIDERS.

(** Such a request with the credential [key], which the provider's
    whitelist lets through. *)
Definition authenticated (request : Request) (env : Env) (p key : string) : Prop :=
  addressed request p
  /\ present (clientApiKey_of request) = Some key
  /\ rejected (whitelist p env) key = false.

(** The dispatcher hands [targetRequest] to the transport and relays what
    comes back under the entry [cfg] of the provider table. *)
Definition handed_to_transport (host : Host) (request : Request) (env : Env) (c : Caches)
    (cfg : ApiConfig) (targetRequest : Request) : Prop :=
  exists c',
    fetch host request env c =
    or_internal_error request
      (and_then (fetchWithProxy host targetRequest env) (relay_response host cfg), c').

(** The names that may appear on an outbound request: the provider's
    credential header and the pass-through list. *)
Definition allowed_header (cfg : ApiConfig) (name : string) : bool :=
  Headers.same_name (apiKeyHeader cfg) name
  || existsb (fun m => Headers.same_name m name) RELEVANT_HEADERS.

(** The list [maskClientInfo] works through. *)
Definition headersToMask_of (maskHeaders : option (list string)) : list string :=
  match maskHeaders with
  | Some l => l
  | None => DEFAULT_MASK_HEADERS
  end.

(** A request of a browser behind Cloudflare: address and cookie headers
    next to the ones the providers expect. *)
Definition leaky_request : Request :=
  post "/anthropic/v1/messages"
    [ ("content-type", "application/json"); ("x-api-key", "client-key-1");
      ("x-forwarded-for", "203.0.113.7"); ("cf-connecting-ip", "203.0.113.7");
      ("cf-ray", "8a1b2c3d4e5f"); ("cookie", "session=abc");
      ("user-agent", "curl/8.0") ].

Definition bearer_request : Request :=
  post "/openai/v1/chat/completions"
    [ ("content-type", "application/json"); ("authorization", "Bearer client-key-1") ].

Definition get_models_request : Request :=
  mkRequest "GET" (example_url "/openai/v1/models")
    [ ("x-api-key", "client-key-1") ] (Some (Text "ignored")).

(** The port the outbound URL is left with: assigning the protocol drops a
    port that is the default of https, and nothing assigns the port. *)
Definition port_after_https (port : string) : string :=
  if String.eqb port "443" then "" else port.

(** [GET] and [HEAD] requests are forwarded without a body. *)
Definition bodiless (m : string) : bool := String.eqb m "GET" || String.eqb m "HEAD".

(** The three header names the relay writes. *)
Definition cors_name (name : string) : bool :=
  Headers.same_name CORS_ORIGIN name
  || Headers.same_name CORS_METHODS name
  || Headers.same_name CORS_HEADERS name.

(** The [message] member of the 500 reply for a thrown value. *)
Definition thrown_message (error : Thrown) : string :=
  match error with
  | ErrorObject e => message e
  | NotAnError => "Unknown error"
  end.

(** A network that is down, and one that always answers the same. *)
Definition unreachable_host (error : Thrown) : Host :=
  mkHost (JSON_parse mock_host) (URL_parse mock_host) (fun _ => Throw error)
    (Math_random_digits mock_host) (engine_error mock_host).

Definition answering_host (upstream : Upstream) : Host :=
  mkHost (JSON_parse mock_host) (URL_parse mock_host) (fun _ => Ok upstream)
    (Math_random_digits mock_host) (engine_error mock_host).

Definition rate_limited : Upstream :=
  mkUpstream 429 "Too Many Requests"
    [ ("content-type", "application/json"); ("retry-after", "30");
      ("access-control-allow-origin", "https://provider.example") ]
    (Some (Text "rate limited")).

(** An upstream status the [Response] constructor accepts for the body at
    hand. *)
Definition relayable (upstream : Upstream) : Prop :=
  (200 <= up_status upstream <= 599)%Z
  /\ (up_body upstream = None \/ ~ In (up_status upstream) NULL_BODY_STATUS).

(** ** Vocabulary for the transport and the caches *)

(** The caches after a process served [requests] in turn, starting cold,
    under one environment. *)
Definition caches_after (host : Host) (env : Env) (requests : list Request) : Caches :=
  fold_left (fun c request => caches (fetch host request env c)) requests EMPTY_CACHES.

(** Every entry of [c] is still in [c'] with the same value. *)
Definition caches_extend (c c' : Caches) : Prop :=
  (forall k v, API_CONFIG_CACHE c !! k = Some v -> API_CONFIG_CACHE c' !! k = Some v)
  /\ (forall k v, ALLOWED_KEYS_CACHE c !! k = Some v -> ALLOWED_KEYS_CACHE c' !! k = Some v).

Definition proxyEnv : Env :=
  let keys := Some "client-key-1,client-key-2,client-key-3" in
  mkEnv keys keys keys keys keys (Some "https://proxy.example.com").



(** ** Vocabulary for whitelist entries *)

(** The character [c] occurs in [s]. *)
Fixpoint mentions (c : ascii) (s : string) : bool :=
  match s with
  | "" => false
  | String d s' => Ascii.eqb d c || mentions c s'
  end.

(** A string made of commas and space characters only. *)
Fixpoint blank (s : string) : bool :=
  match s with
  | "" => true
  | String c s' => (Ascii.eqb c "," || is_space c) && blank s'
  end.

Definition paddedEnv : Env :=
  mkEnv (Some " client-key-1 ,, client-key-2,") None None None None None.

(** ** Vocabulary for the translation endpoint *)

(** The body's [messages] member is an array. *)
Definition has_messages (parsed : Json) : bool :=
  match field parsed "messages" with
  | Some (JArr _) => true
  | _ => false
  end.

Definition no_messages_request : Request :=
  mkRequest "POST" (example_url "/claude-gemini/v1/messages")
    [ ("content-type", "application/json"); ("x-api-key", "client-key-1") ]
    (Some (Stringified (JObj [ ("model", JStr "claude-3-opus"); ("prompt", JStr "Hi") ]))).

Definition stranger_translation_request : Request :=
  post "/claude-gemini/v1/messages"
    [ ("content-type", "application/json"); ("x-api-key", "invalid-key");
      ("cookie", "session=abc") ].

Definition html_upstream : Upstream :=
  mkUpstream 502 "Bad Gateway" [ ("content-type", "text/html") ]
    (Some (Text "<html>Bad Gateway</html>")).

(** A reply the worker writes for an error: one of its four statuses with
    the [error] and [message] members. *)
Definition error_envelope (r : Response) : Prop :=
  In (status r) [400; 401; 403; 500]%Z
  /\ own_reply r
  /\ (exists e, json_field r "error" = Some (JStr e))
  /\ (exists m, json_field r "message" = Some (JStr m)).

(** A reply of the translator. *)
Definition translated_reply (r : Response) : Prop :=
  status r = 200%Z
  /\ own_reply r
  /\ json_field r "type" = Some (JStr "message")
  /\ json_field r "role" = Some (JStr "assistant").



(** The pass-through headers other than the version headers and the
    user-agent, which have defaults of their own. *)
Definition PLAIN_PASS_THROUGH : list string :=
  [ "content-type"; "anthropic-beta"; "openai-organization"; "openai-beta";
    "x-goog-user-project" ].

(** * Properties *)

(** ** Strings *)

Section StringFacts.

Lemma prefix_split (p s : string) :
  String.prefix p s = true -> exists r, s = p ++ r.
Proof.
  revert s. induction p as [|a p IH]; intros s H.
  - now exists s.
  - destruct s as [|b s]; [discriminate|]. simpl in H.
    destruct (ascii_dec a b) as [->|]; [|discriminate].
    destruct (IH s H) as [r ->]. now exists r.
Qed.

Lemma lower_byte_idem (c : ascii) : lower_byte (lower_byte c) = lower_byte c.
Proof. destruct c as [[] [] [] [] [] [] [] []]; reflexivity. Qed.

Lemma byte_lowercase_idem (s : string) :
  byte_lowercase (byte_lowercase s) = byte_lowercase s.
Proof.
  induction s as [|c s IH]; simpl; [reflexivity|].
  now rewrite lower_byte_idem, IH.
Qed.

Lemma split_nonempty (sep : ascii) (s : string) : split sep s <> [].
Proof.
  induction s as [|c s IH]; simpl; [discriminate|].
  destruct (Ascii.eqb c sep); [discriminate|].
  destruct (split sep s); [contradiction|discriminate].
Qed.

Lemma includes_split (s p : string) :
  includes s p = true <-> exists a b, s = a ++ p ++ b.
Proof.
  split.
  - induction s as [|c s IH]; simpl; intros H.
    + destruct p; [now exists "", ""|discriminate].
    + apply orb_true_iff in H. destruct H as [H|H].
      * apply (prefix_split p (String c s)) in H. destruct H as [r H].
        now exists "", r.
      * destruct (IH H) as [a [b ->]]. now exists (String c a), b.
  - intros [a [b ->]]. induction a as [|c a IH].
    + change ("" ++ p ++ b) with (p ++ b).
      assert (P : String.prefix p (p ++ b) = true).
      { clear. induction p as [|c p IH]; [now destruct b|].
        change (String c p ++ b) with (String c (p ++ b)). simpl.
        destruct (ascii_dec c c); [exact IH|contradiction]. }
      destruct (p ++ b); simpl; simpl in P; now rewrite P.
    + change (String c a ++ p ++ b) with (String c (a ++ p ++ b)).
      simpl. rewrite IH. apply orb_true_r.
Qed.

(** [split] and [join] are inverse to each other. *)
Lemma join_split (sep : ascii) (s : string) :
  join (String sep "") (split sep s) = s.
Proof.
  unfold join. induction s as [|c s IH]; simpl; [reflexivity|].
  destruct (Ascii.eqb c sep) eqn:E.
  - apply Ascii.eqb_eq in E. subst c.
    destruct (split sep s) as [|h t] eqn:S; [now apply split_nonempty in S|].
    rewrite <- IH. reflexivity.
  - destruct (split sep s) as [|h t] eqn:S; [now apply split_nonempty in S|].
    rewrite <- IH. destruct t; reflexivity.
Qed.

(** [trim] removes space characters from both ends and nothing else. *)
Lemma trimStart_decompose (s : string) :
  exists a, s = a ++ trimStart s /\ all_space a = true.
Proof.
  induction s as [|c s [a [IH1 IH2]]]; [now exists ""|].
  cbn [trimStart]. destruct (is_space c) eqn:E.
  - exists (String c a). split.
    + change (String c s = String c (a ++ trimStart s)). now f_equal.
    + cbn [all_space]. now rewrite E, IH2.
  - now exists "".
Qed.

Lemma trimEnd_decompose (s : string) :
  exists b, s = trimEnd s ++ b /\ all_space b = true.
Proof.
  induction s as [|c s [b [IH1 IH2]]]; [now exists ""|].
  cbn [trimEnd]. destruct (is_space c && is_empty (trimEnd s)) eqn:E.
  - apply andb_true_iff in E. destruct E as [E1 E2].
    destruct (trimEnd s); [|discriminate].
    change (s = b) in IH1. subst s.
    exists (String c b). split; [reflexivity|].
    cbn [all_space]. now rewrite E1, IH2.
  - exists b. split; [|exact IH2].
    change (String c s = String c (trimEnd s ++ b)). now f_equal.
Qed.

Lemma trim_decompose (s : string) :
  exists a b, s = a ++ trim s ++ b /\ all_space a = true /\ all_space b = true.
Proof.
  destruct (trimStart_decompose s) as [a [Ha Sa]].
  destruct (trimEnd_decompose (trimStart s)) as [b [Hb Sb]].
  exists a, b. unfold trim. now rewrite <- Hb.
Qed.

Lemma trimStart_clean (s : string) (c : ascii) (r : string) :
  trimStart s = String c r -> is_space c = false.
Proof.
  induction s as [|d s IH]; simpl; [discriminate|].
  destruct (is_space d) eqn:E; [exact IH|]. now intros [= <- _].
Qed.

Lemma truthy_nonempty (s : string) : truthy s = true <-> s <> "".
Proof. unfold truthy. destruct s; simpl; split; intros; congruence. Qed.

Lemma present_Some (o : option string) (s : string) :
  present o = Some s <-> o = Some s /\ s <> "".
Proof.
  unfold present, truthy. destruct o as [t|]; simpl.
  - destruct t; simpl; split.
    + discriminate.
    + intros [[=<-] H]. congruence.
    + intros [=<-]. split; [reflexivity|discriminate].
    + now intros [[=<-] _].
  - split; [discriminate|]. now intros [? _].
Qed.

Lemma array_includes_In (arr : list string) (x : string) :
  array_includes arr x = true <-> In x arr.
Proof.
  unfold array_includes. rewrite existsb_exists. split.
  - intros [y [Hy Heq]]. apply String.eqb_eq in Heq. now subst.
  - intros H. exists x. split; [assumption|apply String.eqb_refl].
Qed.

End StringFacts.

(** ** The [Headers] class *)

Section HeaderFacts.

Import Headers.

Lemma same_name_eq (n m : string) :
  same_name n m = true <-> byte_lowercase n = byte_lowercase m.
Proof. unfold same_name. apply String.eqb_eq. Qed.

Lemma same_name_refl (n : string) : same_name n n = true.
Proof. now apply same_name_eq. Qed.

Lemma same_name_sym (n m : string) : same_name n m = same_name m n.
Proof. unfold same_name. apply String.eqb_sym. Qed.

Lemma same_name_lower (n m : string) :
  same_name (byte_lowercase n) m = same_name n m.
Proof. unfold same_name. now rewrite byte_lowercase_idem. Qed.

(** Two names that denote the same header select the same entries. *)
Lemma named_same (n m : string) (p : string * string) :
  same_name n m = true -> named n p = named m p.
Proof.
  intros H. apply same_name_eq in H. unfold named, same_name. now rewrite H.
Qed.

Lemma named_other (n m : string) (p : string * string) :
  same_name n m = false -> named m p = true -> named n p = false.
Proof.
  unfold named. intros Hnm Hm.
  destruct (same_name (fst p) n) eqn:Hn; [|reflexivity].
  apply same_name_eq in Hm, Hn.
  assert (same_name n m = true) by (apply same_name_eq; congruence).
  congruence.
Qed.

Lemma get_same (h : t) (n m : string) :
  same_name n m = true -> get h n = get h m.
Proof.
  intros H. unfold get.
  now rewrite (List.filter_ext _ _ (fun p => named_same n m p H)).
Qed.

Lemma has_get (h : t) (n : string) : has h n = true <-> get h n <> None.
Proof.
  unfold has, get. induction h as [|p h IH]; simpl.
  - split; [discriminate|congruence].
  - destruct (named n p); simpl; [split; [discriminate|reflexivity]|exact IH].
Qed.

Lemma has_false_get (h : t) (n : string) : has h n = false <-> get h n = None.
Proof.
  destruct (has h n) eqn:H.
  - apply has_get in H. split; [discriminate|congruence].
  - split; [|reflexivity]. intros _.
    destruct (get h n) eqn:G; [|reflexivity].
    assert (has h n = true) by (apply has_get; congruence). congruence.
Qed.

Lemma filter_delete_same (h : t) (n m : string) :
  same_name n m = true -> List.filter (named m) (delete h n) = [].
Proof.
  intros H. unfold delete. induction h as [|p h IH]; simpl; [reflexivity|].
  destruct (named n p) eqn:Hp; simpl; [exact IH|].
  rewrite <- (named_same n m p H), Hp. exact IH.
Qed.

Lemma filter_delete_other (h : t) (n m : string) :
  same_name n m = false ->
  List.filter (named m) (delete h n) = List.filter (named m) h.
Proof.
  intros H. unfold delete. induction h as [|p h IH]; simpl; [reflexivity|].
  destruct (named m p) eqn:Hm.
  - rewrite (named_other n m p H Hm). simpl. rewrite Hm. now f_equal.
  - destruct (named n p); simpl; [exact IH|]. now rewrite Hm.
Qed.

Lemma get_delete_same (h : t) (n m : string) :
  same_name n m = true -> get (delete h n) m = None.
Proof. intros H. unfold get. now rewrite filter_delete_same. Qed.

Lemma get_delete_other (h : t) (n m : string) :
  same_name n m = false -> get (delete h n) m = get h m.
Proof. intros H. unfold get. now rewrite filter_delete_other. Qed.

Lemma get_set_same (h : t) (n m v : string) :
  same_name n m = true -> get (set h n v) m = Some v.
Proof.
  intros H. unfold get, set.
  rewrite List.filter_app, filter_delete_same by assumption. simpl.
  unfold named at 1. simpl. rewrite same_name_lower, H. simpl.
  reflexivity.
Qed.

Lemma get_set_other (h : t) (n m v : string) :
  same_name n m = false -> get (set h n v) m = get h m.
Proof.
  intros H. unfold get, set.
  rewrite List.filter_app, filter_delete_other by assumption. simpl.
  unfold named at 2. simpl. rewrite same_name_lower, H.
  now rewrite app_nil_r.
Qed.

Lemma get_set (h : t) (n m v : string) :
  get (set h n v) m = if same_name n m then Some v else get h m.
Proof.
  destruct (same_name n m) eqn:H;
    [now apply get_set_same | now apply get_set_other].
Qed.

Lemma get_fold_delete (names : list string) (h : t) (m : string) :
  get (fold_left delete names h) m =
  if existsb (fun n => same_name n m) names then None else get h m.
Proof.
  revert h. induction names as [|n names IH]; intros h; simpl; [reflexivity|].
  rewrite IH. destruct (same_name n m) eqn:H; simpl.
  - rewrite get_delete_same by assumption. now destruct (existsb _ names).
  - now rewrite get_delete_other.
Qed.

Lemma get_x_api_key (h : t) : get h "x-api-key" = get h "X-API-Key".
Proof. now apply get_same. Qed.

End HeaderFacts.

(** ** The caches

    A cache state is coherent for an environment when every entry is what
    the uncached computation gives.  The empty caches are coherent, and the
    handler keeps them so as long as the environment stays the same, which
    is the deployment the worker is written for (one environment per
    isolate). *)

Section CacheFacts.

Lemma caches_ok_empty (env : Env) : caches_ok env EMPTY_CACHES.
Proof.
  split; simpl; intros ? ? H; rewrite lookup_empty in H; discriminate.
Qed.

Lemma length_append (s t : string) :
  String.length (s ++ t) = (String.length s + String.length t)%nat.
Proof. induction s as [|c s IH]; simpl; [reflexivity|now rewrite IH]. Qed.

Lemma append_inv_tail (s1 s2 t : string) : s1 ++ t = s2 ++ t -> s1 = s2.
Proof.
  revert s2. induction s1 as [|a s1 IH]; intros [|b s2] H.
  - reflexivity.
  - apply (f_equal String.length) in H. rewrite !length_append in H. simpl in H. lia.
  - apply (f_equal String.length) in H. rewrite !length_append in H. simpl in H. lia.
  - change (String a (s1 ++ t) = String b (s2 ++ t)) in H.
    injection H as -> H. f_equal. now apply IH.
Qed.

(** For one environment the cache key determines the provider. *)
Lemma cacheKey_inj (env : Env) (p q : string) :
  cacheKey p env = cacheKey q env -> p = q.
Proof. unfold cacheKey. apply append_inv_tail. Qed.

Lemma getApiConfig_ok (env : Env) (c : Caches) (p : string) :
  caches_ok env c ->
  fst (getApiConfig p env c) = configs p /\ caches_ok env (snd (getApiConfig p env c)).
Proof.
  intros [Hc Hk]. unfold getApiConfig.
  destruct (API_CONFIG_CACHE c !! p) as [v|] eqn:Hv; simpl.
  - split; [symmetry; now apply Hc | now split].
  - destruct (configs p) as [v|] eqn:Hp; simpl; (split; [reflexivity|]).
    + split; simpl; [|exact Hk]. intros q w Hq.
      destruct (decide (p = q)) as [<-|Hne].
      * rewrite lookup_insert_eq in Hq. congruence.
      * rewrite lookup_insert_ne in Hq by assumption. now apply Hc.
    + now split.
Qed.

Lemma getAllowedKeysForProvider_ok (env : Env) (c : Caches) (p : string) :
  caches_ok env c ->
  fst (getAllowedKeysForProvider p env c) = keysOf p env
  /\ caches_ok env (snd (getAllowedKeysForProvider p env c)).
Proof.
  intros [Hc Hk]. unfold getAllowedKeysForProvider.
  destruct (ALLOWED_KEYS_CACHE c !! cacheKey p env) as [ks|] eqn:Hks; simpl.
  - split; [now apply Hk | now split].
  - split; [reflexivity|]. split; simpl; [exact Hc|]. intros q ks Hq.
    destruct (decide (cacheKey p env = cacheKey q env)) as [Heq|Hne].
    + rewrite Heq, lookup_insert_eq in Hq.
      apply cacheKey_inj in Heq. congruence.
    + rewrite lookup_insert_ne in Hq by assumption. now apply Hk.
Qed.

Lemma handleClaudeGeminiTranslation_caches host request env c :
  caches_ok env c -> caches_ok env (snd (handleClaudeGeminiTranslation host request env c)).
Proof.
  intros H. unfold handleClaudeGeminiTranslation.
  destruct (present (geminiApiKey_of request)); [|exact H].
  destruct (getAllowedKeysForProvider_ok env c "gemini" H) as [_ H'].
  destruct (getAllowedKeysForProvider "gemini" env c) as [ks c']. simpl in H'.
  now destruct (rejected _ _).
Qed.

Lemma fetch_try_caches host request env c :
  caches_ok env c -> caches_ok env (snd (fetch_try host request env c)).
Proof.
  intros H. unfold fetch_try.
  destruct (startsWith _ _); [now apply handleClaudeGeminiTranslation_caches|].
  destruct (present (clientApiKey_of request)); [|exact H].
  destruct (_ <? 2)%nat; [exact H|].
  set (p := nth 0 _ _).
  destruct (getApiConfig_ok env c p H) as [_ H1].
  destruct (getApiConfig p env c) as [cfg c1]. simpl in H1.
  destruct cfg; [|exact H1].
  destruct (getAllowedKeysForProvider_ok env c1 p H1) as [_ H2].
  destruct (getAllowedKeysForProvider p env c1) as [ks c2]. simpl in H2.
  now destruct (rejected _ _).
Qed.

(** Serving a request keeps the caches coherent. *)
Lemma fetch_caches_ok host request env c :
  caches_ok env c -> caches_ok env (caches (fetch host request env c)).
Proof.
  intros H. unfold fetch. destruct (String.eqb _ _); [exact H|].
  pose proof (fetch_try_caches host request env c H) as H'.
  destruct (fetch_try host request env c) as [[tr [r|e]] c']; exact H'.
Qed.

End CacheFacts.

(** ** Reading the dispatcher *)

Section DispatcherFacts.


(** A path under the translation prefix has [claude-gemini] as its first
    segment, so no supported provider is ever addressed through it. *)
Lemma translation_path_provider (request : Request) (p : string) :
  startsWith (pathname (url request)) TRANSLATION_PREFIX = true ->
  provider_of request = Some p -> p = "claude-gemini".
Proof.
  unfold startsWith, provider_of, urlPathParts_of. intros H.
  apply prefix_split in H. destruct H as [r ->].
  change (TRANSLATION_PREFIX ++ r)
    with (String "/" ("claude-gemini" ++ String "/" ("v1" ++ String "/" ("messages" ++ r)))).
  change (split "/" (String "/" ("claude-gemini" ++ String "/" ("v1" ++ String "/" ("messages" ++ r)))))
    with ("" :: "claude-gemini" :: "v1" :: split "/" ("messages" ++ r)).
  simpl List.filter.
  destruct (length _ <? 2)%nat; [discriminate|].
  simpl. now intros [= <-].
Qed.

Lemma supported_not_translation (request : Request) (p : string) :
  provider_of request = Some p -> In p SUPPORTED_PROVIDERS ->
  startsWith (pathname (url request)) TRANSLATION_PREFIX = false.
Proof.
  intros Hp Hin.
  destruct (startsWith _ _) eqn:H; [|reflexivity].
  rewrite (translation_path_provider request p H Hp) in Hin.
  simpl in Hin. repeat (destruct Hin as [Hin|Hin]; [discriminate|]). contradiction.
Qed.

(** Past credential extraction, path parsing and provider resolution the
    dispatcher is its whitelist gate followed by the forwarding stage. *)
Lemma fetch_dispatch host request env c p key config :
  String.eqb (method request) "OPTIONS" = false ->
  startsWith (pathname (url request)) TRANSLATION_PREFIX = false ->
  present (clientApiKey_of request) = Some key ->
  provider_of request = Some p ->
  configs p = Some config ->
  caches_ok env c ->
  exists c',
    fetch host request env c =
    if rejected (keysOf p env) key
    then mkHandled unauthorized_response c' []
    else or_internal_error request
           (forward host request env p config key (urlPathParts_of (url request)), c').
Proof.
  intros Hm Ht Hk Hp Hcfg Hc. unfold fetch, fetch_try. rewrite Hm.
  fold TRANSLATION_PREFIX. rewrite Ht, Hk.
  unfold provider_of in Hp.
  destruct (length (urlPathParts_of (url request)) <? 2)%nat; [discriminate|].
  injection Hp as Hp. rewrite Hp.
  destruct (getApiConfig_ok env c p Hc) as [E1 Hc1].
  destruct (getApiConfig p env c) as [cfg c1]. simpl in E1, Hc1.
  rewrite E1, Hcfg.
  destruct (getAllowedKeysForProvider_ok env c1 p Hc1) as [E2 _].
  destruct (getAllowedKeysForProvider p env c1) as [ks c2]. simpl in E2.
  rewrite E2. exists c2.
  now destruct (rejected _ _).
Qed.

End DispatcherFacts.

(** ** Model mapping (C3) *)

Section ModelMapping.

Lemma mapped_model_rules (m : string) :
  mapped_model (Some m) =
  if startsWith m "gemini-" then m
  else if contains_ci m "haiku" then "gemini-2.5-flash"
  else if contains_ci m "sonnet" || contains_ci m "opus" then "gemini-2.5-pro"
  else "gemini-2.5-flash".
Proof.
  unfold mapped_model, MODEL_RULES, first_match.
  destruct (startsWith m "gemini-"); [reflexivity|].
  destruct (contains_ci m "haiku"); [reflexivity|].
  destruct (contains_ci m "sonnet"); reflexivity.
Qed.

Lemma mapping_is_mapped_model (model : option string) :
  mapClaudeModelToGemini model = mapped_model model.
Proof.
  destruct model as [m|]; [|reflexivity]. rewrite mapped_model_rules.
  unfold mapClaudeModelToGemini, contains_ci. now destruct m.
Qed.


(** The substring tests see the model through its lower-cased form only. *)
Lemma contains_ci_occurs (model word : string) :
  contains_ci model word = true <-> exists a b, toLowerCase model = a ++ word ++ b.
Proof. apply includes_split. Qed.

Lemma mapping_case_insensitive (m m' : string) :
  toLowerCase m = toLowerCase m' ->
  startsWith m "gemini-" = false -> startsWith m' "gemini-" = false ->
  mapClaudeModelToGemini (Some m) = mapClaudeModelToGemini (Some m').
Proof.
  intros E H H'. rewrite !mapping_is_mapped_model, !mapped_model_rules.
  unfold contains_ci. now rewrite H, H', E.
Qed.

(** The prefix test is on the model as given: a capitalised prefix is not
    recognised. *)
Example capitalised_prefix :
  mapClaudeModelToGemini (Some "Gemini-1.5-pro") = "gemini-2.5-flash".
Proof. reflexivity. Qed.

(** The mapping is idempotent: its results are left alone. *)
Lemma mapClaudeModelToGemini_idem (model : option string) :
  mapClaudeModelToGemini (Some (mapClaudeModelToGemini model))
  = mapClaudeModelToGemini model.
Proof.
  rewrite !mapping_is_mapped_model.
  destruct model as [m|]; [|reflexivity].
  rewrite (mapped_model_rules m).
  destruct (startsWith m "gemini-") eqn:H; [now rewrite mapped_model_rules, H|].
  destruct (contains_ci m "haiku"); [reflexivity|].
  destruct (_ || _); reflexivity.
Qed.

End ModelMapping.

(** ** The whitelist gate (C1) *)

Section WhitelistGate.

Lemma splitKeys_unfold (v : option string) :
  splitKeys v = match v with
                | Some text => List.filter truthy (map trim (split "," text))
                | None => []
                end.
Proof.
  destruct v as [[|c s]|]; [reflexivity| |reflexivity].
  unfold splitKeys. change (truthy (String c s)) with true. cbv iota.
  apply List.filter_ext. intros [|? ?]; reflexivity.
Qed.

(** On the supported providers the [switch] of the resolver computes the
    whitelist of the specification. *)
Lemma keysOf_whitelist (p : string) (env : Env) :
  In p SUPPORTED_PROVIDERS -> keysOf p env = whitelist p env.
Proof.
  simpl. intros [<-|[<-|[<-|[<-|[<-|[<-|[]]]]]]];
    unfold keysOf, whitelist, config_string; simpl; apply splitKeys_unfold.
Qed.

Lemma rejected_iff (allowed : list string) (key : string) :
  rejected allowed key = true <-> allowed <> [] /\ ~ In key allowed.
Proof.
  unfold rejected. rewrite andb_true_iff, negb_true_iff.
  rewrite <- not_true_iff_false, array_includes_In.
  destruct allowed; simpl; split; intros [H1 H2]; split;
    try assumption; try discriminate; try congruence; reflexivity.
Qed.



End WhitelistGate.

(** ** The target URL (C2) *)

Section TargetUrl.

Lemma fetchWithProxy_direct host (targetRequest : Request) env :
  PROXY_URL env = None ->
  fetchWithProxy host targetRequest env = ([targetRequest], global_fetch host targetRequest).
Proof.
  intros H. unfold fetchWithProxy, call_global_fetch. rewrite H. simpl.
  now destruct targetRequest.
Qed.

Lemma sent_or_internal_error request (call : Traced Response) c :
  sent (or_internal_error request (call, c)) = fst call.
Proof. now destruct call as [tr [r|e]]. Qed.

Lemma url_build_targetRequest request apiConfig targetUrl built :
  url (build_targetRequest request apiConfig targetUrl built) =
  match transformRequest apiConfig with
  | Some transform =>
      let transformedUrl :=
        transform (mkRequest (method request) targetUrl built
                     (if negb (String.eqb (method request) "GET")
                         && negb (String.eqb (method request) "HEAD")
                         && (match body request with Some _ => true | None => false end)
                      then body request else None)) in
      Url.set_search (Url.set_pathname targetUrl (pathname transformedUrl))
        (search transformedUrl)
  | None => targetUrl
  end.
Proof.
  unfold build_targetRequest.
  destruct (transformRequest apiConfig); destruct (_ && _); reflexivity.
Qed.

Lemma vertexai_transformRequest_path (req : Request) :
  pathname (vertexai_transformRequest req) = vertexai_path (pathname (url req))
  /\ search (vertexai_transformRequest req) = search (url req).
Proof.
  unfold vertexai_transformRequest, vertexai_path.
  destruct (includes _ "/predict"); [now split|].
  destruct (includes _ "/models"); [now split|].
  destruct (includes _ "/chat/completions"); now split.
Qed.

Lemma build_targetUrl_parts (requestUrl base : URL) (p : string) (segments : list string) :
  is_http requestUrl = true -> protocol base = "https:" ->
  let targetUrl := build_targetUrl requestUrl base p segments in
  protocol targetUrl = "https:"
  /\ hostname targetUrl = hostname base
  /\ search targetUrl = search requestUrl
  /\ pathname targetUrl =
     if String.eqb p "openrouter" then "/api/v1/" ++ join "/" (skipn 2 segments)
     else "/" ++ join "/" (skipn 1 segments).
Proof.
  intros Hh Hb. unfold build_targetUrl, Url.set_protocol, Url.set_hostname. simpl.
  rewrite Hb.
  assert (S : Url.is_special (protocol requestUrl) = true).
  { unfold is_http in Hh. apply orb_true_iff in Hh.
    destruct Hh as [H|H]; apply String.eqb_eq in H; now rewrite H. }
  rewrite S. simpl.
  destruct (String.eqb p "openrouter"); simpl; repeat split; reflexivity.
Qed.

End TargetUrl.

Section Forwarding.

Lemma supported_config_shape (p : string) :
  In p SUPPORTED_PROVIDERS ->
  exists cfg base,
    configs p = Some (OwnConfig cfg)
    /\ Url.parse_origin (baseUrl cfg) = Some base
    /\ protocol base = "https:"
    /\ transformRequest cfg =
       (if String.eqb p "vertexai" then Some vertexai_transformRequest else None)
    /\ transformResponse cfg =
       (if String.eqb p "vertexai" then Some vertexai_transformResponse else None)
    /\ maskHeaders cfg = Some COMMON_MASK.
Proof.
  simpl. intros [<-|[<-|[<-|[<-|[<-|[<-|[]]]]]]]; eexists; eexists;
    (split; [reflexivity | split; [vm_compute; reflexivity | repeat split]]).
Qed.

(** A request that passes the whitelist gate reaches the forwarding stage:
    the reply is what the transport and the relay make of the outbound
    request built from it. *)
Lemma fetch_forwarded host request env c p key :
  method request <> "OPTIONS" ->
  provider_of request = Some p ->
  In p SUPPORTED_PROVIDERS ->
  present (clientApiKey_of request) = Some key ->
  caches_ok env c ->
  rejected (whitelist p env) key = false ->
  exists cfg base c',
    configs p = Some (OwnConfig cfg)
    /\ Url.parse_origin (baseUrl cfg) = Some base
    /\ fetch host request env c =
       or_internal_error request
         (and_then
            (fetchWithProxy host
               (build_targetRequest request cfg
                  (build_targetUrl (url request) base p (urlPathParts_of (url request)))
                  (build_headers request p cfg key)) env)
            (relay_response host cfg), c').
Proof.
  intros Hm Hp Hin Hk Hc Hr.
  assert (Hm' : String.eqb (method request) "OPTIONS" = false)
    by now apply String.eqb_neq.
  destruct (supported_config_shape p Hin) as [cfg [base [Hcfg [Hbase _]]]].
  destruct (fetch_dispatch host request env c p key _ Hm'
              (supported_not_translation request p Hp Hin) Hk Hp Hcfg Hc)
    as [c' Hf].
  rewrite (keysOf_whitelist p env Hin), Hr in Hf.
  exists cfg, base, c'. split; [exact Hcfg|]. split; [exact Hbase|].
  rewrite Hf. unfold forward, targetRequest_of. now rewrite Hbase.
Qed.

End Forwarding.

Section OutboundUrl.

(** C2, as the code has it. For an authenticated request to a supported
    provider that arrived over HTTP or HTTPS, the outbound URL has the scheme
    and the host name of the provider's base origin and the query string of
    the inbound URL; its path is a slash followed by the non-empty segments
    after the provider id, joined by slashes; for openrouter the segments
    after the first two, under /api/v1/; for vertexai the provider's transform
    is then applied to that path. Without an outbound proxy this request is
    the one sent. *)
Theorem C2_target_url host request env c p key :
  method request <> "OPTIONS" ->
  provider_of request = Some p ->
  In p SUPPORTED_PROVIDERS ->
  present (clientApiKey_of request) = Some key ->
  caches_ok env c ->
  rejected (whitelist p env) key = false ->
  is_http (url request) = true ->
  exists cfg base targetRequest c',
    configs p = Some (OwnConfig cfg)
    /\ Url.parse_origin (baseUrl cfg) = Some base
    /\ fetch host request env c =
       or_internal_error request
         (and_then (fetchWithProxy host targetRequest env) (relay_response host cfg), c')
    /\ (PROXY_URL env = None -> sent (fetch host request env c) = [targetRequest])
    /\ protocol (url targetRequest) = protocol base
    /\ hostname (url targetRequest) = hostname base
    /\ search (url targetRequest) = search (url request)
    /\ pathname (url targetRequest) = remapped_path p (urlPathParts_of (url request)).
Proof.
  intros Hm Hp Hin Hk Hc Hr Hh.
  destruct (fetch_forwarded host request env c p key Hm Hp Hin Hk Hc Hr)
    as [cfg [base [c' [Hcfg [Hbase Hf]]]]].
  destruct (supported_config_shape p Hin) as [cfg' [base' [Hcfg' [Hbase' [Hproto [Htr _]]]]]].
  assert (cfg' = cfg) by congruence. subst cfg'.
  assert (base' = base) by congruence. subst base'.
  set (segments := urlPathParts_of (url request)) in *.
  set (built := build_headers request p cfg key) in *.
  set (targetUrl := build_targetUrl (url request) base p segments) in *.
  destruct (build_targetUrl_parts (url request) base p segments Hh Hproto)
    as [T1 [T2 [T3 T4]]].
  fold targetUrl in T1, T2, T3, T4. clearbody targetUrl built segments.
  exists cfg, base, (build_targetRequest request cfg targetUrl built), c'.
  split; [exact Hcfg|]. split; [exact Hbase|]. split; [exact Hf|]. split.
  { intros Hproxy. rewrite Hf, sent_or_internal_error. unfold and_then. simpl.
    now rewrite fetchWithProxy_direct. }
  rewrite url_build_targetRequest, Htr. unfold remapped_path.
  destruct (String.eqb p "vertexai") eqn:Hv.
  - apply String.eqb_eq in Hv. subst p. simpl in T4.
    match goal with |- context [vertexai_transformRequest ?r] =>
      destruct (vertexai_transformRequest_path r) as [P S] end.
    simpl in P, S. cbn [protocol hostname search pathname Url.set_search Url.set_pathname].
    rewrite P, S, T4, Hproto. repeat split; assumption.
  - rewrite Hproto, T4. repeat split; assumption.
Qed.

Lemma C2_witness :
  exists targetRequest,
    sent (fetch mock_host vertex_request mockEnv EMPTY_CACHES) = [targetRequest]
    /\ hostname (url targetRequest) = "us-central1-aiplatform.googleapis.com"
    /\ pathname (url targetRequest) =
       remapped_path "vertexai" (urlPathParts_of (url vertex_request)).
Proof.
  assert (Hm : method vertex_request <> "OPTIONS") by discriminate.
  assert (Hin : In "vertexai" SUPPORTED_PROVIDERS) by (simpl; auto 10).
  destruct (C2_target_url mock_host vertex_request mockEnv EMPTY_CACHES
              "vertexai" "client-key-1" Hm eq_refl Hin eq_refl
              (caches_ok_empty mockEnv) eq_refl eq_refl)
    as [cfg [base [t [c' [Hcfg [Hbase [_ [Hsent [_ [Hhost [_ Hpath]]]]]]]]]]].
  exists t. split; [now apply Hsent|]. split; [|exact Hpath].
  rewrite Hhost. injection Hcfg as <-. now injection Hbase as <-.
Defined.

(** C2 as stated fails on the vertexai route: the path that leaves is the
    transform's, not the inbound path without its first segment. *)
Lemma C2_counterexample :
  exists targetRequest,
    sent (fetch mock_host vertex_request mockEnv EMPTY_CACHES) = [targetRequest]
    /\ verbatim_path "vertexai" (pathname (url vertex_request)) = "/v1/predict"
    /\ pathname (url targetRequest) =
       "/v1/projects/123456789/locations/us-central1/publishers/google/models/gemini-pro:predict"
    /\ pathname (url targetRequest)
       <> verbatim_path "vertexai" (pathname (url vertex_request)).
Proof.
  eexists. split; [vm_compute; reflexivity|]. vm_compute.
  repeat split; discriminate.
Qed.

(** The port of the inbound URL stays on the outbound one: only the host name
    and the scheme are assigned.  Behind the local development server the
    upstream is therefore addressed on port 3000. *)
Example local_port_kept :
  exists targetRequest,
    sent (fetch mock_host local_request mockEnv EMPTY_CACHES) = [targetRequest]
    /\ Url.toString (url targetRequest) = "https://api.openai.com:3000/v1/chat/completions".
Proof. eexists. split; vm_compute; reflexivity. Qed.

End OutboundUrl.

(** ** Credential extraction (C6) *)

Section Credential.

Lemma missing_credential (request : Request) :
  Headers.get (headers request) "X-API-Key" = None ->
  Headers.get (headers request) "Authorization" = None ->
  present (clientApiKey_of request) = None
  /\ present (geminiApiKey_of request) = None.
Proof.
  intros Hx Ha. unfold clientApiKey_of, geminiApiKey_of.
  rewrite get_x_api_key, Hx, Ha. now split.
Qed.

Lemma x_api_key_first (request : Request) (v : string) :
  Headers.get (headers request) "X-API-Key" = Some v -> v <> "" ->
  clientApiKey_of request = Some v /\ geminiApiKey_of request = Some v.
Proof.
  intros Hx Hv. apply truthy_nonempty in Hv.
  unfold clientApiKey_of, geminiApiKey_of, or_else. now rewrite Hx, Hv.
Qed.

(** C6, as the code has it. A request that is not a preflight, lies outside
    the translation endpoint and carries neither an X-API-Key nor an
    Authorization header is answered 401 with error "API key is required"
    and a message, whatever its path and provider: nothing is looked up,
    cached or sent.  An X-API-Key header with a non-empty value is the
    credential, whatever the Authorization header holds. *)
Theorem C6_credential_extraction host request env c :
  method request <> "OPTIONS" ->
  startsWith (pathname (url request)) TRANSLATION_PREFIX = false ->
  (Headers.get (headers request) "X-API-Key" = None ->
   Headers.get (headers request) "Authorization" = None ->
   fetch host request env c = mkHandled missing_key_response c []
   /\ status missing_key_response = 401%Z
   /\ json_field missing_key_response "error" = Some (JStr "API key is required")
   /\ json_field missing_key_response "message" <> None)
  /\ (forall v, Headers.get (headers request) "X-API-Key" = Some v -> v <> "" ->
      present (clientApiKey_of request) = Some v).
Proof.
  intros Hm Ht. split.
  - intros Hx Ha. destruct (missing_credential request Hx Ha) as [Hk _].
    apply String.eqb_neq in Hm.
    unfold fetch, fetch_try. rewrite Hm, Ht, Hk. simpl.
    repeat split; discriminate.
  - intros v Hx Hv. destruct (x_api_key_first request v Hx Hv) as [-> _].
    now apply present_Some.
Qed.

Lemma C6_witness :
  fetch mock_host no_key_request mockEnv EMPTY_CACHES
  = mkHandled missing_key_response EMPTY_CACHES []
  /\ present (clientApiKey_of both_keys_request) = Some "client-key-1".
Proof.
  assert (Hm : method no_key_request <> "OPTIONS") by discriminate.
  assert (Hm' : method both_keys_request <> "OPTIONS") by discriminate.
  split.
  - apply (proj1 (C6_credential_extraction mock_host no_key_request mockEnv
                    EMPTY_CACHES Hm eq_refl)); reflexivity.
  - apply (proj2 (C6_credential_extraction mock_host both_keys_request mockEnv
                    EMPTY_CACHES Hm' eq_refl) "client-key-1"); [reflexivity|discriminate].
Defined.

(** C6 as stated fails when the X-API-Key header is present but empty: the
    bearer token of the Authorization header is then the credential, and it
    is what reaches the provider. *)
Lemma C6_counterexample :
  Headers.get (headers empty_key_request) "X-API-Key" = Some ""
  /\ Headers.get (headers empty_key_request) "Authorization" = Some "Bearer client-key-1"
  /\ present (clientApiKey_of empty_key_request) = Some "client-key-1"
  /\ exists targetRequest,
       sent (fetch mock_host empty_key_request mockEnv EMPTY_CACHES) = [targetRequest]
       /\ Headers.get (headers targetRequest) "x-api-key" = Some "client-key-1".
Proof.
  repeat split; try reflexivity.
  eexists. split; vm_compute; reflexivity.
Qed.

End Credential.

(** ** CORS headers (C7) *)

Section Cors.

Lemma own_reply_headers (r : Response) :
  own_reply r ->
  header r CORS_ORIGIN = Some "*"
  /\ header r "Content-Type" = Some "application/json"
  /\ header r CORS_METHODS = None
  /\ header r CORS_HEADERS = None
  /\ header r CORS_MAX_AGE = None.
Proof. unfold own_reply, header. intros ->. repeat split. Qed.

Lemma preflight_headers :
  header preflight_response CORS_ORIGIN = Some "*"
  /\ header preflight_response CORS_METHODS = Some ALLOW_METHODS
  /\ header preflight_response CORS_HEADERS = Some ALLOW_HEADERS
  /\ header preflight_response CORS_MAX_AGE = Some "86400".
Proof. repeat split. Qed.

Lemma table_transformResponse (p : string) (apiConfig : ApiConfig) :
  configs p = Some (OwnConfig apiConfig) ->
  transformResponse apiConfig = None
  \/ transformResponse apiConfig = Some vertexai_transformResponse.
Proof.
  unfold configs.
  repeat (destruct (String.eqb p _); [intros [= <-]; simpl; auto|]).
  destruct (array_includes _ _); discriminate.
Qed.

Lemma relayed_reply_headers host (r : Response) :
  relayed_reply host r ->
  header r CORS_ORIGIN = Some "*"
  /\ header r CORS_METHODS = Some ALLOW_METHODS
  /\ header r CORS_HEADERS = Some ALLOW_HEADERS.
Proof.
  intros [p [apiConfig [upstream [Hcfg Hr]]]].
  unfold relay_response, new_Response, bind in Hr.
  assert (E : exists st text b,
             r = mkResponse st text
                   (Headers.set
                      (Headers.set (Headers.set (up_headers upstream) CORS_ORIGIN "*")
                         CORS_METHODS ALLOW_METHODS)
                      CORS_HEADERS ALLOW_HEADERS) b).
  { revert Hr. destruct (negb _); [discriminate|].
    destruct (table_transformResponse p apiConfig Hcfg) as [E | E]; rewrite E;
      destruct (up_body upstream);
      try (destruct (existsb _ _); [discriminate|]);
      intros [= <-]; eauto. }
  destruct E as [st [text [b ->]]]. unfold header. simpl.
  rewrite !get_set. repeat split.
Qed.

Lemma forward_reply host request env p config key segments (r : Response) :
  configs p = Some config ->
  snd (forward host request env p config key segments) = Ok r ->
  relayed_reply host r.
Proof.
  intros Hcfg. unfold forward.
  destruct config as [apiConfig|]; [|discriminate].
  destruct (targetRequest_of _ _ _ _ _) as [targetRequest|]; [|discriminate].
  unfold and_then. simpl.
  destruct (snd (fetchWithProxy host targetRequest env)) as [upstream|e]; [|discriminate].
  simpl. intros Hr. now exists p, apiConfig, upstream.
Qed.

Lemma translate_reply host request env key (r : Response) :
  snd (translate host request env key) = Ok r -> own_reply r.
Proof.
  unfold translate.
  destruct (bind _ _) as [[geminiModel geminiRequest]|e]; [|discriminate].
  unfold and_then. simpl.
  destruct (snd (fetchWithProxy _ _ _)) as [geminiResp|e]; [|discriminate].
  simpl. unfold translate_response.
  destruct (json host (up_body geminiResp)) as [geminiData|e]; [|discriminate].
  simpl. destruct (build_anthropicResponse _ _ _); [|discriminate].
  simpl. now intros [= <-].
Qed.

(** Every reply that leaves the [try] block was written by the worker
    itself or relayed from upstream. *)
Lemma fetch_try_reply host request env c (r : Response) :
  caches_ok env c ->
  snd (fst (fetch_try host request env c)) = Ok r ->
  own_reply r \/ relayed_reply host r.
Proof.
  intros Hc. unfold fetch_try.
  destruct (startsWith _ _).
  - unfold handleClaudeGeminiTranslation.
    destruct (present (geminiApiKey_of request)) as [key|];
      [|simpl; intros [= <-]; now left].
    destruct (getAllowedKeysForProvider "gemini" env c) as [ks c1].
    destruct (rejected ks key); simpl; [intros [= <-]; now left|].
    intros H. left. now apply (translate_reply host request env key).
  - destruct (present (clientApiKey_of request)) as [key|];
      [|simpl; intros [= <-]; now left].
    destruct (_ <? 2)%nat; [simpl; intros [= <-]; now left|].
    set (p := nth 0 _ _).
    destruct (getApiConfig_ok env c p Hc) as [E1 Hc1].
    destruct (getApiConfig p env c) as [cfg c1]. simpl in E1.
    destruct cfg as [config|]; [|simpl; intros [= <-]; now left].
    destruct (getAllowedKeysForProvider p env c1) as [ks c2].
    destruct (rejected ks key); simpl; [intros [= <-]; now left|].
    intros H. right.
    now apply (forward_reply host request env p config key
                 (urlPathParts_of (url request)) r).
Qed.

(** C7, as the code has it. Every reply of the entry point carries
    Access-Control-Allow-Origin: *. A preflight reply carries in addition
    the Allow-Methods and Allow-Headers lists and Access-Control-Max-Age:
    86400. Any other reply is either one the worker wrote itself (the 400,
    401, 403 and 500 errors and the translator's replies), whose only headers
    are Content-Type and Access-Control-Allow-Origin, or a reply relayed from
    upstream, which carries the Allow-Methods and Allow-Headers lists. *)
Theorem C7_cors_headers host request env c :
  caches_ok env c ->
  let r := response (fetch host request env c) in
  header r CORS_ORIGIN = Some "*"
  /\ (method request = "OPTIONS" ->
      header r CORS_METHODS = Some ALLOW_METHODS
      /\ header r CORS_HEADERS = Some ALLOW_HEADERS
      /\ header r CORS_MAX_AGE = Some "86400")
  /\ (method request <> "OPTIONS" ->
      (own_reply r /\ header r CORS_METHODS = None /\ header r CORS_HEADERS = None)
      \/ (relayed_reply host r
          /\ header r CORS_METHODS = Some ALLOW_METHODS
          /\ header r CORS_HEADERS = Some ALLOW_HEADERS)).
Proof.
  intros Hc r. subst r. unfold fetch.
  destruct (String.eqb (method request) "OPTIONS") eqn:Hm.
  - apply String.eqb_eq in Hm. simpl. split; [reflexivity|].
    split; [intros _; repeat split | congruence].
  - apply String.eqb_neq in Hm.
    pose proof (fetch_try_reply host request env c) as Hr.
    destruct (fetch_try host request env c) as [[tr [r|e]] c']; simpl in *.
    + destruct (Hr r Hc eq_refl) as [Ho|Hu].
      * destruct (own_reply_headers r Ho) as [O [_ [M [H _]]]].
        split; [exact O|]. split; [congruence|]. intros _. now left.
      * destruct (relayed_reply_headers host r Hu) as [O [M H]].
        split; [exact O|]. split; [congruence|]. intros _. now right.
    + split; [reflexivity|]. split; [congruence|]. intros _. left. repeat split.
Qed.

Lemma C7_witness :
  header (response (fetch mock_host whitelisted_request mockEnv EMPTY_CACHES)) CORS_ORIGIN
  = Some "*".
Proof.
  exact (proj1 (C7_cors_headers mock_host whitelisted_request mockEnv EMPTY_CACHES
                  (caches_ok_empty mockEnv))).
Defined.

(** C7 as stated fails on the replies the worker writes itself: the 401 for
    a missing credential carries neither Access-Control-Allow-Methods nor
    Access-Control-Allow-Headers. *)
Lemma C7_counterexample :
  let r := response (fetch mock_host no_key_request mockEnv EMPTY_CACHES) in
  status r = 401%Z
  /\ header r CORS_ORIGIN = Some "*"
  /\ header r CORS_METHODS = None
  /\ header r CORS_HEADERS = None.
Proof. repeat split. Qed.

End Cors.

(** ** Header construction (C8) *)

Section HeaderConstruction.

Lemma get_copy_relevant_header request (built : Headers.t) (m n : string) :
  Headers.get (copy_relevant_header request built m) n =
  if Headers.same_name m n
  then match supplied request n with
       | Some v => Some v
       | None => Headers.get built n
       end
  else Headers.get built n.
Proof.
  unfold copy_relevant_header, supplied, present.
  destruct (Headers.same_name m n) eqn:E.
  - rewrite <- (get_same (headers request) m n E).
    destruct (Headers.get (headers request) m) as [v|];
      [|now rewrite <- (get_same built m n E)].
    destruct (truthy v); [now rewrite get_set_same|].
    now rewrite <- (get_same built m n E).
  - destruct (Headers.get (headers request) m) as [v|]; [|reflexivity].
    destruct (truthy v); [now rewrite get_set_other|reflexivity].
Qed.

Lemma get_copy_fold request (names : list string) (built : Headers.t) (n : string) :
  Headers.get (fold_left (copy_relevant_header request) names built) n =
  if existsb (fun m => Headers.same_name m n) names
  then match supplied request n with
       | Some v => Some v
       | None => Headers.get built n
       end
  else Headers.get built n.
Proof.
  revert built. induction names as [|m names IH]; intros built; simpl; [reflexivity|].
  rewrite IH, get_copy_relevant_header.
  destruct (Headers.same_name m n); simpl;
    destruct (existsb _ names); destruct (supplied request n); reflexivity.
Qed.

(** A pass-through header reaches the copy exactly when the caller supplied
    a non-empty value for it. *)
Lemma get_copy_relevant_headers request (built : Headers.t) (n : string) :
  existsb (fun m => Headers.same_name m n) RELEVANT_HEADERS = true ->
  Headers.get (copy_relevant_headers request built) n =
  match supplied request n with
  | Some v => Some v
  | None => Headers.get built n
  end.
Proof. intros H. unfold copy_relevant_headers. now rewrite get_copy_fold, H. Qed.

Lemma get_copy_irrelevant request (built : Headers.t) (n : string) :
  existsb (fun m => Headers.same_name m n) RELEVANT_HEADERS = false ->
  Headers.get (copy_relevant_headers request built) n = Headers.get built n.
Proof. intros H. unfold copy_relevant_headers. now rewrite get_copy_fold, H. Qed.

Lemma get_set_api_key_header apiConfig key (n : string) :
  Headers.get (set_api_key_header apiConfig key []) n =
  if Headers.same_name (apiKeyHeader apiConfig) n
  then Some (if String.eqb (apiKeyHeader apiConfig) "Authorization"
             then "Bearer " ++ key else key)
  else None.
Proof.
  unfold set_api_key_header.
  destruct (String.eqb (apiKeyHeader apiConfig) "Authorization") eqn:E.
  - apply String.eqb_eq in E. rewrite E. now rewrite get_set.
  - now rewrite get_set.
Qed.

Lemma get_set_default_user_agent (h : Headers.t) (n : string) :
  Headers.same_name "user-agent" n = false ->
  Headers.get (set_default_user_agent h) n = Headers.get h n.
Proof.
  intros H. unfold set_default_user_agent.
  destruct (negb _); [now rewrite get_set_other|reflexivity].
Qed.

Lemma get_maskClientInfo (h : Headers.t) (mask : list string) (n : string) :
  existsb (fun m => Headers.same_name m n) mask = false ->
  Headers.get (maskClientInfo h (Some mask)) n = Headers.get h n.
Proof. intros H. unfold maskClientInfo. now rewrite get_fold_delete, H. Qed.

Lemma headers_build_targetRequest request apiConfig targetUrl built :
  headers (build_targetRequest request apiConfig targetUrl built) = built.
Proof.
  unfold build_targetRequest.
  destruct (transformRequest apiConfig); destruct (_ && _); reflexivity.
Qed.

Lemma supported_credential_header (p : string) (cfg : ApiConfig) :
  In p SUPPORTED_PROVIDERS -> configs p = Some (OwnConfig cfg) ->
  maskHeaders cfg = Some COMMON_MASK
  /\ In (apiKeyHeader cfg) [ "x-api-key"; "Authorization"; "x-goog-api-key" ]
  /\ defaultVersion cfg =
     (if String.eqb p "anthropic" then Some "2023-06-01"
      else if String.eqb p "openrouter" then None else Some "2024-01-01").
Proof.
  simpl. intros [<-|[<-|[<-|[<-|[<-|[<-|[]]]]]]] [= <-]; simpl; auto 10.
Qed.

(** The two version headers of the header set the dispatcher builds. *)
Lemma build_headers_versions request (p : string) (cfg : ApiConfig) (key : string) :
  In p SUPPORTED_PROVIDERS -> configs p = Some (OwnConfig cfg) ->
  let built := build_headers request p cfg key in
  let anthropic := supplied request "anthropic-version" in
  let openai := supplied request "openai-version" in
  Headers.get built "anthropic-version"
  = forwarded_version p "anthropic" "2023-06-01" anthropic openai
  /\ Headers.get built "openai-version"
     = forwarded_version p "openai" "2024-01-01" openai anthropic.
Proof.
  intros Hin Hcfg built anthropic openai.
  destruct (supported_credential_header p cfg Hin Hcfg) as [Hmask [Hkey Hver]].
  subst built. unfold build_headers. rewrite Hmask.
  rewrite !get_maskClientInfo, !get_set_default_user_agent by reflexivity.
  set (h0 := set_api_key_header cfg key []).
  assert (A : Headers.get (copy_relevant_headers request h0) "anthropic-version" = anthropic).
  { rewrite get_copy_relevant_headers by reflexivity. fold anthropic.
    destruct anthropic; [reflexivity|]. subst h0. rewrite get_set_api_key_header.
    simpl in Hkey. destruct Hkey as [<-|[<-|[<-|[]]]]; reflexivity. }
  assert (O : Headers.get (copy_relevant_headers request h0) "openai-version" = openai).
  { rewrite get_copy_relevant_headers by reflexivity. fold openai.
    destruct openai; [reflexivity|]. subst h0. rewrite get_set_api_key_header.
    simpl in Hkey. destruct Hkey as [<-|[<-|[<-|[]]]]; reflexivity. }
  unfold set_default_version.
  assert (HA : Headers.has (copy_relevant_headers request h0) "anthropic-version"
               = match anthropic with Some _ => true | None => false end).
  { destruct anthropic; [apply has_get|apply has_false_get]; congruence. }
  assert (HO : Headers.has (copy_relevant_headers request h0) "openai-version"
               = match openai with Some _ => true | None => false end).
  { destruct openai; [apply has_get|apply has_false_get]; congruence. }
  rewrite HA, HO, Hver. clear HA HO. unfold forwarded_version.
  simpl in Hin.
  destruct Hin as [<-|[<-|[<-|[<-|[<-|[<-|[]]]]]]]; simpl;
    destruct anthropic, openai; simpl;
    rewrite ?get_set; simpl; rewrite ?A, ?O; split; reflexivity.
Qed.

End HeaderConstruction.

Section DefaultVersion.

(** C8, as the code has it. On every forwarded request a version header the
    caller supplied with a non-empty value is forwarded unchanged, and then
    no default is written under either name. When the caller supplied
    neither version header, anthropic-version: 2023-06-01 is written for
    anthropic, openai-version: 2024-01-01 for openai, and no version header
    at all for the other providers, whether or not their entry defines a
    default version. *)
Theorem C8_default_version host request env c p key :
  method request <> "OPTIONS" ->
  provider_of request = Some p ->
  In p SUPPORTED_PROVIDERS ->
  present (clientApiKey_of request) = Some key ->
  caches_ok env c ->
  rejected (whitelist p env) key = false ->
  exists cfg targetRequest c',
    configs p = Some (OwnConfig cfg)
    /\ fetch host request env c =
       or_internal_error request
         (and_then (fetchWithProxy host targetRequest env) (relay_response host cfg), c')
    /\ Headers.get (headers targetRequest) "anthropic-version"
       = forwarded_version p "anthropic" "2023-06-01"
           (supplied request "anthropic-version") (supplied request "openai-version")
    /\ Headers.get (headers targetRequest) "openai-version"
       = forwarded_version p "openai" "2024-01-01"
           (supplied request "openai-version") (supplied request "anthropic-version").
Proof.
  intros Hm Hp Hin Hk Hc Hr.
  destruct (fetch_forwarded host request env c p key Hm Hp Hin Hk Hc Hr)
    as [cfg [base [c' [Hcfg [Hbase Hf]]]]].
  destruct (build_headers_versions request p cfg key Hin Hcfg) as [A O].
  eexists cfg, _, c'. split; [exact Hcfg|]. split; [exact Hf|].
  rewrite headers_build_targetRequest. now split.
Qed.

Lemma C8_witness :
  exists targetRequest,
    sent (fetch mock_host versioned_request mockEnv EMPTY_CACHES) = [targetRequest]
    /\ Headers.get (headers targetRequest) "anthropic-version" = Some "2022-01-01"
    /\ Headers.get (headers targetRequest) "openai-version" = None.
Proof.
  assert (Hm : method versioned_request <> "OPTIONS") by discriminate.
  assert (Hin : In "anthropic" SUPPORTED_PROVIDERS) by (simpl; auto).
  destruct (C8_default_version mock_host versioned_request mockEnv EMPTY_CACHES
              "anthropic" "client-key-1" Hm eq_refl Hin eq_refl
              (caches_ok_empty mockEnv) eq_refl)
    as [cfg [t [c' [_ [Hf [A O]]]]]].
  exists t. split; [|split; [exact A|exact O]].
  rewrite Hf, sent_or_internal_error. unfold and_then. cbn [fst].
  now rewrite fetchWithProxy_direct.
Defined.

(** C8 as stated fails for gemini: its entry defines a default version and
    the caller supplied neither version header, yet no header carrying that
    version is written. *)
Lemma C8_counterexample :
  match configs "gemini" with
  | Some (OwnConfig cfg) => defaultVersion cfg
  | _ => None
  end = Some "2024-01-01"
  /\ Headers.has (headers gemini_request) "anthropic-version" = false
  /\ Headers.has (headers gemini_request) "openai-version" = false
  /\ map headers (sent (fetch mock_host gemini_request mockEnv EMPTY_CACHES))
     = [ [ ("x-goog-api-key", "client-key-1"); ("content-type", "application/json");
           ("user-agent", "Claude-Proxy/1.0") ] ].
Proof. repeat split; vm_compute; reflexivity. Qed.

End DefaultVersion.

(** ** A raw Authorization value (C9) *)

Section RawAuthorization.

Lemma replace_unmatched (v : string) :
  matches_BEARER_PREFIX v = false -> replace_BEARER_PREFIX v = v.
Proof.
  unfold matches_BEARER_PREFIX, replace_BEARER_PREFIX.
  destruct (startsWith v "Bearer"); [|reflexivity]. simpl.
  destruct (String.substring _ _ _) as [|ch rest]; [reflexivity|].
  now intros ->.
Qed.

Lemma raw_authorization_credential (request : Request) (v : string) :
  Headers.get (headers request) "X-API-Key" = None ->
  Headers.get (headers request) "Authorization" = Some v ->
  matches_BEARER_PREFIX v = false ->
  clientApiKey_of request = Some v /\ geminiApiKey_of request = Some v.
Proof.
  intros Hx Ha Hb. unfold clientApiKey_of, geminiApiKey_of.
  rewrite get_x_api_key, Hx, Ha. simpl. now rewrite (replace_unmatched v Hb).
Qed.

Lemma get_set_default_version p cfg (h : Headers.t) (n : string) :
  Headers.same_name "anthropic-version" n = false ->
  Headers.same_name "openai-version" n = false ->
  Headers.get (set_default_version p cfg h) n = Headers.get h n.
Proof.
  intros A O. unfold set_default_version.
  destruct (present (defaultVersion cfg)); [|reflexivity].
  destruct (_ && _); [|reflexivity].
  destruct (String.eqb p "anthropic"); [now rewrite get_set_other|].
  destruct (String.eqb p "openai"); [now rewrite get_set_other|reflexivity].
Qed.

(** The credential header of the header set the dispatcher builds. *)
Lemma build_headers_credential request (p : string) (cfg : ApiConfig) (key : string) :
  In p SUPPORTED_PROVIDERS -> configs p = Some (OwnConfig cfg) ->
  Headers.get (build_headers request p cfg key) (apiKeyHeader cfg)
  = Some (credential_value cfg key).
Proof.
  intros Hin Hcfg.
  destruct (supported_credential_header p cfg Hin Hcfg) as [Hmask [Hkey _]].
  unfold build_headers, credential_value. rewrite Hmask. simpl in Hkey.
  destruct Hkey as [E|[E|[E|[]]]]; rewrite <- E;
    rewrite get_maskClientInfo, get_set_default_user_agent,
      get_set_default_version, get_copy_irrelevant, get_set_api_key_header
      by reflexivity;
    rewrite <- E; reflexivity.
Qed.

(** The translation endpoint is the credential check, the Gemini whitelist
    gate and then the translation proper. *)
Lemma fetch_translation host request env c key :
  method request <> "OPTIONS" ->
  startsWith (pathname (url request)) TRANSLATION_PREFIX = true ->
  present (geminiApiKey_of request) = Some key ->
  caches_ok env c ->
  exists c',
    fetch host request env c =
    if rejected (whitelist "gemini" env) key
    then mkHandled gemini_unauthorized_response c' []
    else or_internal_error request (translate host request env key, c').
Proof.
  intros Hm Ht Hk Hc. apply String.eqb_neq in Hm.
  unfold fetch, fetch_try, handleClaudeGeminiTranslation. rewrite Hm, Ht, Hk.
  destruct (getAllowedKeysForProvider_ok env c "gemini" Hc) as [E _].
  destruct (getAllowedKeysForProvider "gemini" env c) as [ks c']. simpl in E.
  rewrite E. exists c'.
  assert (W : keysOf "gemini" env = whitelist "gemini" env)
    by (apply keysOf_whitelist; simpl; auto).
  rewrite W. now destruct (rejected _ _).
Qed.

Lemma headers_build_geminiReq (geminiModel key : string) (geminiRequest : Json) :
  Headers.get (headers (build_geminiReq geminiModel key geminiRequest)) "x-goog-api-key"
  = Some key.
Proof. unfold build_geminiReq. simpl. unfold Headers.of_literal. simpl. now rewrite get_set. Qed.

(** C9, as the code has it. With no X-API-Key header, a non-empty
    Authorization value that does not start with Bearer and a space
    character is, as it stands, the caller's credential in the dispatcher
    and in the translator.  The dispatcher compares it with the provider's
    whitelist (403 when a non-empty whitelist lacks it) and otherwise puts it
    in the provider's credential header of the outbound request, after the
    word Bearer when that header is Authorization; the translator compares
    it with the Gemini whitelist and otherwise translates with it as the
    Gemini key, which it sends as x-goog-api-key. *)
Theorem C9_raw_authorization host request env c v :
  Headers.get (headers request) "X-API-Key" = None ->
  Headers.get (headers request) "Authorization" = Some v ->
  matches_BEARER_PREFIX v = false ->
  v <> "" ->
  method request <> "OPTIONS" ->
  caches_ok env c ->
  present (clientApiKey_of request) = Some v
  /\ present (geminiApiKey_of request) = Some v
  /\ (forall p, provider_of request = Some p -> In p SUPPORTED_PROVIDERS ->
      (rejected (whitelist p env) v = true ->
       exists c', fetch host request env c = mkHandled unauthorized_response c' [])
      /\ (rejected (whitelist p env) v = false ->
          exists cfg targetRequest c',
            configs p = Some (OwnConfig cfg)
            /\ fetch host request env c =
               or_internal_error request
                 (and_then (fetchWithProxy host targetRequest env)
                    (relay_response host cfg), c')
            /\ Headers.get (headers targetRequest) (apiKeyHeader cfg)
               = Some (credential_value cfg v)))
  /\ (startsWith (pathname (url request)) TRANSLATION_PREFIX = true ->
      exists c',
        fetch host request env c =
        if rejected (whitelist "gemini" env) v
        then mkHandled gemini_unauthorized_response c' []
        else or_internal_error request (translate host request env v, c'))
  /\ (forall geminiModel geminiRequest,
      Headers.get (headers (build_geminiReq geminiModel v geminiRequest)) "x-goog-api-key"
      = Some v).
Proof.
  intros Hx Ha Hb Hv Hm Hc.
  destruct (raw_authorization_credential request v Hx Ha Hb) as [K G].
  assert (K' : present (clientApiKey_of request) = Some v)
    by (apply present_Some; now split).
  assert (G' : present (geminiApiKey_of request) = Some v)
    by (apply present_Some; now split).
  split; [exact K'|]. split; [exact G'|]. split; [|split].
  - intros p Hp Hin. split; intros Hr.
    + assert (Hm' : String.eqb (method request) "OPTIONS" = false)
        by now apply String.eqb_neq.
      destruct (supported_config_shape p Hin) as [cfg [base [Hcfg _]]].
      destruct (fetch_dispatch host request env c p v _ Hm'
                  (supported_not_translation request p Hp Hin) K' Hp Hcfg Hc)
        as [c' Hf].
      rewrite (keysOf_whitelist p env Hin), Hr in Hf. now exists c'.
    + destruct (fetch_forwarded host request env c p v Hm Hp Hin K' Hc Hr)
        as [cfg [base [c' [Hcfg [Hbase Hf]]]]].
      eexists cfg, _, c'. split; [exact Hcfg|]. split; [exact Hf|].
      rewrite headers_build_targetRequest.
      now apply build_headers_credential.
  - intros Ht. now apply fetch_translation.
  - intros geminiModel geminiRequest. apply headers_build_geminiReq.
Qed.

Lemma C9_witness :
  present (clientApiKey_of raw_authorization_request) = Some "client-key-1"
  /\ present (geminiApiKey_of raw_authorization_request) = Some "client-key-1".
Proof.
  assert (Hm : method raw_authorization_request <> "OPTIONS") by discriminate.
  assert (Hv : "client-key-1" <> "") by discriminate.
  destruct (C9_raw_authorization mock_host raw_authorization_request mockEnv
              EMPTY_CACHES "client-key-1" eq_refl eq_refl eq_refl Hv Hm
              (caches_ok_empty mockEnv)) as [K [G _]].
  now split.
Defined.

(** C9 as stated fails for an empty Authorization value: it does not start
    with the Bearer prefix, yet it is not taken as the credential and
    compared with the whitelist; the request is answered 401 as one without
    a credential. *)
Lemma C9_counterexample :
  Headers.get (headers empty_authorization_request) "X-API-Key" = None
  /\ Headers.get (headers empty_authorization_request) "Authorization" = Some ""
  /\ matches_BEARER_PREFIX "" = false
  /\ present (clientApiKey_of empty_authorization_request) = None
  /\ fetch mock_host empty_authorization_request mockEnv EMPTY_CACHES
     = mkHandled missing_key_response EMPTY_CACHES [].
Proof. repeat split. Qed.

End RawAuthorization.

(** ** Request translation (C4) *)

Section RequestTranslation.

Lemma translate_message_shaped host (msg : Json) :
  is_object msg = true -> message_content msg <> None ->
  translate_message host msg = Ok (gemini_content msg).
Proof.
  destruct msg as [| | | |?|fields]; try discriminate. intros _.
  unfold translate_message, gemini_content, message_content, field. simpl.
  destruct (Js.lookup fields "content") as [[| | |s| |]|]; try congruence.
  intros _. reflexivity.
Qed.

Lemma map_messages_shaped host (msgs : list Json) :
  forallb (fun msg => is_object msg
                      && match message_content msg with
                         | Some _ => true
                         | None => false
                         end) msgs = true ->
  mapM (translate_message host) msgs = Ok (map gemini_content msgs).
Proof.
  induction msgs as [|msg msgs IH]; simpl; [reflexivity|].
  intros H. apply andb_true_iff in H. destruct H as [H1 H2].
  apply andb_true_iff in H1. destruct H1 as [Ho Hc].
  rewrite translate_message_shaped; [|exact Ho|now destruct (message_content msg)].
  simpl. now rewrite (IH H2).
Qed.

Lemma build_geminiRequest_shaped host (body : Json) :
  claude_shaped body = true ->
  build_geminiRequest host body
  = Ok (mapped_model (model_of body), gemini_request_of body).
Proof.
  unfold claude_shaped. intros H.
  apply andb_true_iff in H. destruct H as [H Hmsgs].
  apply andb_true_iff in H. destruct H as [Hobj Hmodel].
  destruct body as [| | | |?|fields]; try discriminate.
  unfold build_geminiRequest, gemini_request_of, generationConfig_of, model_of,
    messages_of, field in *. simpl.
  destruct (Js.lookup fields "messages") as [[| | | |msgs|]|]; try discriminate.
  assert (M : mapClaudeModelToGemini_any host (Js.lookup fields "model")
              = Ok (mapped_model match Js.lookup fields "model" with
                                 | Some (JStr s) => Some s
                                 | _ => None
                                 end)).
  { destruct (Js.lookup fields "model") as [[| | |s| |]|]; try discriminate;
      cbn [mapClaudeModelToGemini_any Js.truthy];
      now rewrite mapping_is_mapped_model. }
  rewrite M. simpl. rewrite (map_messages_shaped host msgs Hmsgs). simpl.
  destruct (Js.lookup fields "max_tokens") as [mt|]; [|reflexivity].
  destruct mt as [|[]|n|s| |]; simpl; try reflexivity.
  - destruct (n =? 0)%Z; reflexivity.
  - destruct s; reflexivity.
Qed.

(** C4, as the code has it. For every Claude-shaped body the Gemini request
    carries the mapped model, one content per message, in order, whose role
    is user for role user and model for any other role and whose single part
    is the message's string content, and a generationConfig with
    maxOutputTokens equal to max_tokens exactly when max_tokens is present
    and truthy; when max_tokens is absent, zero, null, false or the empty
    string the generationConfig member is missing from the serialised
    request. This request is the body of what the translator hands to the
    transport. *)
Theorem C4_request_translation host request env key (parsed : Json) :
  json host (body request) = Ok parsed ->
  claude_shaped parsed = true ->
  let geminiModel := mapped_model (model_of parsed) in
  let geminiReq := build_geminiReq geminiModel key (gemini_request_of parsed) in
  build_geminiRequest host parsed = Ok (geminiModel, gemini_request_of parsed)
  /\ translate host request env key
     = and_then (fetchWithProxy host geminiReq env) (translate_response host geminiModel)
  /\ body geminiReq = Some (Stringified (gemini_request_of parsed))
  /\ field (gemini_request_of parsed) "contents"
     = Some (JArr (map gemini_content (messages_of parsed)))
  /\ field (gemini_request_of parsed) "generationConfig"
     = match field parsed "max_tokens" with
       | Some max_tokens =>
           if Js.truthy (Some max_tokens)
           then Some (JObj [ ("maxOutputTokens", max_tokens) ])
           else None
       | None => None
       end.
Proof.
  intros Hjson Hshape geminiModel geminiReq.
  pose proof (build_geminiRequest_shaped host parsed Hshape) as Hb.
  split; [exact Hb|]. split.
  { unfold translate. rewrite Hjson. simpl. now rewrite Hb. }
  split; [reflexivity|]. split; [reflexivity|].
  unfold gemini_request_of, generationConfig_of. cbn [field Js.lookup List.find app].
  destruct (field parsed "max_tokens") as [mt|]; [|reflexivity].
  now destruct (Js.truthy (Some mt)).
Qed.

Lemma C4_witness :
  build_geminiRequest mock_host messages_body
  = Ok ("gemini-2.5-pro",
        JObj [ ("model", JStr "gemini-2.5-pro");
               ("contents",
                JArr [ JObj [ ("role", JStr "user");
                              ("parts", JArr [ JObj [ ("text", JStr "Hello") ] ]) ] ]);
               ("generationConfig", JObj [ ("maxOutputTokens", JNum 100) ]) ]).
Proof.
  exact (proj1 (C4_request_translation mock_host translation_request mockEnv
                  "client-key-1" messages_body eq_refl eq_refl)).
Defined.

(** C4 as stated fails for a body whose max_tokens is present and is 0: the
    serialised request has no generationConfig. *)
Lemma C4_counterexample :
  claude_shaped zero_tokens_body = true
  /\ field zero_tokens_body "max_tokens" = Some (JNum 0)
  /\ exists geminiRequest,
       build_geminiRequest mock_host zero_tokens_body = Ok ("gemini-2.5-pro", geminiRequest)
       /\ field geminiRequest "generationConfig" = None.
Proof. repeat split. eexists. split; reflexivity. Qed.

End RequestTranslation.

(** ** Response translation (C5) *)

Section ResponseTranslation.

Lemma mapM_text host (ps : list Json) :
  forallb part_ok ps = true ->
  mapM (fun p => get_prop host p "text") ps = Ok (map (fun p => field p "text") ps).
Proof.
  induction ps as [|p ps IH]; simpl; [reflexivity|].
  intros H. apply andb_true_iff in H. destruct H as [Hp Hps].
  destruct p as [| | | |?|fields]; try discriminate. simpl.
  now rewrite (IH Hps).
Qed.

Lemma join_empty_text (ps : list Json) :
  forallb part_ok ps = true ->
  Js.join_empty (map (fun p => field p "text") ps) = String.concat "" (map part_text ps).
Proof.
  unfold Js.join_empty, join. intros H. f_equal. rewrite map_map.
  induction ps as [|p ps IH]; simpl; [reflexivity|].
  simpl in H. apply andb_true_iff in H. destruct H as [Hp Hps].
  rewrite (IH Hps). f_equal.
  destruct p as [| | | |?|fields]; try discriminate.
  unfold part_text, part_ok, field in *.
  destruct (Js.lookup fields "text") as [[| | |s| |]|]; try discriminate; reflexivity.
Qed.

Lemma candidate_text_parts host (content : Json) :
  is_object content = true ->
  optional (fun parts => match parts with
                         | JArr ps => forallb part_ok ps
                         | _ => false
                         end) (field content "parts") = true ->
  candidate_text host (Some content)
  = Ok (String.concat ""
          (map part_text match field content "parts" with
                         | Some (JArr ps) => ps
                         | _ => []
                         end)).
Proof.
  destruct content as [| | | |?|fields]; try discriminate. intros _.
  unfold candidate_text, field. simpl.
  destruct (Js.lookup fields "parts") as [[| | | |ps|]|]; try discriminate;
    try reflexivity.
  simpl. intros H. rewrite (mapM_text host ps H). simpl.
  now rewrite (join_empty_text ps H).
Qed.

(** The text the translator extracts from a Gemini-shaped reply. *)
Lemma response_text host (geminiData : Json) :
  gemini_shaped geminiData = true ->
  (let* candidates := get_prop host geminiData "candidates" in
   let* candidate := opt_prop host (opt_index0 candidates) "content" in
   candidate_text host candidate)
  = Ok (concatenated_text geminiData).
Proof.
  unfold gemini_shaped, concatenated_text, first_candidate_parts.
  destruct geminiData as [| | | |?|fields]; try discriminate. simpl.
  destruct (Js.lookup fields "candidates") as [[| | | |items|]|];
    try discriminate; try reflexivity.
  destruct items as [|candidate items]; [reflexivity|]. simpl.
  destruct candidate as [| | | |?|cfields]; try discriminate; try reflexivity.
  simpl.
  destruct (Js.lookup cfields "content") as [content|]; [|reflexivity].
  destruct content as [| | | |?|tfields]; try discriminate; try reflexivity.
  intros H. now apply (candidate_text_parts host (JObj tfields)).
Qed.

Lemma build_anthropicResponse_shaped host (geminiModel : string) (geminiData : Json) :
  gemini_shaped geminiData = true ->
  build_anthropicResponse host geminiModel geminiData
  = Ok (claude_reply host geminiModel geminiData).
Proof.
  intros H. pose proof (response_text host geminiData H) as T.
  unfold build_anthropicResponse, claude_reply.
  destruct geminiData as [| | | |?|fields]; try discriminate.
  simpl in T. simpl.
  destruct (opt_prop host (opt_index0 (Js.lookup fields "candidates")) "content")
    as [candidate|e]; [|discriminate].
  simpl in T. simpl. rewrite T. simpl.
  now destruct (Js.lookup fields "usage").
Qed.

Lemma get_In (s : string) (n : nat) (ch : ascii) :
  String.get n s = Some ch -> In ch (list_ascii_of_string s).
Proof.
  revert n. induction s as [|a s IH]; intros n; simpl; [discriminate|].
  destruct n as [|n]; [intros [= ->]; now left|].
  intros H. right. now apply (IH n).
Qed.

Lemma includes_char (s : string) (ch : ascii) :
  In ch (list_ascii_of_string s) -> includes s (String ch "") = true.
Proof.
  induction s as [|a s IH]; simpl; [contradiction|].
  intros [->|H].
  - destruct (ascii_dec ch ch); [now destruct s|contradiction].
  - rewrite (IH H). apply orb_true_r.
Qed.

Lemma base36_char_ok (d : fin 36) : is_base36 (base36_char d) = true.
Proof.
  unfold is_base36, base36_char.
  destruct (String.get (fin_to_nat d) BASE36) as [ch|] eqn:E.
  - apply includes_char. now apply (get_In BASE36 (fin_to_nat d)).
  - reflexivity.
Qed.

(** The suffix of a message id is made of base-36 digits. *)
Lemma random_suffix_base36 host :
  forallb is_base36 (list_ascii_of_string (random_suffix host)) = true.
Proof.
  unfold random_suffix. rewrite list_ascii_of_string_of_list_ascii.
  induction (Math_random_digits host) as [|d ds IH]; simpl; [reflexivity|].
  now rewrite base36_char_ok, IH.
Qed.

(** C5. When the request side of the translator succeeded, the upstream
    call did not throw and its body is a Gemini-shaped JSON value, the
    reply has status 200, whatever the upstream status, and its body is the
    Claude-shaped object: id msg_ followed by base-36 digits, type message,
    role assistant, one text content whose text is the concatenation of the
    text members of candidates[0].content.parts (the empty string when a
    step is missing), model the mapped model, and usage as upstream gave it,
    absent when upstream gave none. *)
Theorem C5_response_translation host request env c key
    (parsed : Json) (geminiModel : string) (geminiRequest : Json)
    (geminiResp : Upstream) (geminiData : Json) :
  method request <> "OPTIONS" ->
  startsWith (pathname (url request)) TRANSLATION_PREFIX = true ->
  present (geminiApiKey_of request) = Some key ->
  caches_ok env c ->
  rejected (whitelist "gemini" env) key = false ->
  json host (body request) = Ok parsed ->
  build_geminiRequest host parsed = Ok (geminiModel, geminiRequest) ->
  snd (fetchWithProxy host (build_geminiReq geminiModel key geminiRequest) env)
  = Ok geminiResp ->
  json host (up_body geminiResp) = Ok geminiData ->
  gemini_shaped geminiData = true ->
  let reply := response (fetch host request env c) in
  status reply = 200%Z
  /\ resp_body reply = Some (Stringified (claude_reply host geminiModel geminiData))
  /\ json_field reply "id" = Some (JStr ("msg_" ++ random_suffix host))
  /\ forallb is_base36 (list_ascii_of_string (random_suffix host)) = true
  /\ json_field reply "type" = Some (JStr "message")
  /\ json_field reply "role" = Some (JStr "assistant")
  /\ json_field reply "content"
     = Some (JArr [ JObj [ ("type", JStr "text");
                           ("text", JStr (concatenated_text geminiData)) ] ])
  /\ json_field reply "model" = Some (JStr geminiModel)
  /\ json_field reply "usage" = field geminiData "usage"
  /\ (exists model, get_prop host parsed "model" = Ok model
                    /\ mapClaudeModelToGemini_any host model = Ok geminiModel).
Proof.
  intros Hm Ht Hk Hc Hr Hjson Hbuild Hup Hdata Hshape reply.
  destruct (fetch_translation host request env c key Hm Ht Hk Hc) as [c' Hf].
  rewrite Hr in Hf.
  assert (R : reply = mkResponse 200 "" JSON_HEADERS
                        (Some (Stringified (claude_reply host geminiModel geminiData)))).
  { subst reply. rewrite Hf. unfold translate. rewrite Hjson. simpl. rewrite Hbuild.
    unfold and_then.
    destruct (fetchWithProxy host (build_geminiReq geminiModel key geminiRequest) env)
      as [tr up]. simpl in Hup. subst up. simpl.
    unfold translate_response. rewrite Hdata. simpl.
    now rewrite (build_anthropicResponse_shaped host geminiModel geminiData Hshape). }
  rewrite R. split; [reflexivity|]. split; [reflexivity|].
  split; [reflexivity|]. split; [apply random_suffix_base36|].
  split; [reflexivity|]. split; [reflexivity|]. split; [reflexivity|].
  split; [reflexivity|]. split.
  - unfold json_field, claude_reply. simpl.
    destruct (field geminiData "usage"); reflexivity.
  - unfold build_geminiRequest in Hbuild.
    destruct (get_prop host parsed "model") as [model|e]; [|discriminate].
    exists model. split; [reflexivity|]. simpl in Hbuild.
    destruct (mapClaudeModelToGemini_any host model) as [m|e]; [|discriminate].
    simpl in Hbuild.
    destruct (get_prop host parsed "messages") as [messages|e]; [|discriminate].
    simpl in Hbuild.
    destruct (map_messages host messages) as [contents|e]; [|discriminate].
    simpl in Hbuild.
    destruct (get_prop host parsed "max_tokens") as [mt|e]; [|discriminate].
    simpl in Hbuild. now injection Hbuild as -> _.
Qed.

End ResponseTranslation.

Section TranslatorReplies.

Lemma C5_witness :
  let reply := response (fetch failing_host translation_request mockEnv EMPTY_CACHES) in
  up_status failing_upstream = 500%Z
  /\ status reply = 200%Z
  /\ json_field reply "content"
     = Some (JArr [ JObj [ ("type", JStr "text"); ("text", JStr "") ] ])
  /\ json_field reply "model" = Some (JStr "gemini-2.5-pro")
  /\ json_field reply "usage" = None.
Proof.
  assert (Hm : method translation_request <> "OPTIONS") by discriminate.
  destruct (C5_response_translation failing_host translation_request mockEnv
              EMPTY_CACHES "client-key-1" messages_body "gemini-2.5-pro"
              (gemini_request_of messages_body) failing_upstream gemini_error_reply
              Hm eq_refl eq_refl (caches_ok_empty mockEnv) eq_refl eq_refl eq_refl
              eq_refl eq_refl eq_refl)
    as [S [_ [_ [_ [_ [_ [C [M [U _]]]]]]]]].
  split; [reflexivity|]. split; [exact S|]. split; [exact C|]. split; [exact M|exact U].
Defined.

(** C10. A POST to the translation endpoint that passes credential
    extraction and the whitelist check and whose body does not parse as JSON
    ([request.json()] rejects with the parser's error) is answered by the catch-all of the entry point: status 500, error
    "Internal server error", message the parse error's message; it is not a
    400, and nothing is sent upstream. *)
Theorem C10_body_parse_failure host request env c key (e : ErrorInfo) :
  method request = "POST" ->
  startsWith (pathname (url request)) TRANSLATION_PREFIX = true ->
  present (geminiApiKey_of request) = Some key ->
  caches_ok env c ->
  rejected (whitelist "gemini" env) key = false ->
  json host (body request) = Throw (ErrorObject e) ->
  let handled := fetch host request env c in
  response handled = internal_error_response request (ErrorObject e)
  /\ status (response handled) = 500%Z
  /\ status (response handled) <> 400%Z
  /\ json_field (response handled) "error" = Some (JStr "Internal server error")
  /\ json_field (response handled) "message" = Some (JStr (message e))
  /\ sent handled = [].
Proof.
  intros Hm Ht Hk Hc Hr Hj handled.
  assert (Hm' : method request <> "OPTIONS") by (rewrite Hm; discriminate).
  destruct (fetch_translation host request env c key Hm' Ht Hk Hc) as [c' Hf].
  rewrite Hr in Hf.
  assert (T : translate host request env key = ([], Throw (ErrorObject e))).
  { unfold translate. now rewrite Hj. }
  rewrite T in Hf. subst handled. rewrite Hf. simpl.
  repeat split; discriminate.
Qed.

Lemma C10_witness :
  status (response (fetch mock_host broken_body_request mockEnv EMPTY_CACHES)) = 500%Z
  /\ json_field (response (fetch mock_host broken_body_request mockEnv EMPTY_CACHES))
       "message" = Some (JStr "Unexpected token in JSON").
Proof.
  destruct (C10_body_parse_failure mock_host broken_body_request mockEnv EMPTY_CACHES
              "client-key-1" (mkError "Unexpected token in JSON" None)
              eq_refl eq_refl eq_refl (caches_ok_empty mockEnv) eq_refl eq_refl)
    as [_ [S [_ [_ [M _]]]]].
  split; [exact S|exact M].
Defined.

End TranslatorReplies.

(** ** Why the statements ask for coherent caches *)

Section CacheKeys.

(** The cache key joins the provider and the five configuration strings
    with colons, so two environments can share a key.  A process that served
    a request under the first environment answers under the second from the
    first one's entry.  With one environment per process, which is what
    [caches_ok] expresses, this does not arise. *)
Example cache_key_collision :
  cacheKey "anthropic" colon_env_1 = cacheKey "anthropic" colon_env_2
  /\ whitelist "anthropic" colon_env_2 = [ "a" ]
  /\ status (response (fetch mock_host key_a_request colon_env_2 EMPTY_CACHES)) = 200%Z
  /\ status (response
               (fetch mock_host key_a_request colon_env_2
                  (caches (fetch mock_host key_a_request colon_env_1 EMPTY_CACHES))))
     = 403%Z.
Proof. repeat split; vm_compute; reflexivity. Qed.

End CacheKeys.

(** * Further properties of the worker *)

(** ** Path parsing and provider resolution *)

Section PathAndProvider.

Lemma configs_none (p : string) :
  ~ In p SUPPORTED_PROVIDERS -> ~ In p OBJECT_PROTOTYPE_NAMES -> configs p = None.
Proof.
  intros Hs Hi. unfold configs.
  repeat (match goal with
          | |- context [String.eqb p ?n] =>
              let E := fresh "E" in
              destruct (String.eqb p n) eqn:E;
              [apply String.eqb_eq in E; subst p; exfalso; apply Hs; simpl; auto 10|]
          end).
  destruct (array_includes OBJECT_PROTOTYPE_NAMES p) eqn:Hp; [|reflexivity].
  apply array_includes_In in Hp. contradiction.
Qed.

Lemma configs_inherited (p : string) (env : Env) :
  In p OBJECT_PROTOTYPE_NAMES ->
  configs p = Some Inherited /\ keysOf p env = [] /\ p <> "claude-gemini".
Proof.
  simpl. intros H.
  repeat (destruct H as [<-|H]; [repeat split; discriminate|]). contradiction.
Qed.

(** X1.  A request with a credential whose path has fewer than two non-empty
    segments is answered 400 "Invalid API endpoint", also when its only
    segment names a supported provider; no provider is resolved, nothing is
    cached and nothing is sent. *)
Theorem invalid_endpoint_reply host request env c key :
  method request <> "OPTIONS" ->
  startsWith (pathname (url request)) TRANSLATION_PREFIX = false ->
  present (clientApiKey_of request) = Some key ->
  provider_of request = None ->
  fetch host request env c = mkHandled invalid_endpoint_response c []
  /\ status invalid_endpoint_response = 400%Z
  /\ json_field invalid_endpoint_response "error" = Some (JStr "Invalid API endpoint").
Proof.
  intros Hm Ht Hk Hp. apply String.eqb_neq in Hm.
  unfold fetch, fetch_try. rewrite Hm, Ht, Hk.
  unfold provider_of in Hp.
  destruct (length (urlPathParts_of (url request)) <? 2)%nat; [|discriminate].
  repeat split.
Qed.

Lemma invalid_endpoint_witness :
  fetch mock_host bare_provider_request mockEnv EMPTY_CACHES
  = mkHandled invalid_endpoint_response EMPTY_CACHES [].
Proof.
  assert (Hm : method bare_provider_request <> "OPTIONS") by discriminate.
  exact (proj1 (invalid_endpoint_reply mock_host bare_provider_request mockEnv
                  EMPTY_CACHES "client-key-1" Hm eq_refl eq_refl eq_refl)).
Defined.

(** X2.  A request with a credential whose first segment is neither a supported
    provider nor a name defined on [Object.prototype] is answered 400
    "Unsupported API provider" with a message that names the segment;
    the caches stay as they were and nothing is sent. *)
Theorem unsupported_provider_reply host request env c key p :
  method request <> "OPTIONS" ->
  startsWith (pathname (url request)) TRANSLATION_PREFIX = false ->
  present (clientApiKey_of request) = Some key ->
  provider_of request = Some p ->
  ~ In p SUPPORTED_PROVIDERS ->
  ~ In p OBJECT_PROTOTYPE_NAMES ->
  caches_ok env c ->
  fetch host request env c = mkHandled (unsupported_provider_response p) c []
  /\ status (unsupported_provider_response p) = 400%Z
  /\ json_field (unsupported_provider_response p) "error"
     = Some (JStr "Unsupported API provider")
  /\ json_field (unsupported_provider_response p) "message"
     = Some (JStr ("API provider '" ++ p
          ++ "' is not supported. Supported providers: anthropic, openai, gemini, groq, vertexai, openrouter")).
Proof.
  intros Hm Ht Hk Hp Hs Hi Hc. apply String.eqb_neq in Hm.
  pose proof (configs_none p Hs Hi) as Hnone.
  unfold fetch, fetch_try. rewrite Hm, Ht, Hk.
  unfold provider_of in Hp.
  destruct (length (urlPathParts_of (url request)) <? 2)%nat; [discriminate|].
  injection Hp as Hp. rewrite Hp.
  unfold getApiConfig.
  destruct (API_CONFIG_CACHE c !! p) as [v|] eqn:Hv.
  - destruct Hc as [Hc _]. apply Hc in Hv. congruence.
  - rewrite Hnone. repeat split.
Qed.

Lemma unsupported_provider_witness :
  fetch mock_host unknown_provider_request mockEnv EMPTY_CACHES
  = mkHandled (unsupported_provider_response "unsupported") EMPTY_CACHES [].
Proof.
  assert (Hm : method unknown_provider_request <> "OPTIONS") by discriminate.
  assert (Hs : ~ In "unsupported" SUPPORTED_PROVIDERS)
    by (simpl; intuition discriminate).
  assert (Hi : ~ In "unsupported" OBJECT_PROTOTYPE_NAMES)
    by (simpl; intuition discriminate).
  exact (proj1 (unsupported_provider_reply mock_host unknown_provider_request mockEnv
                  EMPTY_CACHES "client-key-1" "unsupported" Hm eq_refl eq_refl eq_refl
                  Hs Hi (caches_ok_empty mockEnv))).
Defined.

(** X3.  A first segment that is a name defined on [Object.prototype]
    (constructor, toString, __proto__, ...) passes provider resolution,
    because the lookup in the table finds the inherited member, and passes
    the whitelist gate, because no whitelist belongs to it; the request then
    fails on the missing base URL and is answered 500 "Internal server
    error", not 400, with nothing sent. *)
Theorem inherited_name_reply host request env c key p :
  method request <> "OPTIONS" ->
  present (clientApiKey_of request) = Some key ->
  provider_of request = Some p ->
  In p OBJECT_PROTOTYPE_NAMES ->
  caches_ok env c ->
  let handled := fetch host request env c in
  response handled
  = internal_error_response request (ErrorObject (engine_error host InvalidURL))
  /\ status (response handled) = 500%Z
  /\ json_field (response handled) "error" = Some (JStr "Internal server error")
  /\ sent handled = [].
Proof.
  intros Hm Hk Hp Hi Hc handled.
  destruct (configs_inherited p env Hi) as [Hcfg [Hkeys Hne]].
  assert (Ht : startsWith (pathname (url request)) TRANSLATION_PREFIX = false).
  { destruct (startsWith _ _) eqn:H; [|reflexivity].
    now rewrite (translation_path_provider request p H Hp) in Hne. }
  apply String.eqb_neq in Hm.
  destruct (fetch_dispatch host request env c p key _ Hm Ht Hk Hp Hcfg Hc) as [c' Hf].
  rewrite Hkeys in Hf. subst handled. rewrite Hf. repeat split.
Qed.

Lemma inherited_name_witness :
  status (response (fetch mock_host constructor_request mockEnv EMPTY_CACHES)) = 500%Z
  /\ sent (fetch mock_host constructor_request mockEnv EMPTY_CACHES) = [].
Proof.
  assert (Hm : method constructor_request <> "OPTIONS") by discriminate.
  assert (Hi : In "constructor" OBJECT_PROTOTYPE_NAMES) by (simpl; auto).
  destruct (inherited_name_reply mock_host constructor_request mockEnv EMPTY_CACHES
              "client-key-1" "constructor" Hm eq_refl eq_refl Hi
              (caches_ok_empty mockEnv)) as [_ [S [_ N]]].
  now split.
Defined.

End PathAndProvider.

(** ** What reaches the provider *)

Section ForwardedRequest.

Lemma authenticated_forwarded host request env c p key :
  authenticated request env p key -> caches_ok env c ->
  exists cfg base,
    configs p = Some (OwnConfig cfg)
    /\ Url.parse_origin (baseUrl cfg) = Some base
    /\ handed_to_transport host request env c cfg
         (build_targetRequest request cfg
            (build_targetUrl (url request) base p (urlPathParts_of (url request)))
            (build_headers request p cfg key)).
Proof.
  intros [[Hm [Hp Hin]] [Hk Hr]] Hc.
  destruct (fetch_forwarded host request env c p key Hm Hp Hin Hk Hc Hr)
    as [cfg [base [c' [Hcfg [Hbase Hf]]]]].
  exists cfg, base. split; [exact Hcfg|]. split; [exact Hbase|]. now exists c'.
Qed.

Lemma handed_sent host request env c cfg targetRequest :
  handed_to_transport host request env c cfg targetRequest ->
  PROXY_URL env = None ->
  sent (fetch host request env c) = [targetRequest].
Proof.
  intros [c' Hf] Hproxy. rewrite Hf, sent_or_internal_error.
  unfold and_then. cbn [fst]. now rewrite fetchWithProxy_direct.
Qed.

(** X4.  A credential that is on the provider's whitelist is accepted: the
    request reaches the forwarding stage, and without an outbound proxy the
    outbound request is the one request sent. *)
Theorem whitelisted_key_forwarded host request env c p key :
  addressed request p ->
  present (clientApiKey_of request) = Some key ->
  In key (whitelist p env) ->
  caches_ok env c ->
  exists cfg targetRequest,
    configs p = Some (OwnConfig cfg)
    /\ handed_to_transport host request env c cfg targetRequest
    /\ (PROXY_URL env = None -> sent (fetch host request env c) = [targetRequest]).
Proof.
  intros Ha Hk Hin Hc.
  assert (Hr : rejected (whitelist p env) key = false).
  { destruct (rejected (whitelist p env) key) eqn:R; [|reflexivity].
    apply rejected_iff in R. now destruct R. }
  destruct (authenticated_forwarded host request env c p key (conj Ha (conj Hk Hr)) Hc)
    as [cfg [base [Hcfg [_ Hh]]]].
  eexists cfg, _. split; [exact Hcfg|]. split; [exact Hh|].
  intros Hproxy. now apply (handed_sent host request env c cfg).
Qed.

Lemma whitelisted_key_witness :
  exists targetRequest,
    sent (fetch mock_host whitelisted_request mockEnv EMPTY_CACHES) = [targetRequest].
Proof.
  assert (Ha : addressed whitelisted_request "anthropic").
  { split; [discriminate|]. split; [reflexivity|]. simpl; auto. }
  assert (Hin : In "client-key-1" (whitelist "anthropic" mockEnv)) by (vm_compute; auto).
  destruct (whitelisted_key_forwarded mock_host whitelisted_request mockEnv EMPTY_CACHES
              "anthropic" "client-key-1" Ha eq_refl Hin (caches_ok_empty mockEnv))
    as [cfg [t [_ [_ Hs]]]].
  exists t. now apply Hs.
Defined.

Lemma relevant_named (m n : string) :
  In m RELEVANT_HEADERS -> Headers.same_name m n = true ->
  existsb (fun m => Headers.same_name m n) RELEVANT_HEADERS = true.
Proof. intros Hin H. apply existsb_exists. now exists m. Qed.

(** Every header of the set the dispatcher builds is the credential header
    or one of the pass-through list. *)
Lemma build_headers_allowed request (p : string) (cfg : ApiConfig) (key n : string) :
  Headers.get (build_headers request p cfg key) n <> None ->
  allowed_header cfg n = true.
Proof.
  unfold build_headers, maskClientInfo, allowed_header.
  rewrite get_fold_delete. destruct (existsb _ _); [congruence|].
  unfold set_default_user_agent.
  assert (V : forall h, Headers.get (set_default_version p cfg h) n <> None ->
                        Headers.get h n <> None
                        \/ existsb (fun m => Headers.same_name m n) RELEVANT_HEADERS = true).
  { intros h. unfold set_default_version.
    destruct (present (defaultVersion cfg)); [|now left].
    destruct (_ && _); [|now left].
    destruct (String.eqb p "anthropic").
    - rewrite get_set. destruct (Headers.same_name "anthropic-version" n) eqn:E;
        [intros _; right; apply (relevant_named "anthropic-version"); simpl; auto|now left].
    - destruct (String.eqb p "openai"); [|now left].
      rewrite get_set. destruct (Headers.same_name "openai-version" n) eqn:E;
        [intros _; right; apply (relevant_named "openai-version"); simpl; auto|now left]. }
  assert (C : Headers.get (copy_relevant_headers request (set_api_key_header cfg key [])) n
              <> None ->
              Headers.same_name (apiKeyHeader cfg) n
              || existsb (fun m => Headers.same_name m n) RELEVANT_HEADERS = true).
  { unfold copy_relevant_headers. rewrite get_copy_fold.
    destruct (existsb _ RELEVANT_HEADERS); [intros _; apply orb_true_r|].
    rewrite get_set_api_key_header.
    destruct (Headers.same_name (apiKeyHeader cfg) n); [reflexivity|congruence]. }
  destruct (negb _).
  - rewrite get_set. destruct (Headers.same_name "user-agent" n) eqn:E.
    + intros _. rewrite (relevant_named "user-agent" n); [apply orb_true_r| |exact E].
      simpl; auto 10.
    + intros H. destruct (V _ H) as [H'|H']; [now apply C|rewrite H'; apply orb_true_r].
  - intros H. destruct (V _ H) as [H'|H']; [now apply C|rewrite H'; apply orb_true_r].
Qed.

(** X5.  The outbound request carries no header but the provider's credential
    header and the pass-through list (content-type, the version, beta and
    organization headers, user-agent, x-goog-user-project): whatever else
    the caller sent, cookies and addresses included, does not reach the
    provider. *)
Theorem forwarded_headers_allow_list host request env c p key :
  authenticated request env p key ->
  caches_ok env c ->
  exists cfg targetRequest,
    configs p = Some (OwnConfig cfg)
    /\ handed_to_transport host request env c cfg targetRequest
    /\ forall name, Headers.get (headers targetRequest) name <> None ->
                    allowed_header cfg name = true.
Proof.
  intros Ha Hc.
  destruct (authenticated_forwarded host request env c p key Ha Hc)
    as [cfg [base [Hcfg [_ Hh]]]].
  eexists cfg, _. split; [exact Hcfg|]. split; [exact Hh|].
  intros name. rewrite headers_build_targetRequest. apply build_headers_allowed.
Qed.

Lemma leaky_request_authenticated :
  authenticated leaky_request mockEnv "anthropic" "client-key-1".
Proof.
  split; [split; [discriminate|split; [reflexivity|simpl; auto]]|].
  split; reflexivity.
Defined.

Lemma forwarded_headers_witness :
  exists targetRequest,
    sent (fetch mock_host leaky_request mockEnv EMPTY_CACHES) = [targetRequest]
    /\ Headers.get (headers targetRequest) "cookie" = None.
Proof.
  destruct (forwarded_headers_allow_list mock_host leaky_request mockEnv EMPTY_CACHES
              "anthropic" "client-key-1" leaky_request_authenticated
              (caches_ok_empty mockEnv))
    as [cfg [t [Hcfg [Hh Hall]]]].
  exists t. split; [now apply (handed_sent mock_host leaky_request mockEnv EMPTY_CACHES cfg)|].
  destruct (Headers.get (headers t) "cookie") eqn:G; [|reflexivity].
  assert (A : allowed_header cfg "cookie" = true) by (apply Hall; congruence).
  injection Hcfg as <-. discriminate A.
Defined.

(** X6.  [maskClientInfo] removes exactly the headers of its list, under any
    spelling of their names, and leaves every other header as it was; the
    default list is used only when no list is given, an empty list removes
    nothing. *)
Theorem maskClientInfo_removes_exactly (h : Headers.t) (maskHeaders : option (list string))
    (name : string) :
  Headers.get (maskClientInfo h maskHeaders) name =
  if existsb (fun m => Headers.same_name m name) (headersToMask_of maskHeaders)
  then None
  else Headers.get h name.
Proof. unfold maskClientInfo, headersToMask_of. apply get_fold_delete. Qed.

(** X7.  None of the address, location and TLS headers of the default mask list
    is ever on an outbound request, whether or not the caller sent it and
    whichever list the provider's entry names. *)
Theorem masked_headers_never_forwarded host request env c p key :
  authenticated request env p key ->
  caches_ok env c ->
  exists cfg targetRequest,
    configs p = Some (OwnConfig cfg)
    /\ handed_to_transport host request env c cfg targetRequest
    /\ forall masked name,
         In masked DEFAULT_MASK_HEADERS -> Headers.same_name masked name = true ->
         Headers.get (headers targetRequest) name = None.
Proof.
  intros Ha Hc.
  destruct (authenticated_forwarded host request env c p key Ha Hc)
    as [cfg [base [Hcfg [_ Hh]]]].
  destruct Ha as [[_ [_ Hin]] _].
  destruct (supported_credential_header p cfg Hin Hcfg) as [_ [Hkey _]].
  eexists cfg, _. split; [exact Hcfg|]. split; [exact Hh|].
  intros masked name Hm Hs. rewrite headers_build_targetRequest.
  rewrite <- (get_same _ masked name Hs).
  destruct (Headers.get (build_headers request p cfg key) masked) eqn:G; [|reflexivity].
  assert (A : allowed_header cfg masked = true)
    by (apply (build_headers_allowed request p cfg key); congruence).
  exfalso. unfold allowed_header in A. simpl in Hkey.
  destruct Hkey as [E|[E|[E|[]]]]; rewrite <- E in A; clear - A Hm;
    simpl in Hm;
    repeat (destruct Hm as [<-|Hm]; [discriminate A|]); contradiction.
Qed.

Lemma masked_headers_witness :
  exists targetRequest,
    sent (fetch mock_host leaky_request mockEnv EMPTY_CACHES) = [targetRequest]
    /\ Headers.get (headers targetRequest) "CF-Ray" = None
    /\ Headers.get (headers targetRequest) "X-Forwarded-For" = None.
Proof.
  destruct (masked_headers_never_forwarded mock_host leaky_request mockEnv EMPTY_CACHES
              "anthropic" "client-key-1" leaky_request_authenticated
              (caches_ok_empty mockEnv))
    as [cfg [t [Hcfg [Hh Hall]]]].
  exists t. split; [now apply (handed_sent mock_host leaky_request mockEnv EMPTY_CACHES cfg)|].
  split.
  - apply (Hall "cf-ray"); [simpl; auto 10|reflexivity].
  - apply (Hall "x-forwarded-for"); [simpl; auto|reflexivity].
Defined.

End ForwardedRequest.

Section ForwardedDetails.

Lemma substring_all (s : string) : String.substring 0 (String.length s) s = s.
Proof. induction s as [|c s IH]; simpl; [reflexivity|now rewrite IH]. Qed.

(** Stripping the Bearer prefix gives back the token that follows it. *)
Lemma replace_bearer_token (token : string) :
  token <> "" -> trimStart token = token ->
  replace_BEARER_PREFIX ("Bearer " ++ token) = token.
Proof.
  intros Hne Htrim. unfold replace_BEARER_PREFIX.
  change (startsWith ("Bearer " ++ token) "Bearer") with true. cbv iota.
  change (String.substring 6 (String.length ("Bearer " ++ token) - 6) ("Bearer " ++ token))
    with (String " " (String.substring 0 (String.length token) token)).
  rewrite substring_all. change (is_space " ") with true. cbv iota.
  exact Htrim.
Qed.

(** X8.  The user-agent of the outbound request is the caller's when the caller
    sent a non-empty one, and Claude-Proxy/1.0 otherwise. *)
Theorem user_agent_forwarded host request env c p key :
  authenticated request env p key ->
  caches_ok env c ->
  exists cfg targetRequest,
    configs p = Some (OwnConfig cfg)
    /\ handed_to_transport host request env c cfg targetRequest
    /\ Headers.get (headers targetRequest) "user-agent"
       = Some match supplied request "user-agent" with
              | Some agent => agent
              | None => "Claude-Proxy/1.0"
              end.
Proof.
  intros Ha Hc.
  destruct (authenticated_forwarded host request env c p key Ha Hc)
    as [cfg [base [Hcfg [_ Hh]]]].
  destruct Ha as [[_ [_ Hin]] _].
  destruct (supported_credential_header p cfg Hin Hcfg) as [Hmask [Hkey _]].
  eexists cfg, _. split; [exact Hcfg|]. split; [exact Hh|].
  rewrite headers_build_targetRequest. unfold build_headers. rewrite Hmask.
  rewrite get_maskClientInfo by reflexivity.
  set (h := set_default_version p cfg _).
  assert (G : Headers.get h "user-agent" = supplied request "user-agent").
  { subst h. rewrite get_set_default_version by reflexivity.
    rewrite get_copy_relevant_headers by reflexivity.
    destruct (supplied request "user-agent"); [reflexivity|].
    rewrite get_set_api_key_header. simpl in Hkey.
    destruct Hkey as [<-|[<-|[<-|[]]]]; reflexivity. }
  unfold set_default_user_agent.
  destruct (supplied request "user-agent") as [agent|].
  - assert (H : Headers.has h "user-agent" = true) by (apply has_get; congruence).
    now rewrite H.
  - assert (H : Headers.has h "user-agent" = false) by now apply has_false_get.
    rewrite H. simpl. now rewrite get_set_same.
Qed.

Lemma user_agent_witness :
  exists targetRequest,
    sent (fetch mock_host leaky_request mockEnv EMPTY_CACHES) = [targetRequest]
    /\ Headers.get (headers targetRequest) "user-agent" = Some "curl/8.0".
Proof.
  destruct (user_agent_forwarded mock_host leaky_request mockEnv EMPTY_CACHES
              "anthropic" "client-key-1" leaky_request_authenticated
              (caches_ok_empty mockEnv))
    as [cfg [t [_ [Hh G]]]].
  exists t. split; [|exact G].
  now apply (handed_sent mock_host leaky_request mockEnv EMPTY_CACHES cfg).
Defined.

(** X10.  A bearer token makes the round trip: with no X-API-Key header and an
    Authorization header made of Bearer, one space and a token, the token is
    the credential, and a provider whose credential header is Authorization
    receives the Authorization value the caller sent. *)
Theorem bearer_round_trip host request env c p (token : string) :
  addressed request p ->
  Headers.get (headers request) "X-API-Key" = None ->
  Headers.get (headers request) "Authorization" = Some ("Bearer " ++ token) ->
  token <> "" -> trimStart token = token ->
  rejected (whitelist p env) token = false ->
  caches_ok env c ->
  present (clientApiKey_of request) = Some token
  /\ exists cfg targetRequest,
       configs p = Some (OwnConfig cfg)
       /\ handed_to_transport host request env c cfg targetRequest
       /\ Headers.get (headers targetRequest) (apiKeyHeader cfg)
          = Some (credential_value cfg token)
       /\ (apiKeyHeader cfg = "Authorization" ->
           Headers.get (headers targetRequest) "Authorization"
           = Headers.get (headers request) "Authorization").
Proof.
  intros Ha Hx Hauth Hne Htrim Hr Hc.
  assert (K : present (clientApiKey_of request) = Some token).
  { apply present_Some. split; [|exact Hne].
    unfold clientApiKey_of. rewrite get_x_api_key, Hx, Hauth. simpl.
    now rewrite replace_bearer_token. }
  split; [exact K|].
  destruct (authenticated_forwarded host request env c p token (conj Ha (conj K Hr)) Hc)
    as [cfg [base [Hcfg [_ Hh]]]].
  destruct Ha as [_ [_ Hin]].
  pose proof (build_headers_credential request p cfg token Hin Hcfg) as G.
  eexists cfg, _. split; [exact Hcfg|]. split; [exact Hh|].
  rewrite headers_build_targetRequest. split; [exact G|].
  intros E. rewrite E in G. rewrite G, Hauth. unfold credential_value. now rewrite E.
Qed.

Lemma bearer_round_trip_witness :
  exists targetRequest,
    sent (fetch mock_host bearer_request mockEnv EMPTY_CACHES) = [targetRequest]
    /\ Headers.get (headers targetRequest) "Authorization" = Some "Bearer client-key-1".
Proof.
  assert (Ha : addressed bearer_request "openai").
  { split; [discriminate|]. split; [reflexivity|simpl; auto]. }
  assert (Hne : "client-key-1" <> "") by discriminate.
  destruct (bearer_round_trip mock_host bearer_request mockEnv EMPTY_CACHES "openai"
              "client-key-1" Ha eq_refl eq_refl Hne eq_refl eq_refl
              (caches_ok_empty mockEnv))
    as [_ [cfg [t [Hcfg [Hh [_ G]]]]]].
  exists t. split; [now apply (handed_sent mock_host bearer_request mockEnv EMPTY_CACHES cfg)|].
  injection Hcfg as <-. now rewrite (G eq_refl).
Defined.

Lemma method_body_build_targetRequest request cfg targetUrl built :
  method (build_targetRequest request cfg targetUrl built) = method request
  /\ body (build_targetRequest request cfg targetUrl built)
     = if bodiless (method request) then None else body request.
Proof.
  unfold build_targetRequest, bodiless.
  destruct (String.eqb (method request) "GET");
    destruct (String.eqb (method request) "HEAD");
    destruct (body request); destruct (transformRequest cfg); now split.
Qed.

(** X11.  The outbound request has the method of the inbound one and, unless the
    method is GET or HEAD, its body; a GET or HEAD request is forwarded
    without a body. *)
Theorem method_and_body_forwarded host request env c p key :
  authenticated request env p key ->
  caches_ok env c ->
  exists cfg targetRequest,
    configs p = Some (OwnConfig cfg)
    /\ handed_to_transport host request env c cfg targetRequest
    /\ method targetRequest = method request
    /\ body targetRequest = if bodiless (method request) then None else body request.
Proof.
  intros Ha Hc.
  destruct (authenticated_forwarded host request env c p key Ha Hc)
    as [cfg [base [Hcfg [_ Hh]]]].
  eexists cfg, _. split; [exact Hcfg|]. split; [exact Hh|].
  apply method_body_build_targetRequest.
Qed.

Lemma method_and_body_witness :
  exists targetRequest,
    sent (fetch mock_host get_models_request mockEnv EMPTY_CACHES) = [targetRequest]
    /\ method targetRequest = "GET" /\ body targetRequest = None.
Proof.
  assert (Ha : authenticated get_models_request mockEnv "openai" "client-key-1").
  { split; [split; [discriminate|split; [reflexivity|simpl; auto]]|].
    split; reflexivity. }
  destruct (method_and_body_forwarded mock_host get_models_request mockEnv EMPTY_CACHES
              "openai" "client-key-1" Ha (caches_ok_empty mockEnv))
    as [cfg [t [_ [Hh [M B]]]]].
  exists t. split; [|now split].
  now apply (handed_sent mock_host get_models_request mockEnv EMPTY_CACHES cfg).
Defined.

Lemma port_hash_build_targetUrl (requestUrl base : URL) (p : string) (segments : list string) :
  is_http requestUrl = true -> protocol base = "https:" ->
  port (build_targetUrl requestUrl base p segments) = port_after_https (port requestUrl)
  /\ hash (build_targetUrl requestUrl base p segments) = hash requestUrl.
Proof.
  intros Hh Hb. unfold build_targetUrl, Url.set_protocol, Url.set_hostname. simpl.
  rewrite Hb.
  assert (S : Url.is_special (protocol requestUrl) = true).
  { unfold is_http in Hh. apply orb_true_iff in Hh.
    destruct Hh as [H|H]; apply String.eqb_eq in H; now rewrite H. }
  rewrite S. simpl. destruct (String.eqb p "openrouter"); now split.
Qed.

(** X12.  Only the host name and the scheme of the target are assigned: the
    outbound URL keeps the port of the inbound URL, unless that port is 443,
    and its fragment. *)
Theorem port_and_fragment_kept host request env c p key :
  authenticated request env p key ->
  caches_ok env c ->
  is_http (url request) = true ->
  exists cfg targetRequest,
    configs p = Some (OwnConfig cfg)
    /\ handed_to_transport host request env c cfg targetRequest
    /\ port (url targetRequest) = port_after_https (port (url request))
    /\ hash (url targetRequest) = hash (url request).
Proof.
  intros Ha Hc Hh.
  destruct (authenticated_forwarded host request env c p key Ha Hc)
    as [cfg [base [Hcfg [Hbase Hhand]]]].
  destruct Ha as [[_ [_ Hin]] _].
  destruct (supported_config_shape p Hin) as [cfg' [base' [Hcfg' [Hbase' [Hproto _]]]]].
  assert (cfg' = cfg) by congruence. subst cfg'.
  assert (base' = base) by congruence. subst base'.
  destruct (port_hash_build_targetUrl (url request) base p
              (urlPathParts_of (url request)) Hh Hproto) as [P H].
  eexists cfg, _. split; [exact Hcfg|]. split; [exact Hhand|].
  rewrite url_build_targetRequest.
  destruct (transformRequest cfg); simpl; now split.
Qed.

Lemma port_and_fragment_witness :
  exists targetRequest,
    sent (fetch mock_host local_request mockEnv EMPTY_CACHES) = [targetRequest]
    /\ port (url targetRequest) = "3000".
Proof.
  assert (Ha : authenticated local_request mockEnv "openai" "client-key-1").
  { split; [split; [discriminate|split; [reflexivity|simpl; auto]]|].
    split; reflexivity. }
  destruct (port_and_fragment_kept mock_host local_request mockEnv EMPTY_CACHES
              "openai" "client-key-1" Ha (caches_ok_empty mockEnv) eq_refl)
    as [cfg [t [_ [Hh [P _]]]]].
  exists t. split; [|exact P].
  now apply (handed_sent mock_host local_request mockEnv EMPTY_CACHES cfg).
Defined.

End ForwardedDetails.

(** ** What comes back from the provider *)

Section UpstreamOutcome.

(** X13.  When the network call fails, the dispatcher answers 500 "Internal server
    error" whose message is the failure's message (or "Unknown error" for a
    thrown value that is not an Error); the outbound request was the one
    request sent and nothing is retried. *)
Theorem transport_failure_reply host request env c p key (error : Thrown) :
  authenticated request env p key ->
  caches_ok env c ->
  PROXY_URL env = None ->
  (forall outbound, global_fetch host outbound = Throw error) ->
  let handled := fetch host request env c in
  response handled = internal_error_response request error
  /\ status (response handled) = 500%Z
  /\ json_field (response handled) "error" = Some (JStr "Internal server error")
  /\ json_field (response handled) "message" = Some (JStr (thrown_message error))
  /\ length (sent handled) = 1%nat.
Proof.
  intros Ha Hc Hproxy Hdown handled.
  destruct (authenticated_forwarded host request env c p key Ha Hc)
    as [cfg [base [Hcfg [_ [c' Hf]]]]].
  subst handled. rewrite Hf. unfold and_then.
  rewrite fetchWithProxy_direct by assumption. rewrite Hdown. simpl.
  repeat split. now destruct error.
Qed.

Lemma transport_failure_witness :
  json_field
    (response (fetch (unreachable_host (ErrorObject (mkError "Network error" None)))
                 whitelisted_request mockEnv EMPTY_CACHES)) "message"
  = Some (JStr "Network error").
Proof.
  assert (Ha : authenticated whitelisted_request mockEnv "anthropic" "client-key-1").
  { split; [split; [discriminate|split; [reflexivity|simpl; auto]]|].
    split; reflexivity. }
  exact (proj1 (proj2 (proj2 (proj2
           (transport_failure_reply
              (unreachable_host (ErrorObject (mkError "Network error" None)))
              whitelisted_request mockEnv EMPTY_CACHES "anthropic" "client-key-1"
              (ErrorObject (mkError "Network error" None)) Ha
              (caches_ok_empty mockEnv) eq_refl (fun _ => eq_refl)))))).
Defined.

Lemma relay_response_verbatim host (cfg : ApiConfig) (upstream : Upstream) :
  relayable upstream ->
  transformResponse cfg = None \/ transformResponse cfg = Some vertexai_transformResponse ->
  relay_response host cfg upstream
  = Ok (mkResponse (up_status upstream) (up_statusText upstream)
          (Headers.set
             (Headers.set (Headers.set (up_headers upstream) CORS_ORIGIN "*")
                CORS_METHODS ALLOW_METHODS)
             CORS_HEADERS ALLOW_HEADERS)
          (up_body upstream)).
Proof.
  intros [[Hlo Hhi] Hbody] Htr. unfold relay_response, new_Response.
  assert (R : negb ((200 <=? up_status upstream) && (up_status upstream <=? 599))%Z = false).
  { apply negb_false_iff, andb_true_iff. split; now apply Z.leb_le. }
  rewrite R.
  assert (B : match up_body upstream with
              | Some _ => existsb (Z.eqb (up_status upstream)) NULL_BODY_STATUS = false
              | None => True
              end).
  { destruct (up_body upstream); [|exact I].
    destruct Hbody as [H|H]; [discriminate|].
    destruct (existsb _ _) eqn:E; [|reflexivity].
    apply existsb_exists in E. destruct E as [z [Hz E]].
    apply Z.eqb_eq in E. subst z. contradiction. }
  destruct (up_body upstream); [rewrite B|];
    destruct Htr as [-> | ->]; reflexivity.
Qed.

(** X14.  The provider's answer is relayed as it is, error statuses included:
    status, status text and body are upstream's, and so is every header
    except the three CORS headers, which the worker overwrites. *)
Theorem upstream_reply_relayed host request env c p key (upstream : Upstream) :
  authenticated request env p key ->
  caches_ok env c ->
  PROXY_URL env = None ->
  (forall outbound, global_fetch host outbound = Ok upstream) ->
  relayable upstream ->
  let reply := response (fetch host request env c) in
  status reply = up_status upstream
  /\ statusText reply = up_statusText upstream
  /\ resp_body reply = up_body upstream
  /\ (forall name, cors_name name = false ->
                   header reply name = Headers.get (up_headers upstream) name)
  /\ header reply CORS_ORIGIN = Some "*".
Proof.
  intros Ha Hc Hproxy Hup Hok reply.
  destruct (authenticated_forwarded host request env c p key Ha Hc)
    as [cfg [base [Hcfg [_ [c' Hf]]]]].
  pose proof (table_transformResponse p cfg Hcfg) as Htr.
  subst reply. rewrite Hf. unfold and_then.
  rewrite fetchWithProxy_direct by assumption. rewrite Hup. simpl.
  rewrite (relay_response_verbatim host cfg upstream Hok Htr). simpl.
  split; [reflexivity|]. split; [reflexivity|]. split; [reflexivity|]. split.
  - intros name Hn. unfold header, cors_name in *. simpl.
    apply orb_false_iff in Hn. destruct Hn as [Hn H3].
    apply orb_false_iff in Hn. destruct Hn as [H1 H2].
    now rewrite !get_set, H1, H2, H3.
  - unfold header. simpl. now rewrite !get_set.
Qed.

Lemma upstream_reply_witness :
  let reply := response (fetch (answering_host rate_limited) whitelisted_request
                           mockEnv EMPTY_CACHES) in
  status reply = 429%Z
  /\ header reply "Retry-After" = Some "30"
  /\ header reply CORS_ORIGIN = Some "*".
Proof.
  assert (Ha : authenticated whitelisted_request mockEnv "anthropic" "client-key-1").
  { split; [split; [discriminate|split; [reflexivity|simpl; auto]]|].
    split; reflexivity. }
  assert (Hok : relayable rate_limited).
  { split; [simpl; lia|]. right. simpl. intuition discriminate. }
  destruct (upstream_reply_relayed (answering_host rate_limited) whitelisted_request
              mockEnv EMPTY_CACHES "anthropic" "client-key-1" rate_limited Ha
              (caches_ok_empty mockEnv) eq_refl (fun _ => eq_refl) Hok)
    as [S [_ [_ [H O]]]].
  split; [exact S|]. split; [|exact O].
  now rewrite (H "Retry-After" eq_refl).
Defined.

End UpstreamOutcome.

(** ** The outbound transport *)

Section Transport.

Lemma fetchWithProxy_calls host (targetRequest : Request) env :
  fst (fetchWithProxy host targetRequest env) = []
  \/ exists outbound, fst (fetchWithProxy host targetRequest env) = [outbound].
Proof.
  unfold fetchWithProxy, call_global_fetch.
  destruct (present (PROXY_URL env)); [destruct (URL_parse host _)|]; simpl; eauto.
Qed.

(** Whatever is sent while a request is served was sent by one call of the
    transport. *)
Lemma sent_from_transport host request env c :
  sent (fetch host request env c) = []
  \/ exists targetRequest,
       sent (fetch host request env c) = fst (fetchWithProxy host targetRequest env).
Proof.
  unfold fetch. destruct (String.eqb _ _); [now left|].
  assert (F : forall config p key segments,
             fst (forward host request env p config key segments) = []
             \/ exists t, fst (forward host request env p config key segments)
                          = fst (fetchWithProxy host t env)).
  { intros config p key segments. unfold forward.
    destruct config as [cfg|]; [|now left].
    destruct (targetRequest_of _ _ _ _ _) as [t|]; [|now left].
    right. now exists t. }
  assert (T : forall key,
             fst (translate host request env key) = []
             \/ exists t, fst (translate host request env key)
                          = fst (fetchWithProxy host t env)).
  { intros key. unfold translate.
    destruct (bind _ _) as [[m g]|e]; [|now left]. right. eauto. }
  unfold fetch_try.
  destruct (startsWith _ _).
  - unfold handleClaudeGeminiTranslation.
    destruct (present (geminiApiKey_of request)) as [key|]; [|now left].
    destruct (getAllowedKeysForProvider "gemini" env c) as [ks c1].
    destruct (rejected ks key); [now left|].
    rewrite sent_or_internal_error. apply T.
  - destruct (present (clientApiKey_of request)) as [key|]; [|now left].
    destruct (_ <? 2)%nat; [now left|].
    destruct (getApiConfig _ env c) as [[config|] c1]; [|now left].
    destruct (getAllowedKeysForProvider _ env c1) as [ks c2].
    destruct (rejected ks key); [now left|].
    rewrite sent_or_internal_error. apply F.
Qed.

(** X15.  Serving one inbound request never makes more than one outbound call:
    nothing is retried, and a preflight or a request refused by the worker
    makes none. *)
Theorem at_most_one_outbound_call host request env c :
  (length (sent (fetch host request env c)) <= 1)%nat.
Proof.
  destruct (sent_from_transport host request env c) as [-> | [t ->]]; [simpl; lia|].
  destruct (fetchWithProxy_calls host t env) as [-> | [r ->]]; simpl; lia.
Qed.



(** X17.  A proxy address that does not parse as a URL stops every outbound call:
    nothing is sent, directly or otherwise. *)
Theorem unparseable_proxy_sends_nothing host request env c (proxy : string) :
  present (PROXY_URL env) = Some proxy ->
  URL_parse host proxy = None ->
  sent (fetch host request env c) = [].
Proof.
  intros Hp Hu.
  destruct (sent_from_transport host request env c) as [E | [t E]]; [exact E|].
  rewrite E. unfold fetchWithProxy. now rewrite Hp, Hu.
Qed.

Lemma unparseable_proxy_witness :
  sent (fetch mock_host whitelisted_request proxyEnv EMPTY_CACHES) = [].
Proof.
  exact (unparseable_proxy_sends_nothing mock_host whitelisted_request proxyEnv
           EMPTY_CACHES "https://proxy.example.com" eq_refl eq_refl).
Defined.

End Transport.

(** ** The caches over the life of a process *)

Section CacheLife.

Lemma caches_extend_refl (c : Caches) : caches_extend c c.
Proof. now split. Qed.

Lemma caches_extend_trans (c1 c2 c3 : Caches) :
  caches_extend c1 c2 -> caches_extend c2 c3 -> caches_extend c1 c3.
Proof. intros [A1 K1] [A2 K2]. split; intros k v H; auto. Qed.

Lemma getApiConfig_extends (p : string) (env : Env) (c : Caches) :
  caches_extend c (snd (getApiConfig p env c)).
Proof.
  unfold getApiConfig.
  destruct (API_CONFIG_CACHE c !! p) eqn:E; [apply caches_extend_refl|].
  destruct (configs p); [|apply caches_extend_refl].
  split; simpl; intros k v H; [|exact H].
  destruct (decide (p = k)) as [<-|Hne]; [congruence|].
  now rewrite lookup_insert_ne.
Qed.

Lemma getAllowedKeysForProvider_extends (p : string) (env : Env) (c : Caches) :
  caches_extend c (snd (getAllowedKeysForProvider p env c)).
Proof.
  unfold getAllowedKeysForProvider.
  destruct (ALLOWED_KEYS_CACHE c !! cacheKey p env) eqn:E; [apply caches_extend_refl|].
  split; simpl; intros k v H; [exact H|].
  destruct (decide (cacheKey p env = k)) as [<-|Hne]; [congruence|].
  now rewrite lookup_insert_ne.
Qed.

(** X18.  The caches only grow: serving a request never removes an entry and never
    changes the value of one. *)
Theorem caches_only_grow host request env c :
  caches_extend c (caches (fetch host request env c)).
Proof.
  unfold fetch. destruct (String.eqb _ _); [apply caches_extend_refl|].
  assert (E : caches_extend c (snd (fetch_try host request env c))).
  { unfold fetch_try. destruct (startsWith _ _).
    - unfold handleClaudeGeminiTranslation.
      destruct (present (geminiApiKey_of request)); [|apply caches_extend_refl].
      pose proof (getAllowedKeysForProvider_extends "gemini" env c) as H.
      destruct (getAllowedKeysForProvider "gemini" env c) as [ks c1].
      now destruct (rejected ks _).
    - destruct (present (clientApiKey_of request)); [|apply caches_extend_refl].
      destruct (_ <? 2)%nat; [apply caches_extend_refl|].
      set (p := nth 0 _ _).
      pose proof (getApiConfig_extends p env c) as H1.
      destruct (getApiConfig p env c) as [[config|] c1]; [|exact H1].
      pose proof (getAllowedKeysForProvider_extends p env c1) as H2.
      destruct (getAllowedKeysForProvider p env c1) as [ks c2].
      simpl in H1, H2.
      destruct (rejected ks _); now apply (caches_extend_trans c c1 c2). }
  destruct (fetch_try host request env c) as [[tr [r|e]] c']; exact E.
Qed.

(** X19.  A second resolution of the same whitelist is answered from the cache:
    it gives the same keys and leaves the caches as the first one left
    them. *)
Theorem getAllowedKeysForProvider_memoized (p : string) (env : Env) (c : Caches) :
  getAllowedKeysForProvider p env (snd (getAllowedKeysForProvider p env c))
  = getAllowedKeysForProvider p env c.
Proof.
  unfold getAllowedKeysForProvider.
  destruct (ALLOWED_KEYS_CACHE c !! cacheKey p env) eqn:E; simpl.
  - now rewrite E.
  - now rewrite lookup_insert_eq.
Qed.

(** X20.  A second lookup of a provider is answered from the cache with the same
    entry and no further change; an unknown provider is never cached. *)
Theorem getApiConfig_memoized (p : string) (env : Env) (c : Caches) :
  getApiConfig p env (snd (getApiConfig p env c)) = getApiConfig p env c
  /\ (fst (getApiConfig p env c) = None -> snd (getApiConfig p env c) = c).
Proof.
  unfold getApiConfig.
  destruct (API_CONFIG_CACHE c !! p) eqn:E; simpl.
  - rewrite E. now split.
  - destruct (configs p) eqn:Hp; simpl.
    + rewrite lookup_insert_eq. split; [reflexivity|discriminate].
    + rewrite E. now split.
Qed.

(** X21.  Under one environment the caches are coherent at every point of a
    process's life: after any sequence of requests served from a cold start
    every cached entry is what the uncached computation gives. *)
Theorem caches_coherent_throughout host env (requests : list Request) :
  caches_ok env (caches_after host env requests).
Proof.
  unfold caches_after.
  assert (G : forall c, caches_ok env c ->
                        caches_ok env
                          (fold_left (fun c request => caches (fetch host request env c))
                             requests c)).
  { induction requests as [|request requests IH]; intros c Hc; simpl; [exact Hc|].
    apply IH. now apply fetch_caches_ok. }
  apply G, caches_ok_empty.
Qed.

End CacheLife.

(** ** Whitelist entries *)

Section WhitelistEntries.

Lemma split_pieces_free (sep : ascii) (s : string) :
  Forall (fun piece => mentions sep piece = false) (split sep s).
Proof.
  induction s as [|c s IH]; simpl; [now constructor|].
  destruct (Ascii.eqb c sep) eqn:E; [now constructor|].
  destruct (split sep s) as [|h t]; [constructor; [simpl; now rewrite E|constructor]|].
  inversion IH as [|? ? Hh Ht]; subst. constructor; [|exact Ht].
  simpl. now rewrite E, Hh.
Qed.

Lemma trimStart_free (c : ascii) (s : string) :
  mentions c s = false -> mentions c (trimStart s) = false.
Proof.
  induction s as [|d s IH]; simpl; [reflexivity|].
  intros H. apply orb_false_iff in H. destruct H as [H1 H2].
  destruct (is_space d); [now apply IH|]. simpl. now rewrite H1, H2.
Qed.

Lemma trimEnd_free (c : ascii) (s : string) :
  mentions c s = false -> mentions c (trimEnd s) = false.
Proof.
  induction s as [|d s IH]; simpl; [reflexivity|].
  intros H. apply orb_false_iff in H. destruct H as [H1 H2].
  destruct (is_space d && is_empty (trimEnd s)); [reflexivity|].
  simpl. now rewrite H1, (IH H2).
Qed.

Lemma trimEnd_idem (s : string) : trimEnd (trimEnd s) = trimEnd s.
Proof.
  induction s as [|d s IH]; simpl; [reflexivity|].
  destruct (is_space d && is_empty (trimEnd s)) eqn:E; [reflexivity|].
  simpl. now rewrite IH, E.
Qed.

Lemma trimStart_trimEnd (s : string) :
  trimStart s = s -> trimStart (trimEnd s) = trimEnd s.
Proof.
  destruct s as [|d s]; [reflexivity|]. intros H.
  assert (Hd : is_space d = false).
  { destruct (is_space d) eqn:E; [|reflexivity].
    simpl in H. rewrite E in H.
    destruct (trimStart_decompose s) as [a [Ha _]].
    apply (f_equal String.length) in H. rewrite Ha in H at 2.
    simpl in H. rewrite length_append in H. lia. }
  simpl. rewrite Hd. simpl. now rewrite Hd.
Qed.

Lemma trimStart_idem (s : string) : trimStart (trimStart s) = trimStart s.
Proof.
  induction s as [|d s IH]; simpl; [reflexivity|].
  destruct (is_space d) eqn:E; [exact IH|]. simpl. now rewrite E.
Qed.

(** Trimming twice is trimming once. *)
Lemma trim_idem (s : string) : trim (trim s) = trim s.
Proof.
  unfold trim.
  rewrite (trimStart_trimEnd (trimStart s) (trimStart_idem s)).
  apply trimEnd_idem.
Qed.

Lemma splitKeys_entries (v : option string) (key : string) :
  In key (splitKeys v) ->
  key <> "" /\ mentions "," key = false /\ trim key = key.
Proof.
  rewrite splitKeys_unfold. destruct v as [text|]; [|contradiction].
  intros H. apply List.filter_In in H. destruct H as [H Hne].
  apply in_map_iff in H. destruct H as [piece [<- Hp]].
  split; [now apply truthy_nonempty|]. split; [|apply trim_idem].
  pose proof (split_pieces_free "," text) as F.
  rewrite Forall_forall in F. unfold trim.
  apply trimEnd_free, trimStart_free, F, list_elem_of_In, Hp.
Qed.

(** X22.  Every key the resolver returns is non-empty, contains no comma and has
    no white space at either end; a credential that is empty, contains a
    comma or is padded with white space is therefore on no whitelist. *)
Theorem whitelist_entries_clean (p : string) (env : Env) (c : Caches) (key : string) :
  caches_ok env c ->
  In key (fst (getAllowedKeysForProvider p env c)) ->
  key <> "" /\ mentions "," key = false /\ trim key = key.
Proof.
  intros Hc. destruct (getAllowedKeysForProvider_ok env c p Hc) as [-> _].
  unfold keysOf.
  repeat (destruct (String.eqb p _); [apply splitKeys_entries|]).
  contradiction.
Qed.

Lemma whitelist_entries_witness :
  fst (getAllowedKeysForProvider "anthropic" paddedEnv EMPTY_CACHES)
  = [ "client-key-1"; "client-key-2" ]
  /\ trim "client-key-2" = "client-key-2".
Proof.
  split; [reflexivity|].
  apply (whitelist_entries_clean "anthropic" paddedEnv EMPTY_CACHES "client-key-2"
           (caches_ok_empty paddedEnv)).
  right. left. reflexivity.
Defined.

Lemma trimStart_all_space (s : string) : all_space s = true -> trimStart s = "".
Proof.
  induction s as [|d s IH]; simpl; [reflexivity|].
  intros H. apply andb_true_iff in H. destruct H as [H1 H2]. now rewrite H1, IH.
Qed.

Lemma blank_pieces (s : string) :
  blank s = true -> Forall (fun piece => all_space piece = true) (split "," s).
Proof.
  induction s as [|d s IH]; simpl; [now constructor|].
  intros H. apply andb_true_iff in H. destruct H as [H1 H2].
  specialize (IH H2).
  destruct (Ascii.eqb d ",") eqn:E; [now constructor|].
  simpl in H1.
  destruct (split "," s) as [|h t]; [constructor; [simpl; now rewrite H1|constructor]|].
  inversion IH as [|? ? Hh Ht]; subst. constructor; [|exact Ht].
  simpl. now rewrite H1, Hh.
Qed.

(** X23.  A whitelist variable that is unset, empty, or made of commas and white
    space only resolves to the empty list, and the gate then lets every
    credential through: such a value opens the provider instead of closing
    it. *)
Theorem blank_whitelist_is_open (v : option string) (key : string) :
  match v with
  | Some text => blank text = true
  | None => True
  end ->
  splitKeys v = [] /\ rejected (splitKeys v) key = false.
Proof.
  intros H.
  assert (E : splitKeys v = []).
  { rewrite splitKeys_unfold. destruct v as [text|]; [|reflexivity].
    pose proof (blank_pieces text H) as F.
    induction (split "," text) as [|piece pieces IH]; [reflexivity|].
    inversion F as [|? ? Hp Hps]; subst. simpl.
    unfold trim at 1. rewrite (trimStart_all_space piece Hp). simpl.
    now apply IH. }
  now rewrite E.
Qed.

Lemma blank_whitelist_witness :
  splitKeys (Some " , ,") = [] /\ rejected (splitKeys (Some " , ,")) "anything" = false.
Proof. exact (blank_whitelist_is_open (Some " , ,") "anything" eq_refl). Defined.

End WhitelistEntries.

(** ** The translation endpoint *)

Section Translator.


(** X24.  Whatever the model asked for, the mapped model starts with gemini-, so
    the translator only ever addresses a Gemini model; and the mapping
    leaves its own results alone. *)
Theorem mapped_model_is_gemini (model : option string) :
  startsWith (mapClaudeModelToGemini model) "gemini-" = true
  /\ mapClaudeModelToGemini (Some (mapClaudeModelToGemini model))
     = mapClaudeModelToGemini model.
Proof.
  rewrite !mapping_is_mapped_model.
  destruct model as [m|]; [|now split].
  rewrite (mapped_model_rules m).
  destruct (startsWith m "gemini-") eqn:H.
  - split; [exact H|]. now rewrite mapped_model_rules, H.
  - destruct (contains_ci m "haiku"); [now split|].
    destruct (_ || _); now split.
Qed.


(** X25.  On the translation endpoint a request without a credential is answered
    401 and one whose credential is not on the Google whitelist is answered
    403 "Unauthorized", whichever vendor its model names and whatever its
    body: the body is not read and nothing is sent. *)
Theorem translator_refusals host request env c :
  method request <> "OPTIONS" ->
  startsWith (pathname (url request)) TRANSLATION_PREFIX = true ->
  caches_ok env c ->
  (present (geminiApiKey_of request) = None ->
   fetch host request env c = mkHandled gemini_missing_key_response c []
   /\ status gemini_missing_key_response = 401%Z)
  /\ (forall key,
        present (geminiApiKey_of request) = Some key ->
        rejected (whitelist "gemini" env) key = true ->
        exists c',
          fetch host request env c = mkHandled gemini_unauthorized_response c' []
          /\ status gemini_unauthorized_response = 403%Z
          /\ json_field gemini_unauthorized_response "error" = Some (JStr "Unauthorized")).
Proof.
  intros Hm Ht Hc. split.
  - intros Hk. apply String.eqb_neq in Hm.
    unfold fetch, fetch_try, handleClaudeGeminiTranslation. rewrite Hm, Ht, Hk.
    now split.
  - intros key Hk Hr.
    destruct (fetch_translation host request env c key Hm Ht Hk Hc) as [c' Hf].
    rewrite Hr in Hf. exists c'. now repeat split.
Qed.

Lemma translator_refusals_witness :
  exists c',
    fetch mock_host stranger_translation_request mockEnv EMPTY_CACHES
    = mkHandled gemini_unauthorized_response c' [].
Proof.
  assert (Hm : method stranger_translation_request <> "OPTIONS") by discriminate.
  destruct (proj2 (translator_refusals mock_host stranger_translation_request mockEnv
                     EMPTY_CACHES Hm eq_refl (caches_ok_empty mockEnv))
              "invalid-key" eq_refl eq_refl) as [c' [Hf _]].
  now exists c'.
Defined.



Lemma build_geminiRequest_no_messages host (parsed : Json) :
  has_messages parsed = false -> exists error, build_geminiRequest host parsed = Throw error.
Proof.
  unfold has_messages, field, build_geminiRequest. intros H.
  destruct parsed as [| | | | |fields]; simpl;
    try (eexists; reflexivity).
  destruct (mapClaudeModelToGemini_any host (Js.lookup fields "model")) as [m|e];
    simpl; [|eexists; reflexivity].
  destruct (Js.lookup fields "messages") as [[| | | | |]|]; simpl;
    try discriminate; eexists; reflexivity.
Qed.

(** X27.  A body that parses but has no messages array (none at all, null, or a
    value of another kind) is not answered as a client error: the translator
    throws on it, the reply is the 500 of the catch-all, and nothing is
    sent. *)
Theorem translator_bad_messages host request env c key (parsed : Json) :
  method request <> "OPTIONS" ->
  startsWith (pathname (url request)) TRANSLATION_PREFIX = true ->
  present (geminiApiKey_of request) = Some key ->
  caches_ok env c ->
  rejected (whitelist "gemini" env) key = false ->
  json host (body request) = Ok parsed ->
  has_messages parsed = false ->
  let handled := fetch host request env c in
  (exists error, response handled = internal_error_response request error)
  /\ status (response handled) = 500%Z
  /\ json_field (response handled) "error" = Some (JStr "Internal server error")
  /\ sent handled = [].
Proof.
  intros Hm Ht Hk Hc Hr Hj Hmsg handled.
  destruct (fetch_translation host request env c key Hm Ht Hk Hc) as [c' Hf].
  rewrite Hr in Hf.
  destruct (build_geminiRequest_no_messages host parsed Hmsg) as [error Hb].
  assert (T : translate host request env key = ([], Throw error)).
  { unfold translate. rewrite Hj. simpl. now rewrite Hb. }
  rewrite T in Hf. subst handled. rewrite Hf. simpl.
  split; [now exists error|]. repeat split.
Qed.

Lemma translator_bad_messages_witness :
  status (response (fetch mock_host no_messages_request mockEnv EMPTY_CACHES)) = 500%Z
  /\ sent (fetch mock_host no_messages_request mockEnv EMPTY_CACHES) = [].
Proof.
  assert (Hm : method no_messages_request <> "OPTIONS") by discriminate.
  destruct (translator_bad_messages mock_host no_messages_request mockEnv EMPTY_CACHES
              "client-key-1"
              (JObj [ ("model", JStr "claude-3-opus"); ("prompt", JStr "Hi") ])
              Hm eq_refl eq_refl (caches_ok_empty mockEnv) eq_refl eq_refl eq_refl)
    as [_ [S [_ N]]].
  now split.
Defined.

(** X28.  An upstream answer whose body does not parse as JSON, an HTML error page
    for one, makes the translator answer 500 with the parser's message,
    whatever the upstream status was; one request was sent. *)
Theorem translator_unparseable_upstream host request env c key
    (parsed : Json) (upstream : Upstream) (e : ErrorInfo) :
  method request <> "OPTIONS" ->
  startsWith (pathname (url request)) TRANSLATION_PREFIX = true ->
  present (geminiApiKey_of request) = Some key ->
  caches_ok env c ->
  rejected (whitelist "gemini" env) key = false ->
  json host (body request) = Ok parsed ->
  (exists built, build_geminiRequest host parsed = Ok built) ->
  PROXY_URL env = None ->
  (forall outbound, global_fetch host outbound = Ok upstream) ->
  json host (up_body upstream) = Throw (ErrorObject e) ->
  let handled := fetch host request env c in
  response handled = internal_error_response request (ErrorObject e)
  /\ status (response handled) = 500%Z
  /\ json_field (response handled) "message" = Some (JStr (message e))
  /\ length (sent handled) = 1%nat.
Proof.
  intros Hm Ht Hk Hc Hr Hp [[m g] Hb] Hproxy Hup Hj handled.
  destruct (fetch_translation host request env c key Hm Ht Hk Hc) as [c' Hf].
  rewrite Hr in Hf. subst handled. rewrite Hf.
  unfold translate. rewrite Hp. simpl. rewrite Hb. unfold and_then.
  rewrite fetchWithProxy_direct by assumption. rewrite Hup. simpl.
  unfold translate_response. rewrite Hj. simpl. repeat split.
Qed.

Lemma translator_unparseable_witness :
  status (response (fetch (answering_host html_upstream) translation_request
                      mockEnv EMPTY_CACHES)) = 500%Z.
Proof.
  assert (Hm : method translation_request <> "OPTIONS") by discriminate.
  refine (proj1 (proj2
            (translator_unparseable_upstream (answering_host html_upstream)
               translation_request mockEnv EMPTY_CACHES "client-key-1" messages_body
               html_upstream (mkError "Unexpected token in JSON" None)
               Hm eq_refl eq_refl (caches_ok_empty mockEnv) eq_refl eq_refl _ eq_refl
               (fun _ => eq_refl) eq_refl))).
  eexists. reflexivity.
Defined.

End Translator.

(** ** The replies of the entry point *)

Section Replies.

Lemma translate_reply_kind host request env key (r : Response) :
  snd (translate host request env key) = Ok r -> translated_reply r.
Proof.
  unfold translate.
  destruct (bind _ _) as [[geminiModel geminiRequest]|e]; [|discriminate].
  unfold and_then. simpl.
  destruct (snd (fetchWithProxy _ _ _)) as [geminiResp|e]; [|discriminate].
  simpl. unfold translate_response.
  destruct (json host (up_body geminiResp)) as [geminiData|e]; [|discriminate].
  simpl. unfold build_anthropicResponse.
  destruct (get_prop host geminiData "candidates") as [candidates|e]; [|discriminate].
  simpl.
  destruct (opt_prop host (opt_index0 candidates) "content") as [candidate|e];
    [|discriminate].
  simpl. destruct (candidate_text host candidate) as [text|e]; [|discriminate].
  simpl. destruct (get_prop host geminiData "usage") as [usage|e]; [|discriminate].
  simpl. intros [= <-]. now repeat split.
Qed.

Lemma internal_error_envelope request (error : Thrown) :
  error_envelope (internal_error_response request error).
Proof.
  split; [simpl; auto 10|]. split; [reflexivity|]. split; [now eexists|].
  destruct error; now eexists.
Qed.

(** X29.  Every reply of the entry point is of one of four kinds: the preflight
    reply; an error the worker wrote, which has status 400, 401, 403 or 500
    and a JSON body with the members error and message; a reply relayed from
    a provider; or a translated reply with status 200, type message and role
    assistant.  No exception escapes. *)
Theorem reply_kinds host request env c :
  caches_ok env c ->
  let r := response (fetch host request env c) in
  r = preflight_response
  \/ error_envelope r
  \/ relayed_reply host r
  \/ translated_reply r.
Proof.
  intros Hc r. subst r. unfold fetch.
  destruct (String.eqb (method request) "OPTIONS"); [now left|]. right.
  assert (E : forall st fields e m,
             In st [400; 401; 403; 500]%Z ->
             error_envelope
               (json_response st (("error", str e) :: ("message", str m) :: fields))).
  { intros st fields e m Hst. split; [exact Hst|]. split; [reflexivity|].
    split; now eexists. }
  assert (K : forall x : Traced Response * Caches,
             (forall r, snd (fst x) = Ok r ->
                        error_envelope r \/ relayed_reply host r \/ translated_reply r) ->
             let r := response (or_internal_error request x) in
             error_envelope r \/ relayed_reply host r \/ translated_reply r).
  { intros [[tr [r|e]] c'] H; simpl; [now apply H|].
    left. apply internal_error_envelope. }
  apply K. unfold fetch_try.
  destruct (startsWith _ _).
  - unfold handleClaudeGeminiTranslation.
    destruct (present (geminiApiKey_of request)) as [key|].
    + destruct (getAllowedKeysForProvider "gemini" env c) as [ks c1].
      destruct (rejected ks key); simpl.
      * intros r [= <-]. left. apply E. simpl; auto.
      * intros r H. right. right.
        now apply (translate_reply_kind host request env key).
    + simpl. intros r [= <-]. left. apply E. simpl; auto.
  - destruct (present (clientApiKey_of request)) as [key|].
    + destruct (_ <? 2)%nat; [simpl; intros r [= <-]; left; apply E; simpl; auto|].
      set (p := nth 0 _ _).
      destruct (getApiConfig_ok env c p Hc) as [E1 Hc1].
      destruct (getApiConfig p env c) as [cfg c1]. simpl in E1.
      destruct cfg as [config|]; [|simpl; intros r [= <-]; left; apply E; simpl; auto].
      destruct (getAllowedKeysForProvider p env c1) as [ks c2].
      destruct (rejected ks key); simpl.
      * intros r [= <-]. left. apply E. simpl; auto.
      * intros r H. right. left.
        now apply (forward_reply host request env p config key
                     (urlPathParts_of (url request)) r).
    + simpl. intros r [= <-]. left. apply E. simpl; auto.
Qed.

Lemma reply_kinds_witness :
  error_envelope (response (fetch mock_host no_key_request mockEnv EMPTY_CACHES))
  \/ relayed_reply mock_host (response (fetch mock_host no_key_request mockEnv EMPTY_CACHES))
  \/ translated_reply (response (fetch mock_host no_key_request mockEnv EMPTY_CACHES)).
Proof.
  destruct (reply_kinds mock_host no_key_request mockEnv EMPTY_CACHES
              (caches_ok_empty mockEnv)) as [H|H]; [discriminate H|exact H].
Defined.

End Replies.

Section PassThrough.

(** X9.  Content-type, the beta and organization markers and the project header
    reach the provider exactly as the caller sent them; one the caller did
    not send, or sent empty, is absent from the outbound request. *)
Theorem pass_through_headers_forwarded host request env c p key :
  authenticated request env p key ->
  caches_ok env c ->
  exists cfg targetRequest,
    configs p = Some (OwnConfig cfg)
    /\ handed_to_transport host request env c cfg targetRequest
    /\ forall name, In name PLAIN_PASS_THROUGH ->
         Headers.get (headers targetRequest) name = supplied request name.
Proof.
  intros Ha Hc.
  destruct (authenticated_forwarded host request env c p key Ha Hc)
    as [cfg [base [Hcfg [_ Hh]]]].
  destruct Ha as [[_ [_ Hin]] _].
  destruct (supported_credential_header p cfg Hin Hcfg) as [Hmask [Hkey _]].
  eexists cfg, _. split; [exact Hcfg|]. split; [exact Hh|].
  intros name Hname. rewrite headers_build_targetRequest.
  unfold build_headers. rewrite Hmask.
  assert (G : Headers.get (set_api_key_header cfg key []) name = None).
  { rewrite get_set_api_key_header. simpl in Hkey, Hname.
    destruct Hkey as [<-|[<-|[<-|[]]]];
      repeat (destruct Hname as [<-|Hname]; [reflexivity|]); contradiction. }
  simpl in Hname.
  repeat (destruct Hname as [<-|Hname];
          [rewrite get_maskClientInfo, get_set_default_user_agent,
             get_set_default_version, get_copy_relevant_headers by reflexivity;
           rewrite G; now destruct (supplied request _)|]).
  contradiction.
Qed.

Lemma pass_through_witness :
  exists targetRequest,
    sent (fetch mock_host leaky_request mockEnv EMPTY_CACHES) = [targetRequest]
    /\ Headers.get (headers targetRequest) "content-type" = Some "application/json".
Proof.
  destruct (pass_through_headers_forwarded mock_host leaky_request mockEnv EMPTY_CACHES
              "anthropic" "client-key-1" leaky_request_authenticated
              (caches_ok_empty mockEnv))
    as [cfg [t [_ [Hh G]]]].
  exists t. split; [now apply (handed_sent mock_host leaky_request mockEnv EMPTY_CACHES cfg)|].
  rewrite (G "content-type"); [reflexivity|simpl; auto].
Defined.

End PassThrough.
